(** * Ramble Mode V2: the transcription request handlers

    A shallow embedding of the two FastAPI services of the repository,
    [src/ramble_mode_v2.py] (one model, speaker labels) and
    [src/ramble_mode_v2_multi.py] (model selected per request), and the
    properties of their [/transcribe] handlers.

    Python values are modelled as follows:
    - [float] is IEEE 754 binary64, here the kernel's primitive floats;
    - [str] is [string], holding the UTF-8 bytes of the text;
    - [dict] literals that become JSON are association lists in source order;
    - the files on disk are a finite set of paths, the model cache a finite map;
    - exceptions, [try]/[except]/[finally] and the process state are a state
      and exception monad;
    - what the handlers print is left out.

    Each [/transcribe] handler is given twice: [transcribe] is the handler
    when no file operation fails, and [transcribe_on] is the handler on a
    [filesystem] that says which of its reads, writes and removals
    raise. *)

From Stdlib Require Import ZArith String Ascii Floats DecimalString.
From stdpp Require Import gmap strings list.

Open Scope Z_scope.

(** ** Python built-ins used by the handlers *)

Module Py.

(** [str(n)] for a non-negative [int], as an f-string prints it. *)
Definition str_of_nat (n : nat) : string :=
  NilEmpty.string_of_uint (Nat.to_uint n).

(** The UTF-8 bytes of a code point. *)
Definition utf8 (n : N) : string :=
  if (n <? 128)%N then String (ascii_of_N n) EmptyString
  else if (n <? 2048)%N then
    String (ascii_of_N (192 + n / 64))
      (String (ascii_of_N (128 + n mod 64)) EmptyString)
  else if (n <? 65536)%N then
    String (ascii_of_N (224 + n / 4096))
      (String (ascii_of_N (128 + (n / 64) mod 64))
         (String (ascii_of_N (128 + n mod 64)) EmptyString))
  else
    String (ascii_of_N (240 + n / 262144))
      (String (ascii_of_N (128 + (n / 4096) mod 64))
         (String (ascii_of_N (128 + (n / 64) mod 64))
            (String (ascii_of_N (128 + n mod 64)) EmptyString))).

(** The code points [c] with [c.isspace()], which [str.strip] removes: TAB to
    CR, FS to US, SPACE, NEL, NO-BREAK SPACE, OGHAM SPACE MARK, EN QUAD to HAIR
    SPACE, LINE and PARAGRAPH SEPARATOR, NARROW NO-BREAK SPACE, MEDIUM
    MATHEMATICAL SPACE and IDEOGRAPHIC SPACE. *)
Definition whitespace_points : list N :=
  [9; 10; 11; 12; 13; 28; 29; 30; 31; 32; 133; 160; 5760;
   8192; 8193; 8194; 8195; 8196; 8197; 8198; 8199; 8200; 8201; 8202;
   8232; 8233; 8239; 8287; 12288]%N.

Definition whitespace : list string := utf8 <$> whitespace_points.

(** [c.isspace()] for a string [c] of one code point. *)
Definition isspace (c : string) : bool := bool_decide (c ∈ whitespace).

(** [s.lstrip()] with no argument: code points are taken off the front as
    long as they are whitespace; one of them takes one, two or three bytes. *)
Fixpoint lstrip (s : string) : string :=
  match s with
  | EmptyString => EmptyString
  | String a s1 =>
      if isspace (String a EmptyString) then lstrip s1
      else
        match s1 with
        | EmptyString => s
        | String b s2 =>
            if isspace (String a (String b EmptyString)) then lstrip s2
            else
              match s2 with
              | EmptyString => s
              | String c s3 =>
                  if isspace (String a (String b (String c EmptyString)))
                  then lstrip s3 else s
              end
        end
  end.

(** [s.rstrip()] with no argument: the text up to the point from which
    nothing but whitespace follows. *)
Fixpoint rstrip (s : string) : string :=
  match s with
  | EmptyString => EmptyString
  | String a s1 =>
      if String.eqb (lstrip s) EmptyString then EmptyString
      else String a (rstrip s1)
  end.

(** [s.strip()] with no argument. *)
Definition strip (s : string) : string := rstrip (lstrip s).

(** [s.replace(old, new)]: every non-overlapping occurrence of [old], from the
    left.  [skip] counts the bytes of a match still to be dropped. *)
Fixpoint replace_from (old new : string) (skip : nat) (s : string) : string :=
  match s with
  | EmptyString => EmptyString
  | String c rest =>
      match skip with
      | S k => replace_from old new k rest
      | O =>
          if String.prefix old s
          then new +:+ replace_from old new (String.length old - 1) rest
          else String c (replace_from old new 0 rest)
      end
  end.

(** Whether a byte continues the code point that an earlier byte began. *)
Definition continuation (c : ascii) : bool :=
  let n := nat_of_ascii c in ((128 <=? n) && (n <? 192))%nat.

(** With an empty [old], Python puts [new] before every code point and at the
    end. *)
Fixpoint replace_empty (new s : string) : string :=
  match s with
  | EmptyString => new
  | String c rest =>
      (if continuation c then EmptyString else new)
      +:+ String c (replace_empty new rest)
  end.

Definition replace (s old new : string) : string :=
  match old with
  | EmptyString => replace_empty new s
  | _ => replace_from old new 0 s
  end.

(** The integer nearest to [m * 2^e] for [0 <= m], ties to the even one. *)
Definition nearest_even (m e : Z) : Z :=
  if 0 <=? e then m * 2 ^ e
  else
    let d := 2 ^ (- e) in
    let q := m / d in
    let r := m mod d in
    if 2 * r <? d then q
    else if d <? 2 * r then q + 1
    else if Z.even q then q else q + 1.

(** [round(x, 2)] on a float (CPython's [float.__round__], the correctly
    rounded version): the exact value of [x] is rounded to the nearest multiple
    of 1/100, ties to even, and that decimal is read back as the nearest
    binary64.  Zeros, infinities and NaN round to themselves, and a value
    that rounds to zero keeps its sign. *)
Definition round2 (x : float) : float :=
  match Prim2SF x with
  | S754_finite s m e =>
      match nearest_even (Z.pos m * 100) e with
      | Z.pos n =>
          SF2Prim (SFdiv prec emax (S754_finite s n 0) (S754_finite false 100 0))
      | _ => SF2Prim (S754_zero s)
      end
  | _ => x
  end.

End Py.

(** ** JSON values and HTTP responses *)

Set Warnings "-register-all,-clear-no-such-hyp".

(** What a handler returns: FastAPI serialises a returned [dict] with status
    200, a [JSONResponse] carries its own status code. *)
Inductive json : Type :=
  | JInt (n : Z)
  | JFloat (x : float)
  | JBool (b : bool)
  | JStr (s : string)
  | JList (l : list json)
  | JObj (fields : list (string * json)).

(** [d.get(key)] on an association list written in source order. *)
Fixpoint assoc {A : Type} (key : string) (d : list (string * A)) : option A :=
  match d with
  | [] => None
  | (k, v) :: d' => if String.eqb k key then Some v else assoc key d'
  end.

Definition field (key : string) (j : json) : option json :=
  match j with
  | JObj d => assoc key d
  | _ => None
  end.

Record response : Type := JSONResponse { content : json; status_code : Z }.

Definition returned_dict (d : list (string * json)) : response :=
  JSONResponse (JObj d) 200.

(** ** Exceptions, the process state and the handler monad *)

(** The classes the handlers tell apart: [subprocess.TimeoutExpired], any
    other subclass of [Exception], and what only [BaseException] covers (such
    as a cancellation), which no [except] clause of the handlers catches. *)
Inductive exn_class : Type := TimeoutExpired | OtherException | BaseOnly.

(** An exception with what the handlers read from it: [str(e)] and the text
    [traceback.format_exc()] gives while it is being handled. *)
Record exn : Type := Exn {
  class_of : exn_class;
  str : string;
  format_exc : string
}.

Definition is_Exception (e : exn) : bool :=
  match class_of e with
  | BaseOnly => false
  | _ => true
  end.

Definition is_TimeoutExpired (e : exn) : bool :=
  match class_of e with
  | TimeoutExpired => true
  | _ => false
  end.

(** A loaded Whisper model: its size name, where its weights were read from
    and the device it was moved to. *)
Record model_handle : Type := Model {
  model_name : string;
  download_root : option string;
  on_device : string
}.

(** The state of the server process that the handlers touch: the files on
    disk and the dictionary [loaded_models].  [loads] is not a variable of the
    source: it counts the calls of [whisper.load_model] made so far. *)
Record process : Type := Process {
  files : gset string;
  loaded_models : gmap string model_handle;
  loads : nat
}.

Inductive outcome (A : Type) : Type :=
  | Returned (a : A)
  | Raised (e : exn).
Arguments Returned {A} a.
Arguments Raised {A} e.

Definition py (A : Type) : Type := process -> outcome A * process.

Definition ret {A : Type} (a : A) : py A := fun st => (Returned a, st).

Definition bind {A B : Type} (m : py A) (k : A -> py B) : py B :=
  fun st =>
    match m st with
    | (Returned a, st') => k a st'
    | (Raised e, st') => (Raised e, st')
    end.

Declare Scope py_scope.
Delimit Scope py_scope with py.
Notation "x <- m ;; k" := (bind m (fun x => k))
  (at level 100, m at next level, right associativity) : py_scope.
Notation "m ;;; k" := (bind m (fun _ => k))
  (at level 100, right associativity) : py_scope.
Open Scope py_scope.

Definition gets {A : Type} (f : process -> A) : py A :=
  fun st => (Returned (f st), st).

Definition modify (f : process -> process) : py unit :=
  fun st => (Returned tt, f st).

(** [try: body  except C1: h1  except C2: h2 ...]: the first clause whose
    class test accepts the exception handles it; an exception that no clause
    accepts, or one raised by a handler, leaves the statement. *)
Definition except_clause (A : Type) : Type := (exn -> bool) * (exn -> py A).

Definition try_except {A : Type} (body : py A) (clauses : list (except_clause A))
    : py A :=
  fun st =>
    match body st with
    | (Raised e, st') =>
        match List.find (fun c : except_clause A => fst c e) clauses with
        | Some c => snd c e st'
        | None => (Raised e, st')
        end
    | done => done
    end.

(** [try: body  finally: cleanup], for a [cleanup] that neither returns nor
    raises: the outcome of [body] stands, the state is the one [cleanup]
    leaves. *)
Definition try_finally {A : Type} (body : py A) (cleanup : process -> process)
    : py A :=
  fun st => let '(r, st') := body st in (r, cleanup st').

(** [os.path.exists(path)] and [os.unlink(path)]. *)
Definition exists_ (path : string) (st : process) : bool :=
  bool_decide (path ∈ files st).

Definition with_files (f : gset string -> gset string) (st : process) : process :=
  Process (f (files st)) (loaded_models st) (loads st).

Definition unlink (path : string) : process -> process :=
  with_files (fun fs => fs ∖ {[path]}).

Definition create (path : string) : process -> process :=
  with_files (fun fs => {[path]} ∪ fs).

(** The [finally] block of both handlers:
    [for path in paths: if os.path.exists(path): os.unlink(path)]. *)
Fixpoint cleanup (paths : list string) (st : process) : process :=
  match paths with
  | [] => st
  | path :: rest =>
      cleanup rest (if exists_ path st then unlink path st else st)
  end.

(** ** Whisper results and the world outside the handler *)

(** One entry of [result["segments"]]. *)
Record raw_segment : Type := RawSegment {
  raw_start : float;
  raw_end : float;
  raw_text : string
}.

(** The [dict] that [model.transcribe] returns; a key may be missing. *)
Record whisper_result : Type := WhisperResult {
  res_segments : option (list raw_segment);
  res_text : option string;
  res_language : option string
}.

(** How [subprocess.run] ended: with a [CompletedProcess] or by raising
    ([TimeoutExpired] after 30 seconds, [FileNotFoundError], ...). *)
Inductive ran : Type :=
  | Completed (returncode : Z) (stderr : string)
  | Threw (e : exn).

(** Everything the handler does not decide itself. *)
Record world : Type := World {
  cuda_is_available : bool;
  (** directory and random name that [tempfile] picks, without the suffix *)
  tmp_stem : string;
  (** ffmpeg on an input and an output path: how the run ended and whether it
      left a file at the output path *)
  ffmpeg : string -> string -> ran * bool;
  (** [whisper.load_model(name, download_root)]: [None] when it loads *)
  load_model : string -> option string -> option exn;
  (** [model.transcribe(path, **options)] *)
  model_transcribe :
    model_handle -> string -> list (string * json) -> outcome whisper_result
}.

Definition device (w : world) : string :=
  if cuda_is_available w then "cuda" else "cpu".

(** [tempfile.NamedTemporaryFile(suffix=suffix, delete=False)], written and
    closed: the file stays on disk under the returned name.  (For a write
    that fails see [write_upload].) *)
Definition NamedTemporaryFile (w : world) (suffix : string) : py string :=
  fun st =>
    let path := tmp_stem w +:+ suffix in
    (Returned path, create path st).

(** [subprocess.run(["ffmpeg", "-i", src, ..., "-y", dst], timeout=30)]. *)
Definition subprocess_run (w : world) (src dst : string) : py (Z * string) :=
  fun st =>
    let '(r, wrote) := ffmpeg w src dst in
    let st' := if wrote then create dst st else st in
    match r with
    | Completed returncode stderr => (Returned (returncode, stderr), st')
    | Threw e => (Raised e, st')
    end.

(** [whisper.load_model(name, download_root=root).to(device)]. *)
Definition whisper_load_model (w : world) (name : string) (root : option string)
    : py model_handle :=
  fun st =>
    let st' := Process (files st) (loaded_models st) (S (loads st)) in
    match load_model w name root with
    | None => (Returned (Model name root (device w)), st')
    | Some e => (Raised e, st')
    end.

Definition call_transcribe (w : world) (m : model_handle) (path : string)
    (options : list (string * json)) : py whisper_result :=
  fun st => (model_transcribe w m path options, st).

(** The [options] dictionary both handlers build; [if language:] holds for a
    non-empty string. *)
Definition options (w : world) (task : string) (language : option string)
    : list (string * json) :=
  [("task", JStr task); ("fp16", JBool (cuda_is_available w))]
  ++ match language with
     | Some (String c l) => [("language", JStr (String c l))]
     | _ => []
     end.

(** [os.path.splitext(file.filename)[1] or ".ogg"]. *)
Definition suffix_of (ext : string) : string :=
  match ext with
  | EmptyString => ".ogg"
  | _ => ext
  end.

(** ** A file system that can fail *)

(** [NamedTemporaryFile], [whisper_load_model] and [cleanup] above are the
    calls as they go on a file system that has room for the upload, lets the
    process remove its files and already holds the weights.  A [filesystem]
    says where such a call raises instead, and which files a model load
    brings. *)
Record filesystem : Type := Filesystem {
  (** [await file.read()] raising *)
  read_error : option exn;
  (** [tempfile.NamedTemporaryFile(...)] raising: no file is created *)
  create_error : option exn;
  (** [f.write(audio_bytes)] raising: the file exists by then *)
  write_error : option exn;
  (** [os.unlink(path)] raising: the file stays *)
  unlink_error : string -> option exn;
  (** the files that [whisper.load_model(name, download_root)] leaves on
      disk, whether it returns or raises *)
  fetched : string -> option string -> gset string
}.

(** A call that raises when the file system says so, and does nothing
    otherwise. *)
Definition failing (error : option exn) : py unit :=
  fun st =>
    match error with
    | Some e => (Raised e, st)
    | None => (Returned tt, st)
    end.

(** [audio_bytes = await file.read()] *)
Definition read_upload (f : filesystem) : py unit := failing (read_error f).

(** [with tempfile.NamedTemporaryFile(suffix=suffix, delete=False) as f:
         f.write(audio_bytes)
         temp_path = f.name]
    When [f.write] raises, leaving the [with] block closes the file and, with
    [delete=False], does not remove it. *)
Definition write_upload (f : filesystem) (w : world) (suffix : string)
    : py string :=
  failing (create_error f) ;;;
  let path := tmp_stem w +:+ suffix in
  modify (create path) ;;;
  failing (write_error f) ;;;
  ret path.

(** [os.unlink(path)] *)
Definition unlink_on (f : filesystem) (path : string) : py unit :=
  failing (unlink_error f path) ;;; modify (unlink path).

(** The [finally] block of both handlers:
    [for path in paths: if os.path.exists(path): os.unlink(path)].  An
    exception of [os.unlink] ends the loop. *)
Fixpoint cleanup_on (f : filesystem) (paths : list string) : py unit :=
  match paths with
  | [] => ret tt
  | path :: rest =>
      present <- gets (exists_ path) ;;
      (if present : bool then unlink_on f path else ret tt) ;;;
      cleanup_on f rest
  end.

(** [try: body  finally: final] for a [final] that may raise: when it does,
    its exception takes the place of what [body] returned or raised. *)
Definition try_finally_raising {A : Type} (body : py A) (final : py unit)
    : py A :=
  fun st =>
    let '(r, st') := body st in
    match final st' with
    | (Returned _, st'') => (r, st'')
    | (Raised e, st'') => (Raised e, st'')
    end.

(** [whisper.load_model(name, download_root=root).to(device)] with the files
    it brings. *)
Definition whisper_load_model_on (f : filesystem) (w : world) (name : string)
    (root : option string) : py model_handle :=
  modify (with_files (fun fs => fetched f name root ∪ fs)) ;;;
  whisper_load_model w name root.

(** ** [ramble_mode_v2.py]: one model, speaker labels *)

Module RambleModeV2.

Definition MODEL_SIZE : string := "base".

(** The model loaded when the application starts. *)
Definition model (w : world) : model_handle := Model MODEL_SIZE None (device w).

Record request : Type := Request {
  (** [os.path.splitext(file.filename)[1]] *)
  file_ext : string;
  language : option string;
  task : string;
  speaker_detection : bool
}.

(** One entry of [formatted_segments]. *)
Record segment : Type := Segment {
  speaker : string;
  text : string;
  start : float;
  end_ : float
}.

Definition segment_json (s : segment) : json :=
  JObj [("speaker", JStr (speaker s)); ("text", JStr (text s));
        ("start", JFloat (start s)); ("end", JFloat (end_ s))].

(** The loop over [enumerate(segments)], from index [i] on, with the values of
    [current_speaker] and [last_end] on entry. *)
Fixpoint format_from (speaker_detection : bool) (i : nat)
    (current_speaker : string) (last_end : float) (segments : list raw_segment)
    : list segment :=
  match segments with
  | [] => []
  | seg :: rest =>
      let current_speaker :=
        if PrimFloat.ltb 2 (PrimFloat.sub (raw_start seg) last_end)
           && speaker_detection
        then "Speaker " +:+ Py.str_of_nat (i mod 2 + 1)
        else current_speaker in
      Segment current_speaker (Py.strip (raw_text seg))
              (Py.round2 (raw_start seg)) (Py.round2 (raw_end seg))
      :: format_from speaker_detection (S i) current_speaker (raw_end seg) rest
  end.

Definition formatted_segments (speaker_detection : bool)
    (segments : list raw_segment) : list segment :=
  format_from speaker_detection 0 "Speaker 1" 0 segments.

(** [round(segments[-1]["end"], 2) if segments else 0] *)
Definition duration_seconds (segments : list raw_segment) : json :=
  match segments, last segments with
  | _ :: _, Some seg => JFloat (Py.round2 (raw_end seg))
  | _, _ => JInt 0
  end.

(** [len(set(s["speaker"] for s in formatted_segments))
     if speaker_detection else 1] *)
Definition speakers_detected (speaker_detection : bool)
    (formatted : list segment) : Z :=
  if speaker_detection
  then Z.of_nat (size (list_to_set (speaker <$> formatted) : gset string))
  else 1.

(** The dictionary returned after a recognition that went through. *)
Definition success (req : request) (result : whisper_result)
    : list (string * json) :=
  let segments := default [] (res_segments result) in
  let full_text := Py.strip (default "" (res_text result)) in
  let detected_language := default "unknown" (res_language result) in
  let formatted := formatted_segments (speaker_detection req) segments in
  [("text", JStr full_text);
   ("language", JStr detected_language);
   ("duration_seconds", duration_seconds segments);
   ("segments", JList (segment_json <$> formatted));
   ("status", JStr "success");
   ("model", JStr ("whisper-" +:+ MODEL_SIZE));
   ("task", JStr (task req));
   ("speakers_detected", JInt (speakers_detected (speaker_detection req) formatted))].

Definition conversion_failed (stderr : string) : response :=
  JSONResponse
    (JObj [("text", JStr ""); ("status", JStr "error");
           ("error", JStr ("Audio conversion failed: " +:+ stderr))])
    400.

Definition timed_out : response :=
  JSONResponse
    (JObj [("text", JStr ""); ("status", JStr "error");
           ("error", JStr "Audio processing timed out (file too large?)")])
    408.

Definition internal_error (e : exn) : response :=
  JSONResponse
    (JObj [("text", JStr ""); ("status", JStr "error");
           ("error", JStr (str e)); ("traceback", JStr (format_exc e))])
    500.

(** The body of the [try] statement. *)
Definition convert_and_transcribe (w : world) (req : request)
    (temp_path wav_path : string) : py response :=
  result <- subprocess_run w temp_path wav_path ;;
  if negb (fst result =? 0) then ret (conversion_failed (snd result))
  else
    result <- call_transcribe w (model w) wav_path
                (options w (task req) (language req)) ;;
    ret (returned_dict (success req result)).

(** The [/transcribe] handler, from the upload written to its temporary file
    to the [finally] block. *)
Definition transcribe (w : world) (req : request) : py response :=
  let suffix := suffix_of (file_ext req) in
  temp_path <- NamedTemporaryFile w suffix ;;
  let wav_path := Py.replace temp_path suffix "_processed.wav" in
  try_finally
    (try_except (convert_and_transcribe w req temp_path wav_path)
       [(is_TimeoutExpired, fun _ => ret timed_out);
        (is_Exception, fun e => ret (internal_error e))])
    (cleanup [temp_path; wav_path]).

(** The [/transcribe] handler on a file system that can fail, from
    [await file.read()] on.  The upload is read and written before the [try]
    statement is entered. *)
Definition transcribe_on (f : filesystem) (w : world) (req : request)
    : py response :=
  read_upload f ;;;
  let suffix := suffix_of (file_ext req) in
  temp_path <- write_upload f w suffix ;;
  let wav_path := Py.replace temp_path suffix "_processed.wav" in
  try_finally_raising
    (try_except (convert_and_transcribe w req temp_path wav_path)
       [(is_TimeoutExpired, fun _ => ret timed_out);
        (is_Exception, fun e => ret (internal_error e))])
    (cleanup_on f [temp_path; wav_path]).


End RambleModeV2.

(** ** [ramble_mode_v2_multi.py]: the model is chosen per request *)

Module RambleModeV2Multi.

Definition model_info (size speed accuracy vram : string) : list (string * json) :=
  [("size", JStr size); ("speed", JStr speed);
   ("accuracy", JStr accuracy); ("vram", JStr vram)].

Definition MODELS : list (string * list (string * json)) :=
  [("tiny", model_info "tiny" "fastest" "basic" "1GB");
   ("base", model_info "base" "fast" "good" "1GB");
   ("small", model_info "small" "medium" "better" "2GB");
   ("medium", model_info "medium" "slow" "great" "5GB");
   ("large", model_info "large" "slowest" "best" "10GB")].

Definition DEFAULT_MODEL : string := "tiny".

Record request : Type := Request {
  (** [os.path.splitext(file.filename)[1]] *)
  file_ext : string;
  model : string;
  language : option string;
  task : string
}.

(** [repr] of a list of plain names, as the f-string prints
    [list(MODELS.keys())]. *)
Definition repr_names (names : list string) : string :=
  "[" +:+ String.concat ", " ((fun n => "'" +:+ n +:+ "'") <$> names) +:+ "]".

Definition invalid_model : response :=
  JSONResponse
    (JObj [("error",
            JStr ("Invalid model. Choose from: " +:+ repr_names (fst <$> MODELS)))])
    400.

(** [loaded_models[model_size] = handle] *)
Definition store (model_size : string) (handle : model_handle) (st : process)
    : process :=
  Process (files st) (<[model_size := handle]> (loaded_models st)) (loads st).

(** [loaded_models[model_size]], a [KeyError] when the key is missing. *)
Definition subscript (model_size : string) : py model_handle :=
  fun st =>
    match loaded_models st !! model_size with
    | Some handle => (Returned handle, st)
    | None => (Raised (Exn OtherException ("'" +:+ model_size +:+ "'") "KeyError"), st)
    end.

Definition get_model (w : world) (model_size : string) : py model_handle :=
  known <- gets (fun st => bool_decide (is_Some (loaded_models st !! model_size))) ;;
  (if known : bool then ret tt
   else
     let model_path := "/models/whisper-" +:+ model_size +:+ ".pt" in
     cached <- gets (exists_ model_path) ;;
     handle <- whisper_load_model w model_size
                 (if cached : bool then Some "/models" else None) ;;
     modify (store model_size handle)) ;;;
  subscript model_size.

(** [round(result["segments"][-1]["end"], 2) if result.get("segments") else 0] *)
Definition duration_seconds (result : whisper_result) : json :=
  match res_segments result with
  | Some (seg :: rest) =>
      match last (seg :: rest) with
      | Some final => JFloat (Py.round2 (raw_end final))
      | None => JInt 0
      end
  | _ => JInt 0
  end.

(** The dictionary returned after a recognition that went through. *)
Definition success (req : request) (result : whisper_result)
    : list (string * json) :=
  [("text", JStr (Py.strip (default "" (res_text result))));
   ("language", JStr (default "unknown" (res_language result)));
   ("duration_seconds", duration_seconds result);
   ("model", JStr ("whisper-" +:+ model req));
   ("model_info", JObj (default [] (assoc (model req) MODELS)));
   ("status", JStr "success")].

Definition internal_error (e : exn) : response :=
  JSONResponse (JObj [("error", JStr (str e)); ("status", JStr "error")]) 500.

(** The body of the [try] statement.  The result of the ffmpeg run is not
    looked at, and [start_time] (0, as [os] has no attribute [time]) is never
    read, so it is left out. *)
Definition convert_and_transcribe (w : world) (req : request)
    (temp_path wav_path : string) : py response :=
  subprocess_run w temp_path wav_path ;;;
  model_obj <- get_model w (model req) ;;
  result <- call_transcribe w model_obj wav_path
              (options w (task req) (language req)) ;;
  ret (returned_dict (success req result)).

(** The [/transcribe] handler. *)
Definition transcribe (w : world) (req : request) : py response :=
  match assoc (model req) MODELS with
  | None => ret invalid_model
  | Some _ =>
      let suffix := suffix_of (file_ext req) in
      temp_path <- NamedTemporaryFile w suffix ;;
      let wav_path := Py.replace temp_path suffix "_processed.wav" in
      try_finally
        (try_except (convert_and_transcribe w req temp_path wav_path)
           [(is_Exception, fun e => ret (internal_error e))])
        (cleanup [temp_path; wav_path])
  end.

(** [get_model], the body of the [try] statement and the handler on a file
    system that can fail. *)
Definition get_model_on (f : filesystem) (w : world) (model_size : string)
    : py model_handle :=
  known <- gets (fun st => bool_decide (is_Some (loaded_models st !! model_size))) ;;
  (if known : bool then ret tt
   else
     let model_path := "/models/whisper-" +:+ model_size +:+ ".pt" in
     cached <- gets (exists_ model_path) ;;
     handle <- whisper_load_model_on f w model_size
                 (if cached : bool then Some "/models" else None) ;;
     modify (store model_size handle)) ;;;
  subscript model_size.

Definition convert_and_transcribe_on (f : filesystem) (w : world) (req : request)
    (temp_path wav_path : string) : py response :=
  subprocess_run w temp_path wav_path ;;;
  model_obj <- get_model_on f w (model req) ;;
  result <- call_transcribe w model_obj wav_path
              (options w (task req) (language req)) ;;
  ret (returned_dict (success req result)).

Definition transcribe_on (f : filesystem) (w : world) (req : request)
    : py response :=
  match assoc (model req) MODELS with
  | None => ret invalid_model
  | Some _ =>
      read_upload f ;;;
      let suffix := suffix_of (file_ext req) in
      temp_path <- write_upload f w suffix ;;
      let wav_path := Py.replace temp_path suffix "_processed.wav" in
      try_finally_raising
        (try_except (convert_and_transcribe_on f w req temp_path wav_path)
           [(is_Exception, fun e => ret (internal_error e))])
        (cleanup_on f [temp_path; wav_path])
  end.

(** [whisper.load_model(model_name, download_root="/models")] as
    [download_models] calls it: the model is dropped, what counts is the files
    that the download leaves on the volume, [kept model_name]. *)
Definition download (w : world) (kept : string -> gset string) (model_name : string)
    : py unit :=
  fun st =>
    match load_model w model_name (Some "/models") with
    | None =>
        (Returned tt,
         Process (kept model_name ∪ files st) (loaded_models st) (S (loads st)))
    | Some e => (Raised e, Process (files st) (loaded_models st) (S (loads st)))
    end.

(** The loop of [download_models] over the names that are left. *)
Fixpoint download_each (w : world) (kept : string -> gset string)
    (names : list string) : py unit :=
  match names with
  | [] => ret tt
  | model_name :: rest =>
      cached <- gets (exists_ ("/models/whisper-" +:+ model_name +:+ ".pt")) ;;
      (if cached : bool then ret tt else download w kept model_name) ;;;
      download_each w kept rest
  end.

Definition download_models (w : world) (kept : string -> gset string) : py string :=
  download_each w kept (fst <$> MODELS) ;;; ret "Done".

(** The [/] handler. *)
Definition root : list (string * json) :=
  [("service", JStr "Ramble Mode V2 - Multi");
   ("version", JStr "2.1.0");
   ("models", JList (JStr <$> (fst <$> MODELS)));
   ("endpoints",
    JObj [("/transcribe", JStr "POST - Transcribe audio (select model)");
          ("/models", JStr "GET - List available models")])].

End RambleModeV2Multi.

(** ** [ramble_cli.py]: the command-line client *)

(** The client runs on another machine than the services.  Its files are a
    map from paths of regular files to their text, each writable; paths are
    POSIX paths; a parsed JSON object has each key once.  What it prints is
    left out: what remains of [print_transcription] is what it reads and where
    it stops. *)
Module RambleCli.

Definition DEFAULT_ENDPOINT : string := "https://m1ndb0t-2045--api.modal.run".

(** The exceptions that no clause of the client catches. *)
Inductive crash : Type :=
  | KeyError (key : string)
  | TypeError
  | ValueError
  | AttributeError
  | Other (e : exn).

Inductive attempt (A : Type) : Type :=
  | Done (a : A)
  | Crashed (c : crash).
Arguments Done {A} a.
Arguments Crashed {A} c.

Definition and_then {A B : Type} (x : attempt A) (k : A -> attempt B) : attempt B :=
  match x with
  | Done a => k a
  | Crashed c => Crashed c
  end.

(** What can be raised while the request is made or its answer is read: a
    [requests.exceptions.RequestException] (no connection, no answer within
    120 seconds, a body that is not JSON, ...) or something else. *)
Inductive raised : Type :=
  | RequestException (message : string)
  | Uncaught (c : crash).

(** How [requests.post] ends: with an answer, of which the client reads the
    status and what [response.json()] gives, or by raising. *)
Inductive posted : Type :=
  | Answered (status : Z) (json_body : json + raised)
  | NotAnswered (r : raised).

Record env : Type := Env {
  RAMBLE_ENDPOINT : option string;
  disk : gmap string string;
  (** the URL, the name and the content of the file, the form fields *)
  post : string -> string -> string -> list (string * string) -> posted
}.

Record args : Type := Args {
  audio_file : string;
  language : option string;
  endpoint : option string;
  segments : bool;
  output : option string
}.

(** [bool(v)] for a value read from JSON. *)
Definition truthy (v : json) : bool :=
  match v with
  | JInt n => negb (n =? 0)
  | JFloat x => negb (PrimFloat.eqb x 0)
  | JBool b => b
  | JStr s => negb (String.eqb s "")
  | JList l => negb (bool_decide (l = []))
  | JObj d => negb (bool_decide (d = []))
  end.

(** [v[key]] and [v.get(key)]. *)
Definition getitem (v : json) (key : string) : attempt json :=
  match v with
  | JObj d =>
      match assoc key d with
      | Some x => Done x
      | None => Crashed (KeyError key)
      end
  | _ => Crashed TypeError
  end.

Definition get (v : json) (key : string) : attempt (option json) :=
  match v with
  | JObj d => Done (assoc key d)
  | _ => Crashed AttributeError
  end.

(** [os.path.basename(p)]: what follows the last slash. *)
Fixpoint slash_in (p : string) : bool :=
  match p with
  | EmptyString => false
  | String c rest => Ascii.eqb c "/" || slash_in rest
  end.

Fixpoint basename (p : string) : string :=
  match p with
  | EmptyString => EmptyString
  | String c rest =>
      if slash_in rest then basename rest
      else if Ascii.eqb c "/" then rest else p
  end.

(** [endpoint or os.getenv("RAMBLE_ENDPOINT", DEFAULT_ENDPOINT)] *)
Definition endpoint_of (e : env) (endpoint : option string) : string :=
  match endpoint with
  | Some (String c s) => String c s
  | _ => default DEFAULT_ENDPOINT (RAMBLE_ENDPOINT e)
  end.

(** The [data] dictionary: [if language: data["language"] = language]. *)
Definition form_data (language : option string) : list (string * string) :=
  match language with
  | Some (String c s) => [("language", String c s)]
  | _ => []
  end.

(** [response.raise_for_status()] raises for the statuses 400 to 599. *)
Definition is_http_error (status : Z) : bool := (400 <=? status) && (status <? 600).

(** Returns the parsed answer, or [None] after one of the messages "File not
    found" and "Request failed". *)
Definition transcribe_file (e : env) (audio_path : string)
    (endpoint language : option string) : attempt (option json) :=
  let endpoint := endpoint_of e endpoint in
  match disk e !! audio_path with
  | None => Done None
  | Some content =>
      let url := endpoint +:+ "/transcribe" in
      match post e url (basename audio_path) content (form_data language) with
      | NotAnswered (RequestException _) => Done None
      | NotAnswered (Uncaught c) => Crashed c
      | Answered status json_body =>
          if is_http_error status then Done None
          else
            match json_body with
            | inl result => Done (Some result)
            | inr (RequestException _) => Done None
            | inr (Uncaught c) => Crashed c
            end
      end
  end.

(** [f"{x:6.2f}"]: numbers are formatted, other values are refused. *)
Definition format_f (x : json) : attempt unit :=
  match x with
  | JInt _ | JFloat _ | JBool _ => Done tt
  | JStr _ => Crashed ValueError
  | JList _ | JObj _ => Crashed TypeError
  end.

(** The line printed for one segment reads its four fields from the left. *)
Definition print_segment (seg : json) : attempt unit :=
  and_then (getitem seg "start") (fun x =>
  and_then (format_f x) (fun _ =>
  and_then (getitem seg "end") (fun x =>
  and_then (format_f x) (fun _ =>
  and_then (getitem seg "speaker") (fun _ =>
  and_then (getitem seg "text") (fun _ => Done tt)))))).

Fixpoint print_segments (segs : list json) : attempt unit :=
  match segs with
  | [] => Done tt
  | seg :: rest => and_then (print_segment seg) (fun _ => print_segments rest)
  end.

Definition print_transcription (result : json) (show_segments : bool)
    : attempt unit :=
  if negb (truthy result) then Done tt
  else
    and_then (get result "status") (fun status =>
      match status with
      | Some (JStr "success") =>
          and_then (getitem result "text") (fun _ =>
          and_then (getitem result "language") (fun _ =>
          and_then (getitem result "duration_seconds") (fun _ =>
          and_then (getitem result "model") (fun _ =>
            if show_segments then
              and_then (get result "segments") (fun found =>
                match found with
                | Some v =>
                    if truthy v then
                      match v with
                      | JList segs => print_segments segs
                      | _ => Crashed TypeError
                      end
                    else Done tt
                | None => Done tt
                end)
            else Done tt))))
      | _ => Done tt
      end).

(** How the program ends: [sys.exit(1)], the end of [main] (code 0), or an
    exception that nothing catches. *)
Inductive ended : Type :=
  | Exit (code : Z)
  | Died (c : crash).

(** [main] after [parser.parse_args()]: how it ends and the files it leaves. *)
Definition main (e : env) (a : args) : ended * gmap string string :=
  match transcribe_file e (audio_file a) (endpoint a) (language a) with
  | Crashed c => (Died c, disk e)
  | Done None => (Exit 1, disk e)
  | Done (Some result) =>
      if truthy result then
        match print_transcription result (segments a) with
        | Crashed c => (Died c, disk e)
        | Done _ =>
            match output a with
            | Some (String c s) =>
                match getitem result "text" with
                | Done (JStr t) => (Exit 0, <[String c s := t]> (disk e))
                | Done _ => (Died TypeError, <[String c s := ""]> (disk e))
                | Crashed x => (Died x, <[String c s := ""]> (disk e))
                end
            | _ =>
                match getitem result "text" with
                | Done _ => (Exit 0, disk e)
                | Crashed x => (Died x, disk e)
                end
            end
        end
      else (Exit 1, disk e)
  end.

End RambleCli.

(** ** Names used to state the properties *)

(** The two temporary files of a request: the upload as [tempfile] names it,
    and the WAV file the handler derives from that name. *)
Definition temp_path_of (w : world) (ext : string) : string :=
  tmp_stem w +:+ suffix_of ext.

Definition wav_path_of (w : world) (ext : string) : string :=
  Py.replace (temp_path_of w ext) (suffix_of ext) "_processed.wav".

(** A field of the JSON body of what a handler gave back. *)
Definition reply (r : outcome response) (key : string) : option json :=
  match r with
  | Returned resp => field key (content resp)
  | Raised _ => None
  end.

Definition status_of (r : outcome response) : option Z :=
  match r with
  | Returned resp => Some (status_code resp)
  | Raised _ => None
  end.

(** A process that has just started: no file of interest on disk, no model
    loaded yet. *)
Definition fresh : process := Process ∅ ∅ 0.

(** What the [except] clauses of [ramble_mode_v2.py] make of an exception. *)
Definition v2_handled (e : exn) : outcome response :=
  if is_TimeoutExpired e then Returned RambleModeV2.timed_out
  else if is_Exception e then Returned (RambleModeV2.internal_error e)
  else Raised e.

(** What the one [except] clause of [ramble_mode_v2_multi.py] makes of it. *)
Definition multi_handled (e : exn) : outcome response :=
  if is_Exception e then Returned (RambleModeV2Multi.internal_error e)
  else Raised e.

(** What [get_model] gives back in a state: the cached handle, or the
    outcome of the load it starts. *)
Definition handle_for (w : world) (model_size : string) (st : process)
    : outcome model_handle :=
  match loaded_models st !! model_size with
  | Some handle => Returned handle
  | None =>
      let root :=
        if exists_ ("/models/whisper-" +:+ model_size +:+ ".pt") st
        then Some "/models" else None in
      match load_model w model_size root with
      | None => Returned (Model model_size root (device w))
      | Some e => Raised e
      end
  end.

(** The code points that Unicode counts as whitespace (general category Zs,
    or bidirectional class WS, B or S), by ranges: the controls U+0009 to
    U+000D and U+001C to U+001F, U+0020, U+0085, U+00A0, U+1680, U+2000 to
    U+200A, U+2028, U+2029, U+202F, U+205F and U+3000. *)
Definition whitespace_code_point (n : N) : bool :=
  ((9 <=? n) && (n <=? 13) || (28 <=? n) && (n <=? 32)
   || (n =? 133) || (n =? 160) || (n =? 5760)
   || (8192 <=? n) && (n <=? 8202)
   || (n =? 8232) || (n =? 8233) || (n =? 8239) || (n =? 8287)
   || (n =? 12288))%N.

(** The six bits that a byte [10xxxxxx], which continues a code point,
    carries; and what a first byte carries, one from [first] up to
    [first + size]. *)
Definition trailing (b : ascii) : option N :=
  let n := N_of_ascii b in
  if ((128 <=? n) && (n <? 192))%N then Some (n - 128)%N else None.

Definition leading (first size : N) (b : ascii) : option N :=
  let n := N_of_ascii b in
  if ((first <=? n) && (n <? first + size))%N then Some (n - first)%N else None.

(** The code point that a text is the UTF-8 form of, when it is the form of
    one code point: the shortest form, of a code point up to U+10FFFF that is
    not a surrogate. *)
Definition code_point (c : string) : option N :=
  match c with
  | String a EmptyString => leading 0 128 a
  | String a (String b EmptyString) =>
      match leading 192 32 a, trailing b with
      | Some x, Some y =>
          let n := (x * 64 + y)%N in
          if (128 <=? n)%N then Some n else None
      | _, _ => None
      end
  | String a (String b (String c EmptyString)) =>
      match leading 224 16 a, trailing b, trailing c with
      | Some x, Some y, Some z =>
          let n := (x * 4096 + y * 64 + z)%N in
          if ((2048 <=? n) && negb ((55296 <=? n) && (n <? 57344)))%N
          then Some n else None
      | _, _, _ => None
      end
  | String a (String b (String c (String d EmptyString))) =>
      match leading 240 8 a, trailing b, trailing c, trailing d with
      | Some x, Some y, Some z, Some u =>
          let n := (x * 262144 + y * 4096 + z * 64 + u)%N in
          if ((65536 <=? n) && (n <=? 1114111))%N then Some n else None
      | _, _, _, _ => None
      end
  | _ => None
  end.

(** A text that is one whitespace code point, and a text made of them. *)
Definition whitespace_char (c : string) : Prop :=
  exists n : N, code_point c = Some n /\ whitespace_code_point n = true.

Inductive spaces : string -> Prop :=
  | spaces_nil : spaces ""
  | spaces_cons (c s : string) :
      whitespace_char c -> spaces s -> spaces (c +:+ s).

(** What [strip] promises, said without the function: the result is the
    text with a run of whitespace code points taken off each end, and it
    neither starts nor ends with one. *)
Definition stripped_of (raw t : string) : Prop :=
  (exists l r, raw = l +:+ t +:+ r /\ spaces l /\ spaces r)
  /\ (forall c, whitespace_char c -> String.prefix c t = false)
  /\ (forall c u, whitespace_char c -> t <> u +:+ c).

(** What is left of a text after the whitespace code point it starts with,
    when it starts with one. *)
Definition leading_space (s : string) : option string :=
  match s with
  | EmptyString => None
  | String a s1 =>
      if Py.isspace (String a EmptyString) then Some s1
      else
        match s1 with
        | EmptyString => None
        | String b s2 =>
            if Py.isspace (String a (String b EmptyString)) then Some s2
            else
              match s2 with
              | EmptyString => None
              | String c s3 =>
                  if Py.isspace (String a (String b (String c EmptyString)))
                  then Some s3 else None
              end
        end
  end.

Definition first_char (s : string) : option ascii :=
  match s with
  | EmptyString => None
  | String c _ => Some c
  end.

(** The object that stands for a segment in the body of a response. *)
Definition segment_object (label t : string) (from to : float) : json :=
  JObj [("speaker", JStr label); ("text", JStr t);
        ("start", JFloat from); ("end", JFloat to)].

(** The upload is read and written without an error, so the [try] statement
    is entered. *)
Definition stored (f : filesystem) : Prop :=
  read_error f = None /\ create_error f = None /\ write_error f = None.

(** The exception was raised before the [try] statement, while the upload
    was read or written. *)
Definition raised_before_try (f : filesystem) (e : exn) : Prop :=
  read_error f = Some e \/ create_error f = Some e \/ write_error f = Some e.

(** The exception was raised by [os.unlink] on one of the paths. *)
Definition raised_by_unlink (f : filesystem) (paths : list string) (e : exn)
    : Prop :=
  exists path, path ∈ paths /\ unlink_error f path = Some e.

(** The state in which the multi-model handler calls [get_model]: the upload
    is on disk, and so is the WAV file when ffmpeg wrote one. *)
Definition after_decode (w : world) (ext : string) (wrote : bool) (st : process)
    : process :=
  let st1 := create (temp_path_of w ext) st in
  if wrote then create (wav_path_of w ext) st1 else st1.

(** The part of the process state that belongs to the model cache. *)
Definition models_of (st : process) : gmap string model_handle * nat :=
  (loaded_models st, loads st).

(** Every cached handle sits under the name of its own size and is on the
    device of the process. *)
Definition cache_consistent (w : world) (st : process) : Prop :=
  forall (k : string) (h : model_handle),
    loaded_models st !! k = Some h -> model_name h = k /\ on_device h = device w.

(** The pauses of a list of segments, said without the loop: the end of the
    segment before index [i] (0 before the first one), whether segment [i]
    starts more than two seconds after it, the last index up to [i] where that
    is so, and the label that the parity of that index gives. *)
Definition end_before (segments : list raw_segment) (i : nat) : float :=
  match i with
  | O => 0%float
  | S j => from_option raw_end 0%float (segments !! j)
  end.

Definition gap_at (segments : list raw_segment) (i : nat) : bool :=
  match segments !! i with
  | Some seg => PrimFloat.ltb 2 (PrimFloat.sub (raw_start seg) (end_before segments i))
  | None => false
  end.

Fixpoint last_gap (segments : list raw_segment) (i : nat) : option nat :=
  if gap_at segments i then Some i
  else
    match i with
    | O => None
    | S j => last_gap segments j
    end.

Definition label_at (segments : list raw_segment) (i : nat) : string :=
  match last_gap segments i with
  | None => "Speaker 1"
  | Some g => if Nat.even g then "Speaker 1" else "Speaker 2"
  end.

(** The files of the client after a transcript has been saved where
    [--output] says, when it says so. *)
Definition written (output : option string) (t : string) (d : gmap string string)
    : gmap string string :=
  match output with
  | Some (String c s) => <[String c s := t]> d
  | _ => d
  end.

(** Where the services look for the weights of a model on the volume. *)
Definition model_path (model_name : string) : string :=
  "/models/whisper-" +:+ model_name +:+ ".pt".

(** ** Concrete requests *)

(** Four segments with a pause of three seconds before the third one. *)
Definition gap_example (t0 t1 t2 t3 : string) : list raw_segment :=
  [RawSegment 0 1 t0; RawSegment 1 2 t1; RawSegment 5 5.5 t2; RawSegment 6 6.5 t3].

(** A recording in which nothing is recognised. *)
Definition silent_world : world :=
  World false "/tmp/tmpk3v9x2ab"
    (fun _ _ => (Completed 0 "", true))
    (fun _ _ => None)
    (fun _ _ _ => Returned (WhisperResult (Some []) (Some "") (Some "en"))).

(** ffmpeg is killed after the 30 seconds of [timeout=30]. *)
Definition slow_decode_world : world :=
  World false "/tmp/tmpq7m2x9ab"
    (fun _ _ =>
       (Threw (Exn TimeoutExpired "Command ffmpeg timed out after 30 seconds"
                  "Traceback (most recent call last): subprocess.TimeoutExpired"),
        true))
    (fun _ _ => None)
    (fun _ _ _ => Returned (WhisperResult (Some []) (Some "") (Some "en"))).

(** ffmpeg rejects the upload and writes no output; Whisper then finds no
    audio to read. *)
Definition bad_audio_world : world :=
  World false "/tmp/tmpz4c8r1ab"
    (fun _ _ => (Completed 1 "Invalid data found when processing input", false))
    (fun _ _ => None)
    (fun _ _ _ =>
       Raised (Exn OtherException "Failed to load audio"
                 "Traceback (most recent call last): RuntimeError")).

(** The decode goes through and the recognition raises. *)
Definition failing_recognition_world : world :=
  World true "/tmp/tmph5d0w7ab"
    (fun _ _ => (Completed 0 "", true))
    (fun _ _ => None)
    (fun _ _ _ =>
       Raised (Exn OtherException "CUDA out of memory"
                 "Traceback (most recent call last): RuntimeError: CUDA out of memory")).

(** The weights of the requested size cannot be loaded. *)
Definition failing_load_world : world :=
  World true "/tmp/tmpb2n6y3ab"
    (fun _ _ => (Completed 0 "", true))
    (fun _ _ => Some (Exn OtherException "checkpoint does not match"
                        "Traceback (most recent call last): RuntimeError"))
    (fun _ _ _ => Returned (WhisperResult (Some []) (Some "") (Some "en"))).

(** Three segments that follow each other within two seconds. *)
Definition close_example : list raw_segment :=
  [RawSegment 0 1 "one"; RawSegment 1 2 "two"; RawSegment 3.5 4 "three"].

(** The request is cancelled while ffmpeg runs. *)
Definition cancelled_world : world :=
  World false "/tmp/tmpv8s3e6ab"
    (fun _ _ => (Threw (Exn BaseOnly "" "asyncio.CancelledError"), true))
    (fun _ _ => None)
    (fun _ _ _ => Returned (WhisperResult (Some []) (Some "") (Some "en"))).

(** A client with one recording, talking to a service that answers every
    request with the given answer. *)
Definition client (answer : RambleCli.posted) : RambleCli.env :=
  RambleCli.Env None {["memo.ogg" := "OggS"]} (fun _ _ _ _ => answer).

Definition memo_args (output : option string) : RambleCli.args :=
  RambleCli.Args "memo.ogg" None None true output.

(** What Whisper makes of a short recording. *)
Definition memo_result : whisper_result :=
  WhisperResult (Some [RawSegment 0 1.5 " Buy milk."]) (Some " Buy milk.") (Some "en").

(** A dictation in two segments.  Whisper puts a space in front of a text;
    here there is also an ideographic space (U+3000), a no-break space
    (U+00A0) and an em space (U+2003) around the words. *)
Definition dictation : whisper_result :=
  WhisperResult
    (Some [RawSegment 0 2.375
             (" " +:+ Py.utf8 12288 +:+ "Good morning." +:+ Py.utf8 160);
           RawSegment 2.375 4.0625
             (Py.utf8 8195 +:+ "See you at ten, Zo" +:+ Py.utf8 235 +:+ ". ")])
    (Some (" Good morning. See you at ten, Zo" +:+ Py.utf8 235 +:+ ". "))
    (Some "en").

Definition dictation_world : world :=
  World false "/tmp/tmpd1c7a9ab"
    (fun _ _ => (Completed 0 "", true))
    (fun _ _ => None)
    (fun _ _ _ => Returned dictation).

(** A file system on which nothing fails and no weights are fetched. *)
Definition reliable : filesystem :=
  Filesystem None None None (fun _ => None) (fun _ _ => ∅).

(** The temporary directory runs out of space while the upload is
    written. *)
Definition no_space : exn :=
  Exn OtherException "[Errno 28] No space left on device"
    "Traceback (most recent call last): OSError".

Definition full_disk : filesystem :=
  Filesystem None None (Some no_space) (fun _ => None) (fun _ _ => ∅).

(** The process is not allowed to remove the files of the temporary
    directory. *)
Definition not_permitted : exn :=
  Exn OtherException "[Errno 13] Permission denied"
    "Traceback (most recent call last): PermissionError".

Definition locked_disk : filesystem :=
  Filesystem None None None (fun _ => Some not_permitted) (fun _ _ => ∅).

(** Nothing fails, and a load of weights fetches them into the cache of the
    user. *)
Definition fetching_disk : filesystem :=
  Filesystem None None None (fun _ => None)
    (fun name _ => {["/root/.cache/whisper/" +:+ name +:+ ".pt"]}).

(** * Properties *)

(** ** The [finally] block *)

Lemma cleanup_files (paths : list string) (st : process) :
  files (cleanup paths st) = files st ∖ list_to_set paths.
Proof.
  revert st. induction paths as [|path rest IH]; intros st; simpl.
  - set_solver.
  - rewrite IH. unfold exists_. case_bool_decide; simpl; set_solver.
Qed.

Lemma cleanup_models (paths : list string) (st : process) :
  loaded_models (cleanup paths st) = loaded_models st
  /\ loads (cleanup paths st) = loads st.
Proof.
  revert st. induction paths as [|path rest IH]; intros st; simpl; [done|].
  destruct (IH (if exists_ path st then unlink path st else st)) as [-> ->].
  by destruct (exists_ path st).
Qed.

(** The response of the single-model handler, by cases on how ffmpeg and the
    recognition ended. *)
Lemma v2_transcribe_outcome (w : world) (req : RambleModeV2.request) (st : process) :
  let temp_path := temp_path_of w (RambleModeV2.file_ext req) in
  let wav_path := wav_path_of w (RambleModeV2.file_ext req) in
  fst (RambleModeV2.transcribe w req st) =
    match fst (ffmpeg w temp_path wav_path) with
    | Threw e => v2_handled e
    | Completed returncode stderr =>
        if returncode =? 0
        then
          match model_transcribe w (RambleModeV2.model w) wav_path
                  (options w (RambleModeV2.task req) (RambleModeV2.language req)) with
          | Returned result =>
              Returned (returned_dict (RambleModeV2.success req result))
          | Raised e => v2_handled e
          end
        else Returned (RambleModeV2.conversion_failed stderr)
    end.
Proof.
  cbv zeta.
  unfold RambleModeV2.transcribe, RambleModeV2.convert_and_transcribe,
    try_finally, try_except, bind, NamedTemporaryFile, subprocess_run,
    call_transcribe, ret, v2_handled, temp_path_of, wav_path_of.
  destruct (ffmpeg w _ _) as [[returncode stderr|e] wrote]; simpl.
  - destruct (returncode =? 0); simpl; [|done].
    destruct (model_transcribe _ _ _ _) as [result|e]; simpl; [done|].
    destruct (is_TimeoutExpired e); simpl; [done|].
    by destruct (is_Exception e).
  - destruct (is_TimeoutExpired e); simpl; [done|].
    by destruct (is_Exception e).
Qed.

Lemma try_finally_state {A : Type} (body : py A) (final : process -> process)
    (st : process) :
  snd (try_finally body final st) = final (snd (body st)).
Proof. unfold try_finally. by destruct (body st). Qed.

Lemma try_finally_outcome {A : Type} (body : py A) (final : process -> process)
    (st : process) :
  fst (try_finally body final st) = fst (body st).
Proof. unfold try_finally. by destruct (body st). Qed.

(** ** The model cache *)

Lemma get_model_outcome (w : world) (model_size : string) (st : process) :
  fst (RambleModeV2Multi.get_model w model_size st) = handle_for w model_size st.
Proof.
  unfold RambleModeV2Multi.get_model, handle_for, bind, gets, modify, ret,
    whisper_load_model, RambleModeV2Multi.subscript, RambleModeV2Multi.store.
  destruct (loaded_models st !! model_size) as [handle|] eqn:Hcache.
  - rewrite bool_decide_eq_true_2 by eauto. simpl. by rewrite Hcache.
  - rewrite bool_decide_eq_false_2 by (intros [? ?]; congruence). simpl.
    destruct (load_model w model_size _) as [e|]; simpl; [done|].
    by rewrite lookup_insert_eq.
Qed.

(** A handle that is in the cache is returned as it is: nothing is loaded and
    the state does not change. *)
Lemma get_model_cached (w : world) (model_size : string) (st : process)
    (handle : model_handle) :
  loaded_models st !! model_size = Some handle ->
  RambleModeV2Multi.get_model w model_size st = (Returned handle, st).
Proof.
  intros Hcache.
  unfold RambleModeV2Multi.get_model, bind, gets, ret, RambleModeV2Multi.subscript.
  rewrite bool_decide_eq_true_2 by eauto. simpl. by rewrite Hcache.
Qed.

(** The first call for a size runs one load and stores what it returns. *)
Lemma get_model_first_call (w : world) (model_size : string) (st : process)
    (handle : model_handle) :
  loaded_models st !! model_size = None ->
  handle_for w model_size st = Returned handle ->
  RambleModeV2Multi.get_model w model_size st =
    (Returned handle,
     Process (files st) (<[model_size := handle]> (loaded_models st)) (S (loads st))).
Proof.
  intros Hcache. unfold handle_for. rewrite Hcache.
  unfold RambleModeV2Multi.get_model, bind, gets, modify, ret,
    whisper_load_model, RambleModeV2Multi.subscript, RambleModeV2Multi.store.
  rewrite bool_decide_eq_false_2 by (intros [? ?]; congruence). simpl.
  destruct (load_model w model_size _) as [e|]; simpl; [done|].
  intros [= <-]. by rewrite lookup_insert_eq.
Qed.

(** X4: a load that fails leaves the cache as it was, so the next call loads
    again. *)
Lemma get_model_failed_load (w : world) (model_size : string) (st : process)
    (e : exn) :
  loaded_models st !! model_size = None ->
  handle_for w model_size st = Raised e ->
  RambleModeV2Multi.get_model w model_size st =
    (Raised e, Process (files st) (loaded_models st) (S (loads st))).
Proof.
  intros Hcache. unfold handle_for. rewrite Hcache.
  unfold RambleModeV2Multi.get_model, bind, gets, modify, ret,
    whisper_load_model, RambleModeV2Multi.subscript, RambleModeV2Multi.store.
  rewrite bool_decide_eq_false_2 by (intros [? ?]; congruence). simpl.
  destruct (load_model w model_size _) as [e'|]; simpl; [|done].
  by intros [= <-].
Qed.

(** X3: calls made one after the other: once a call has returned a handle,
    every later call for that size returns the same handle without loading. *)
Lemma get_model_again (w : world) (model_size : string) (st st' : process)
    (handle : model_handle) :
  RambleModeV2Multi.get_model w model_size st = (Returned handle, st') ->
  RambleModeV2Multi.get_model w model_size st' = (Returned handle, st').
Proof.
  intros Hfirst. apply get_model_cached.
  destruct (loaded_models st !! model_size) as [cached|] eqn:Hcache.
  - rewrite (get_model_cached _ _ _ _ Hcache) in Hfirst.
    by injection Hfirst as <- <-.
  - pose proof (get_model_outcome w model_size st) as Hout.
    rewrite Hfirst in Hout. simpl in Hout.
    rewrite (get_model_first_call _ _ _ _ Hcache (eq_sym Hout)) in Hfirst.
    injection Hfirst as <-. simpl. apply lookup_insert_eq.
Qed.

(** The second call for "tiny" in a process that has loaded it once. *)
Lemma get_model_again_witness :
  RambleModeV2Multi.get_model silent_world "tiny"
    (Process ∅ {["tiny" := Model "tiny" None "cpu"]} 1)
  = (Returned (Model "tiny" None "cpu"),
     Process ∅ {["tiny" := Model "tiny" None "cpu"]} 1).
Proof.
  apply (get_model_again silent_world "tiny" fresh). vm_compute. reflexivity.
Defined.

(** A first call for "small" whose load fails. *)
Lemma get_model_failed_load_witness :
  RambleModeV2Multi.get_model failing_load_world "small" fresh
  = (Raised (Exn OtherException "checkpoint does not match"
               "Traceback (most recent call last): RuntimeError"),
     Process ∅ ∅ 1).
Proof.
  apply (get_model_failed_load failing_load_world "small" fresh); reflexivity.
Defined.

(** ** The multi-model handler, by cases *)

Lemma multi_transcribe_outcome (w : world) (req : RambleModeV2Multi.request)
    (st : process) (info : list (string * json)) :
  let temp_path := temp_path_of w (RambleModeV2Multi.file_ext req) in
  let wav_path := wav_path_of w (RambleModeV2Multi.file_ext req) in
  assoc (RambleModeV2Multi.model req) RambleModeV2Multi.MODELS = Some info ->
  fst (RambleModeV2Multi.transcribe w req st) =
    match ffmpeg w temp_path wav_path with
    | (Threw e, _) => multi_handled e
    | (Completed _ _, wrote) =>
        let st1 := create temp_path st in
        match handle_for w (RambleModeV2Multi.model req)
                (if wrote then create wav_path st1 else st1) with
        | Raised e => multi_handled e
        | Returned model_obj =>
            match model_transcribe w model_obj wav_path
                    (options w (RambleModeV2Multi.task req)
                       (RambleModeV2Multi.language req)) with
            | Returned result =>
                Returned (returned_dict (RambleModeV2Multi.success req result))
            | Raised e => multi_handled e
            end
        end
    end.
Proof.
  cbv zeta. intros Hknown.
  unfold RambleModeV2Multi.transcribe. rewrite Hknown.
  unfold bind at 1. unfold NamedTemporaryFile.
  rewrite try_finally_outcome.
  unfold RambleModeV2Multi.convert_and_transcribe, try_except.
  unfold bind at 1. unfold subprocess_run, wav_path_of, temp_path_of,
    multi_handled.
  destruct (ffmpeg w _ _) as [[returncode stderr|e] wrote]; simpl.
  - unfold bind at 1.
    match goal with
    | |- context [RambleModeV2Multi.get_model w ?m ?s] =>
        pose proof (get_model_outcome w m s) as Hout;
        destruct (RambleModeV2Multi.get_model w m s) as [[model_obj|e] st2]
    end; simpl in Hout; rewrite <- Hout; simpl.
    + unfold bind, call_transcribe, ret.
      destruct (model_transcribe _ _ _ _) as [result|e]; simpl; [done|].
      by destruct (is_Exception e).
    + by destruct (is_Exception e).
  - by destruct (is_Exception e).
Qed.

(** ** [str.strip] *)

Lemma append_cons (c : ascii) (s t : string) :
  String c s +:+ t = String c (s +:+ t).
Proof. reflexivity. Qed.

Lemma append_empty (s : string) : s +:+ "" = s.
Proof. induction s as [|c s IH]; [done|]. by rewrite append_cons, IH. Qed.

Lemma append_assoc (s t u : string) : (s +:+ t) +:+ u = s +:+ (t +:+ u).
Proof. induction s as [|c s IH]; [done|]. by rewrite !append_cons, IH. Qed.

Lemma prefix_append (s t : string) : String.prefix s (s +:+ t) = true.
Proof.
  induction s as [|c s IH];
    [change (String.prefix "" t = true); by destruct t|].
  rewrite append_cons. cbn [String.prefix]. by destruct (ascii_dec c c).
Qed.

Lemma prefix_split (s t : string) :
  String.prefix s t = true -> exists rest, t = s +:+ rest.
Proof.
  revert t. induction s as [|c s IH]; intros t.
  - intros _. by exists t.
  - destruct t as [|d t]; [done|]. cbn [String.prefix].
    destruct (ascii_dec c d) as [<-|]; [|done].
    intros [rest ->]%IH. by exists rest.
Qed.

(** [Py.whitespace] holds the whitespace code points and nothing else. *)
Lemma whitespace_points_complete (n : N) :
  whitespace_code_point n = true <-> n ∈ Py.whitespace_points.
Proof.
  split.
  - unfold whitespace_code_point. intros Hn.
    assert (Hcases : (n = 9 \/ n = 10 \/ n = 11 \/ n = 12 \/ n = 13 \/ n = 28
                      \/ n = 29 \/ n = 30 \/ n = 31 \/ n = 32 \/ n = 133
                      \/ n = 160 \/ n = 5760 \/ n = 8192 \/ n = 8193
                      \/ n = 8194 \/ n = 8195 \/ n = 8196 \/ n = 8197
                      \/ n = 8198 \/ n = 8199 \/ n = 8200 \/ n = 8201
                      \/ n = 8202 \/ n = 8232 \/ n = 8233 \/ n = 8239
                      \/ n = 8287 \/ n = 12288)%N).
    { repeat (apply orb_true_iff in Hn as [Hn|Hn]);
        repeat (apply andb_true_iff in Hn as [? ?]);
        repeat match goal with
               | H : (_ <=? _)%N = true |- _ => apply N.leb_le in H
               | H : (_ =? _)%N = true |- _ => apply N.eqb_eq in H
               end;
        lia. }
    unfold Py.whitespace_points.
    repeat (destruct Hcases as [->|Hcases];
            [repeat first [apply list_elem_of_here | apply list_elem_of_further]|]).
    subst n. repeat first [apply list_elem_of_here | apply list_elem_of_further].
  - intros Hn. apply list_elem_of_In in Hn. vm_compute in Hn.
    repeat (destruct Hn as [<-|Hn]; [reflexivity|]). done.
Qed.

Lemma leading_Some (first size : N) (b : ascii) (x : N) :
  leading first size b = Some x ->
  b = ascii_of_N (first + x) /\ (x < size)%N.
Proof.
  unfold leading. destruct (_ && _) eqn:Hrange; [|done]. intros [= <-].
  apply andb_true_iff in Hrange as [Hlow Hhigh].
  apply N.leb_le in Hlow. apply N.ltb_lt in Hhigh.
  split; [|lia].
  replace (first + (N_of_ascii b - first))%N with (N_of_ascii b) by lia.
  by rewrite ascii_N_embedding.
Qed.

Lemma trailing_Some (b : ascii) (x : N) :
  trailing b = Some x -> b = ascii_of_N (128 + x) /\ (x < 64)%N.
Proof. apply (leading_Some 128 64). Qed.

Ltac whitespace_cases H :=
  apply whitespace_points_complete, list_elem_of_In in H;
  unfold Py.whitespace_points in H; cbn [In] in H.

(** The UTF-8 form of a whitespace code point is the only text that stands
    for it. *)
Lemma code_point_whitespace (c : string) (n : N) :
  whitespace_code_point n = true -> code_point c = Some n <-> c = Py.utf8 n.
Proof.
  intros Hn. split.
  - destruct c as [|a [|b [|c [|d [|? ?]]]]]; try done; cbn [code_point].
    + intros [-> Hx]%leading_Some. whitespace_cases Hn.
      repeat (destruct Hn as [<-|Hn]; [first [reflexivity | lia]|]). done.
    + destruct (leading 192 32 a) as [x|] eqn:Ha; [|done].
      destruct (trailing b) as [y|] eqn:Hb; [|done].
      apply leading_Some in Ha as [-> Hx]. apply trailing_Some in Hb as [-> Hy].
      cbv zeta. destruct (_ <=? _)%N eqn:Hlow; [|done]. intros [= Heq].
      apply N.leb_le in Hlow. rewrite Heq in Hlow.
      assert (x = n / 64 /\ y = n mod 64)%N as (-> & ->).
      { subst n. split.
        - apply N.div_unique with y; lia.
        - apply N.mod_unique with x; lia. }
      assert (Hhigh : (n < 2048)%N) by lia. clear Heq Hx Hy.
      whitespace_cases Hn.
      repeat (destruct Hn as [<-|Hn]; [first [lia | reflexivity]|]). done.
    + destruct (leading 224 16 a) as [x|] eqn:Ha; [|done].
      destruct (trailing b) as [y|] eqn:Hb; [|done].
      destruct (trailing c) as [z|] eqn:Hc; [|done].
      apply leading_Some in Ha as [-> Hx]. apply trailing_Some in Hb as [-> Hy].
      apply trailing_Some in Hc as [-> Hz].
      cbv zeta. destruct (_ && _) eqn:Hlow; [|done]. intros [= Heq].
      apply andb_true_iff in Hlow as [Hlow _].
      apply N.leb_le in Hlow. rewrite Heq in Hlow.
      assert (x = n / 4096 /\ y = (n / 64) mod 64 /\ z = n mod 64)%N
        as (-> & -> & ->).
      { subst n. repeat split.
        - apply N.div_unique with (y * 64 + z)%N; lia.
        - replace ((x * 4096 + y * 64 + z) / 64)%N with (x * 64 + y)%N.
          + apply N.mod_unique with x; lia.
          + apply N.div_unique with z; lia.
        - apply N.mod_unique with (x * 64 + y)%N; lia. }
      clear Heq Hx Hy Hz.
      whitespace_cases Hn.
      repeat (destruct Hn as [<-|Hn]; [first [lia | reflexivity]|]). done.
    + destruct (leading 240 8 a) as [x|] eqn:Ha; [|done].
      destruct (trailing b) as [y|] eqn:Hb; [|done].
      destruct (trailing c) as [z|] eqn:Hc; [|done].
      destruct (trailing d) as [u|] eqn:Hd; [|done].
      cbv zeta. destruct (_ && _) eqn:Hlarge; [|done]. intros [= Heq].
      apply andb_true_iff in Hlarge as [Hlarge _].
      apply N.leb_le in Hlarge. whitespace_cases Hn.
      repeat (destruct Hn as [<-|Hn]; [lia|]). done.
  - intros ->. whitespace_cases Hn.
    repeat (destruct Hn as [<-|Hn]; [reflexivity|]). done.
Qed.

Lemma whitespace_char_elem (c : string) :
  whitespace_char c <-> c ∈ Py.whitespace.
Proof.
  unfold whitespace_char, Py.whitespace. rewrite list_elem_of_fmap.
  split; intros (n & H1 & H2).
  - exists n. split.
    + by apply code_point_whitespace.
    + by apply whitespace_points_complete.
  - apply whitespace_points_complete in H2.
    exists n. split; [|done]. by apply code_point_whitespace.
Qed.

Lemma lstrip_step (s : string) :
  Py.lstrip s = match leading_space s with
                | Some rest => Py.lstrip rest
                | None => s
                end.
Proof.
  destruct s as [|a s1]; [done|]. cbn [Py.lstrip leading_space].
  destruct (Py.isspace (String a "")); [done|].
  destruct s1 as [|b s2]; [done|].
  destruct (Py.isspace (String a (String b ""))); [done|].
  destruct s2 as [|c s3]; [done|].
  by destruct (Py.isspace (String a (String b (String c "")))).
Qed.

Lemma leading_space_found (s rest : string) :
  leading_space s = Some rest ->
  exists c, c ∈ Py.whitespace /\ s = c +:+ rest.
Proof.
  unfold leading_space, Py.isspace.
  destruct s as [|a s1]; [done|].
  case_bool_decide as H1; [intros [= <-]; by eexists|].
  destruct s1 as [|b s2]; [done|].
  case_bool_decide as H2; [intros [= <-]; by eexists|].
  destruct s2 as [|c s3]; [done|].
  case_bool_decide as H3; [intros [= <-]; by eexists|done].
Qed.

Lemma leading_space_of (c rest : string) :
  c ∈ Py.whitespace -> leading_space (c +:+ rest) = Some rest.
Proof.
  intros Hc. apply list_elem_of_In in Hc. vm_compute in Hc.
  repeat (destruct Hc as [<-|Hc]; [vm_compute; reflexivity|]). done.
Qed.

Lemma leading_space_shorter (s rest : string) :
  leading_space s = Some rest -> (String.length rest < String.length s)%nat.
Proof.
  unfold leading_space.
  destruct s as [|a [|b [|c s3]]]; repeat (destruct (Py.isspace _));
    try done; intros [= <-]; simpl; lia.
Qed.

Lemma leading_space_none (s c : string) :
  leading_space s = None -> c ∈ Py.whitespace -> String.prefix c s = false.
Proof.
  intros Hnone Hc. destruct (String.prefix c s) eqn:Hprefix; [|done].
  apply prefix_split in Hprefix as [rest ->].
  by rewrite (leading_space_of c rest Hc) in Hnone.
Qed.

Lemma lstrip_split (s : string) :
  exists l, s = l +:+ Py.lstrip s /\ spaces l.
Proof.
  remember (String.length s) as n eqn:Hn. revert s Hn.
  induction n as [n IH] using lt_wf_ind. intros s ->.
  rewrite lstrip_step. destruct (leading_space s) as [rest|] eqn:Hlead.
  - destruct (leading_space_found s rest Hlead) as (c & Hc & ->).
    destruct (IH (String.length rest) (leading_space_shorter _ _ Hlead) rest eq_refl)
      as (l & Hrest & Hl).
    exists (c +:+ l). split; [by rewrite append_assoc, <- Hrest|].
    constructor; [by apply whitespace_char_elem|done].
  - exists "". split; [done|constructor].
Qed.

Lemma lstrip_stops (s c : string) :
  c ∈ Py.whitespace -> String.prefix c (Py.lstrip s) = false.
Proof.
  intros Hc. remember (String.length s) as n eqn:Hn. revert s Hn.
  induction n as [n IH] using lt_wf_ind. intros s ->.
  rewrite lstrip_step. destruct (leading_space s) as [rest|] eqn:Hlead.
  - by apply (IH (String.length rest) (leading_space_shorter _ _ Hlead)).
  - by apply leading_space_none.
Qed.

Lemma lstrip_spaces (s : string) : spaces s -> Py.lstrip s = "".
Proof.
  induction 1 as [|c s Hc _ IH]; [done|]. apply whitespace_char_elem in Hc.
  by rewrite lstrip_step, (leading_space_of c s Hc).
Qed.

Lemma lstrip_empty_spaces (s : string) : Py.lstrip s = "" -> spaces s.
Proof.
  intros Hs. destruct (lstrip_split s) as (l & Hl & Hspaces).
  rewrite Hs, append_empty in Hl. by subst.
Qed.

Lemma rstrip_split (s : string) :
  exists r, s = Py.rstrip s +:+ r /\ spaces r.
Proof.
  induction s as [|a s (r & Hs & Hr)]; [exists ""; split; [done|constructor]|].
  cbn [Py.rstrip]. destruct (String.eqb_spec (Py.lstrip (String a s)) "") as [Hblank|_].
  - exists (String a s). split; [done|]. by apply lstrip_empty_spaces.
  - exists r. split; [|done]. rewrite append_cons. by rewrite <- Hs.
Qed.

Lemma rstrip_stops (s c u : string) :
  c ∈ Py.whitespace -> Py.rstrip s <> u +:+ c.
Proof.
  intros Hc. revert u. induction s as [|a s IH]; intros u.
  - cbn [Py.rstrip]. destruct u; [|done]. intros Heq. change (""  = c) in Heq. subst c.
    apply list_elem_of_In in Hc. vm_compute in Hc.
    repeat (destruct Hc as [Hc|Hc]; [done|]). done.
  - cbn [Py.rstrip].
    destruct (String.eqb_spec (Py.lstrip (String a s)) "") as [Hblank|Hsome].
    + destruct u; [|done]. intros Heq. change (""  = c) in Heq. subst c.
      apply list_elem_of_In in Hc. vm_compute in Hc.
      repeat (destruct Hc as [Hc|Hc]; [done|]). done.
    + destruct u as [|b u].
      * intros Heq. change (String a (Py.rstrip s) = c) in Heq.
        apply Hsome. apply lstrip_spaces.
        destruct (rstrip_split (String a s)) as (r & Hs & Hr).
        cbn [Py.rstrip] in Hs.
        destruct (String.eqb_spec (Py.lstrip (String a s)) "") as [|_]; [done|].
        rewrite Heq in Hs. rewrite Hs.
        constructor; [by apply whitespace_char_elem|done].
      * rewrite append_cons. intros [= _ Heq]. by apply (IH u).
Qed.

Lemma rstrip_prefix (s c : string) :
  String.prefix c (Py.rstrip s) = true -> String.prefix c s = true.
Proof.
  intros [rest Hrest]%prefix_split.
  destruct (rstrip_split s) as (r & Hs & _).
  rewrite Hs, Hrest, append_assoc. apply prefix_append.
Qed.

Lemma strip_stripped (s : string) : stripped_of s (Py.strip s).
Proof.
  unfold stripped_of, Py.strip.
  destruct (lstrip_split s) as (l & Hl & Hspaces).
  destruct (rstrip_split (Py.lstrip s)) as (r & Hr & Hspaces').
  split; [|split].
  - exists l, r. split; [|done]. by rewrite <- Hr.
  - intros c Hc. apply whitespace_char_elem in Hc.
    destruct (String.prefix c (Py.rstrip (Py.lstrip s))) eqn:Hprefix; [|done].
    apply rstrip_prefix in Hprefix. by rewrite (lstrip_stops s c Hc) in Hprefix.
  - intros c u Hc. apply whitespace_char_elem in Hc. by apply rstrip_stops.
Qed.

(** ** The speaker loop *)

Lemma alternating_label (i : nat) :
  ("Speaker " +:+ Py.str_of_nat (i mod 2 + 1))%nat = "Speaker 1"
  \/ ("Speaker " +:+ Py.str_of_nat (i mod 2 + 1))%nat = "Speaker 2".
Proof.
  pose proof (Nat.mod_upper_bound i 2) as Hlt.
  destruct (i mod 2)%nat as [|[|n]]; [by left|by right|lia].
Qed.

Lemma format_from_labels (speaker_detection : bool) (segments : list raw_segment) :
  forall (i : nat) (current_speaker : string) (last_end : float),
    current_speaker = "Speaker 1" \/ current_speaker = "Speaker 2" ->
    Forall (fun s => RambleModeV2.speaker s = "Speaker 1"
                     \/ RambleModeV2.speaker s = "Speaker 2")
      (RambleModeV2.format_from speaker_detection i current_speaker last_end
         segments).
Proof.
  induction segments as [|seg rest IH]; intros i current last_end Hcur; simpl.
  - constructor.
  - destruct (_ && speaker_detection).
    + constructor; [apply alternating_label|]. apply IH, alternating_label.
    + constructor; [done|]. by apply IH.
Qed.

Lemma format_from_disabled (segments : list raw_segment) :
  forall (i : nat) (current_speaker : string) (last_end : float),
    Forall (fun s => RambleModeV2.speaker s = current_speaker)
      (RambleModeV2.format_from false i current_speaker last_end segments).
Proof.
  induction segments as [|seg rest IH]; intros i current last_end; simpl.
  - constructor.
  - rewrite andb_false_r. constructor; [done|]. apply IH.
Qed.

(** ** Speaker labels *)

(** C1: on the segments starting at 0, 1, 5, 6 and ending at 1, 2, 5.5, 6.5,
    with speaker detection on, the handler labels all four segments
    "Speaker 1": at index 2 the pause of three seconds selects the label
    "Speaker {(2 % 2) + 1}", which is "Speaker 1" again. *)
Theorem gap_example_labels (t0 t1 t2 t3 : string) :
  RambleModeV2.speaker <$> RambleModeV2.formatted_segments true (gap_example t0 t1 t2 t3)
  = ["Speaker 1"; "Speaker 1"; "Speaker 1"; "Speaker 1"].
Proof. reflexivity. Qed.

(** With speaker detection off and nothing recognised, the response has an
    empty list of segments and reports one speaker. *)
Lemma no_segments_one_speaker :
  reply (fst (RambleModeV2.transcribe silent_world
                (RambleModeV2.Request ".ogg" None "transcribe" false) fresh))
    "segments" = Some (JList [])
  /\ reply (fst (RambleModeV2.transcribe silent_world
                   (RambleModeV2.Request ".ogg" None "transcribe" false) fresh))
       "speakers_detected" = Some (JInt 1).
Proof. split; vm_compute; reflexivity. Qed.

(** C2 (amended): with speaker detection off, every segment of the response
    is labelled "Speaker 1" and the response reports one speaker, whatever
    the segments are, none included. *)
Theorem detection_off_one_label (ext : string) (language : option string)
    (task : string) (result : whisper_result) :
  Forall (fun s => RambleModeV2.speaker s = "Speaker 1")
    (RambleModeV2.formatted_segments false (default [] (res_segments result)))
  /\ field "segments"
       (JObj (RambleModeV2.success (RambleModeV2.Request ext language task false) result))
     = Some (JList (RambleModeV2.segment_json <$>
          RambleModeV2.formatted_segments false (default [] (res_segments result))))
  /\ field "speakers_detected"
       (JObj (RambleModeV2.success (RambleModeV2.Request ext language task false) result))
     = Some (JInt 1).
Proof.
  split; [apply format_from_disabled|]. split; reflexivity.
Qed.

Lemma labels_size (labels : list string) :
  Forall (fun l => l = "Speaker 1" \/ l = "Speaker 2") labels ->
  (size (list_to_set labels : gset string) <= 2)%nat.
Proof.
  intros Hall.
  transitivity (size ({["Speaker 1"; "Speaker 2"]} : gset string)).
  - apply subseteq_size. intros l Hl. apply elem_of_list_to_set in Hl.
    rewrite Forall_forall in Hall. destruct (Hall l Hl) as [-> | ->]; set_solver.
  - rewrite size_union by set_solver. by rewrite !size_singleton.
Qed.

(** What the dictionary of a successful response holds under "segments" and
    "speakers_detected". *)
Lemma success_fields (req : RambleModeV2.request) (result : whisper_result) :
  field "segments" (JObj (RambleModeV2.success req result))
  = Some (JList (RambleModeV2.segment_json <$>
       RambleModeV2.formatted_segments (RambleModeV2.speaker_detection req)
         (default [] (res_segments result))))
  /\ field "speakers_detected" (JObj (RambleModeV2.success req result))
     = Some (JInt (RambleModeV2.speakers_detected (RambleModeV2.speaker_detection req)
          (RambleModeV2.formatted_segments (RambleModeV2.speaker_detection req)
             (default [] (res_segments result))))).
Proof. split; reflexivity. Qed.

(** C9: every label the loop assigns is "Speaker 1" or "Speaker 2", and the
    number of speakers it reports, also in the response, is at most 2. *)
Theorem labels_speaker_1_or_2 (speaker_detection : bool)
    (segments : list raw_segment) :
  Forall (fun s => RambleModeV2.speaker s = "Speaker 1"
                   \/ RambleModeV2.speaker s = "Speaker 2")
    (RambleModeV2.formatted_segments speaker_detection segments)
  /\ 0 <= RambleModeV2.speakers_detected speaker_detection
            (RambleModeV2.formatted_segments speaker_detection segments) <= 2
  /\ (forall (ext : string) (language : option string) (task : string)
             (t l : option string),
        exists n : Z,
          field "speakers_detected"
            (JObj (RambleModeV2.success
                     (RambleModeV2.Request ext language task speaker_detection)
                     (WhisperResult (Some segments) t l)))
          = Some (JInt n)
          /\ 0 <= n <= 2).
Proof.
  assert (Hlabels : Forall (fun s => RambleModeV2.speaker s = "Speaker 1"
                                     \/ RambleModeV2.speaker s = "Speaker 2")
            (RambleModeV2.formatted_segments speaker_detection segments))
    by (apply format_from_labels; by left).
  assert (Hcount : 0 <= RambleModeV2.speakers_detected speaker_detection
            (RambleModeV2.formatted_segments speaker_detection segments) <= 2).
  { unfold RambleModeV2.speakers_detected. destruct speaker_detection; [|lia].
    pose proof (labels_size (RambleModeV2.speaker <$>
      RambleModeV2.formatted_segments true segments)) as Hsize.
    rewrite Forall_fmap in Hsize. specialize (Hsize Hlabels). lia. }
  split; [done|]. split; [done|].
  intros ext language task t l. eexists. split; [|exact Hcount].
  apply success_fields.
Qed.

(** ** Duration *)

Lemma v2_duration_snoc (init : list raw_segment) (final : raw_segment) :
  RambleModeV2.duration_seconds (init ++ [final])
  = JFloat (Py.round2 (raw_end final)).
Proof.
  unfold RambleModeV2.duration_seconds.
  destruct (init ++ [final]) as [|seg rest] eqn:Hsegs.
  - by destruct init.
  - by rewrite <- Hsegs, last_snoc.
Qed.

Lemma multi_duration_snoc (init : list raw_segment) (final : raw_segment)
    (t l : option string) :
  RambleModeV2Multi.duration_seconds (WhisperResult (Some (init ++ [final])) t l)
  = JFloat (Py.round2 (raw_end final)).
Proof.
  unfold RambleModeV2Multi.duration_seconds. simpl.
  destruct (init ++ [final]) as [|seg rest] eqn:Hsegs.
  - by destruct init.
  - by rewrite <- Hsegs, last_snoc.
Qed.

(** C6: in the dictionary both handlers return after a recognition,
    [duration_seconds] is the end of the last segment rounded to two decimals,
    and 0 when there is no segment (an empty list, or no ["segments"] key). *)
Theorem duration_is_rounded_end_of_last_segment :
  (forall (req : RambleModeV2.request) (init : list raw_segment)
          (final : raw_segment) (t l : option string),
     field "duration_seconds"
       (JObj (RambleModeV2.success req (WhisperResult (Some (init ++ [final])) t l)))
     = Some (JFloat (Py.round2 (raw_end final))))
  /\ (forall (req : RambleModeV2.request) (t l : option string),
        field "duration_seconds"
          (JObj (RambleModeV2.success req (WhisperResult (Some []) t l)))
        = Some (JInt 0)
        /\ field "duration_seconds"
             (JObj (RambleModeV2.success req (WhisperResult None t l)))
           = Some (JInt 0))
  /\ (forall (req : RambleModeV2Multi.request) (init : list raw_segment)
             (final : raw_segment) (t l : option string),
        field "duration_seconds"
          (JObj (RambleModeV2Multi.success req
                   (WhisperResult (Some (init ++ [final])) t l)))
        = Some (JFloat (Py.round2 (raw_end final))))
  /\ (forall (req : RambleModeV2Multi.request) (t l : option string),
        field "duration_seconds"
          (JObj (RambleModeV2Multi.success req (WhisperResult (Some []) t l)))
        = Some (JInt 0)
        /\ field "duration_seconds"
             (JObj (RambleModeV2Multi.success req (WhisperResult None t l)))
           = Some (JInt 0)).
Proof.
  split; [|split; [|split]].
  - intros req init final t l.
    change (Some (RambleModeV2.duration_seconds (init ++ [final]))
            = Some (JFloat (Py.round2 (raw_end final)))).
    by rewrite v2_duration_snoc.
  - intros req t l. split; reflexivity.
  - intros req init final t l.
    change (Some (RambleModeV2Multi.duration_seconds
                    (WhisperResult (Some (init ++ [final])) t l))
            = Some (JFloat (Py.round2 (raw_end final)))).
    by rewrite multi_duration_snoc.
  - intros req t l. split; reflexivity.
Qed.

(** A request whose decode and recognition both go through is answered with
    status 200 and the dictionary of [success]. *)
Lemma v2_transcribe_success (w : world) (req : RambleModeV2.request) (st : process)
    (stderr : string) (wrote : bool) (result : whisper_result) :
  ffmpeg w (temp_path_of w (RambleModeV2.file_ext req))
    (wav_path_of w (RambleModeV2.file_ext req)) = (Completed 0 stderr, wrote) ->
  model_transcribe w (RambleModeV2.model w) (wav_path_of w (RambleModeV2.file_ext req))
    (options w (RambleModeV2.task req) (RambleModeV2.language req)) = Returned result ->
  fst (RambleModeV2.transcribe w req st)
  = Returned (returned_dict (RambleModeV2.success req result)).
Proof.
  intros Hdecode Hrecognised.
  rewrite v2_transcribe_outcome. cbv zeta. by rewrite Hdecode, Hrecognised.
Qed.

(** ** The segments of a response *)

Lemma format_from_objects (speaker_detection : bool) (segments : list raw_segment) :
  forall (i : nat) (current_speaker : string) (last_end : float),
    Forall3
      (fun raw s object =>
         exists t,
           object = segment_object (RambleModeV2.speaker s) t
                      (Py.round2 (raw_start raw)) (Py.round2 (raw_end raw))
           /\ t = Py.strip (raw_text raw)
           /\ stripped_of (raw_text raw) t)
      segments
      (RambleModeV2.format_from speaker_detection i current_speaker last_end
         segments)
      (RambleModeV2.segment_json <$>
         RambleModeV2.format_from speaker_detection i current_speaker last_end
           segments).
Proof.
  induction segments as [|seg rest IH]; intros i current last_end.
  - constructor.
  - cbn [RambleModeV2.format_from]. rewrite fmap_cons. constructor; [|apply IH].
    eexists. split; [reflexivity|]. split; [reflexivity|].
    apply strip_stripped.
Qed.

(** C10: when the decode and the recognition go through, the answer has
    status 200 and holds under "segments" one object for each raw segment of
    the recognition, in the same order.  The object of a segment has the four
    keys "speaker", "text", "start" and "end": the label that the speaker loop
    gave the segment; the raw text with the whitespace at both ends taken off
    (it is the raw text between two runs of whitespace, and neither starts
    nor ends with whitespace); and the start and the end of the raw segment
    rounded to two decimals. *)
Theorem segments_stripped_and_rounded (w : world) (req : RambleModeV2.request)
    (st : process) (stderr : string) (wrote : bool) (result : whisper_result) :
  ffmpeg w (temp_path_of w (RambleModeV2.file_ext req))
    (wav_path_of w (RambleModeV2.file_ext req)) = (Completed 0 stderr, wrote) ->
  model_transcribe w (RambleModeV2.model w) (wav_path_of w (RambleModeV2.file_ext req))
    (options w (RambleModeV2.task req) (RambleModeV2.language req)) = Returned result ->
  status_of (fst (RambleModeV2.transcribe w req st)) = Some 200
  /\ exists objects : list json,
       reply (fst (RambleModeV2.transcribe w req st)) "segments"
       = Some (JList objects)
       /\ Forall3
            (fun raw s object =>
               exists t,
                 object = segment_object (RambleModeV2.speaker s) t
                            (Py.round2 (raw_start raw)) (Py.round2 (raw_end raw))
                 /\ t = Py.strip (raw_text raw)
                 /\ stripped_of (raw_text raw) t)
            (default [] (res_segments result))
            (RambleModeV2.formatted_segments (RambleModeV2.speaker_detection req)
               (default [] (res_segments result)))
            objects.
Proof.
  intros Hdecode Hrecognised.
  rewrite (v2_transcribe_success w req st stderr wrote result Hdecode Hrecognised).
  split; [done|]. eexists. split; [apply success_fields|].
  apply format_from_objects.
Qed.

(** The dictation of [dictation_world], with its whitespace of one, two and
    three bytes. *)
Lemma segments_stripped_and_rounded_witness :
  status_of (fst (RambleModeV2.transcribe dictation_world
                    (RambleModeV2.Request ".ogg" None "transcribe" true) fresh))
  = Some 200
  /\ exists objects : list json,
       reply (fst (RambleModeV2.transcribe dictation_world
                     (RambleModeV2.Request ".ogg" None "transcribe" true) fresh))
         "segments"
       = Some (JList objects)
       /\ Forall3
            (fun raw s object =>
               exists t,
                 object = segment_object (RambleModeV2.speaker s) t
                            (Py.round2 (raw_start raw)) (Py.round2 (raw_end raw))
                 /\ t = Py.strip (raw_text raw)
                 /\ stripped_of (raw_text raw) t)
            (default [] (res_segments dictation))
            (RambleModeV2.formatted_segments true
               (default [] (res_segments dictation)))
            objects.
Proof.
  apply (segments_stripped_and_rounded dictation_world
           (RambleModeV2.Request ".ogg" None "transcribe" true) fresh "" true
           dictation);
    reflexivity.
Defined.

(** ** Failures of the decode *)

(** X1: in the single-model handler a decode that runs into the timeout is
    answered with status 408 and a message of its own, unlike the answer to
    any failed conversion. *)
Lemma v2_timeout_408 (w : world) (req : RambleModeV2.request) (st : process)
    (e : exn) (wrote : bool) :
  ffmpeg w (temp_path_of w (RambleModeV2.file_ext req))
    (wav_path_of w (RambleModeV2.file_ext req)) = (Threw e, wrote) ->
  class_of e = TimeoutExpired ->
  fst (RambleModeV2.transcribe w req st) = Returned RambleModeV2.timed_out
  /\ status_code RambleModeV2.timed_out = 408
  /\ forall stderr, RambleModeV2.timed_out <> RambleModeV2.conversion_failed stderr.
Proof.
  intros Hdecode Hclass. split; [|split; [done|by intros stderr]].
  rewrite v2_transcribe_outcome. cbv zeta. rewrite Hdecode. simpl.
  unfold v2_handled, is_TimeoutExpired. by rewrite Hclass.
Qed.

(** X2: in the single-model handler a decode that exits with a non-zero code
    is answered with status 400 and ffmpeg's stderr; the recognition is not
    called, so its outcome does not matter. *)
Lemma v2_conversion_failed_400 (w : world) (req : RambleModeV2.request)
    (st : process) (returncode : Z) (stderr : string) (wrote : bool) :
  ffmpeg w (temp_path_of w (RambleModeV2.file_ext req))
    (wav_path_of w (RambleModeV2.file_ext req)) = (Completed returncode stderr, wrote) ->
  returncode <> 0 ->
  fst (RambleModeV2.transcribe w req st)
  = Returned (JSONResponse
      (JObj [("text", JStr ""); ("status", JStr "error");
             ("error", JStr ("Audio conversion failed: " +:+ stderr))]) 400).
Proof.
  intros Hdecode Hcode.
  rewrite v2_transcribe_outcome. cbv zeta. rewrite Hdecode. simpl.
  by rewrite (proj2 (Z.eqb_neq returncode 0) Hcode).
Qed.

(** The timeout of [slow_decode_world]. *)
Lemma v2_timeout_408_witness :
  fst (RambleModeV2.transcribe slow_decode_world
         (RambleModeV2.Request ".mp3" None "transcribe" true) fresh)
  = Returned RambleModeV2.timed_out
  /\ status_code RambleModeV2.timed_out = 408
  /\ forall stderr, RambleModeV2.timed_out <> RambleModeV2.conversion_failed stderr.
Proof.
  apply (v2_timeout_408 slow_decode_world
           (RambleModeV2.Request ".mp3" None "transcribe" true) fresh
           (Exn TimeoutExpired "Command ffmpeg timed out after 30 seconds"
              "Traceback (most recent call last): subprocess.TimeoutExpired")
           true);
    reflexivity.
Defined.

(** The rejected upload of [bad_audio_world]. *)
Lemma v2_conversion_failed_400_witness :
  fst (RambleModeV2.transcribe bad_audio_world
         (RambleModeV2.Request ".mp3" None "transcribe" true) fresh)
  = Returned (JSONResponse
      (JObj [("text", JStr ""); ("status", JStr "error");
             ("error",
              JStr ("Audio conversion failed: "
                    +:+ "Invalid data found when processing input"))]) 400).
Proof.
  apply (v2_conversion_failed_400 bad_audio_world
           (RambleModeV2.Request ".mp3" None "transcribe" true) fresh 1
           "Invalid data found when processing input" false);
    [reflexivity | lia].
Defined.

(** The multi-model handler has one [except] clause: whatever exception of
    class [Exception] the decode raises, a timeout included, is answered with
    status 500. *)
Lemma multi_decode_raises_500 (w : world) (req : RambleModeV2Multi.request)
    (st : process) (info : list (string * json)) (e : exn) (wrote : bool) :
  assoc (RambleModeV2Multi.model req) RambleModeV2Multi.MODELS = Some info ->
  ffmpeg w (temp_path_of w (RambleModeV2Multi.file_ext req))
    (wav_path_of w (RambleModeV2Multi.file_ext req)) = (Threw e, wrote) ->
  is_Exception e = true ->
  fst (RambleModeV2Multi.transcribe w req st)
  = Returned (JSONResponse (JObj [("error", JStr (str e)); ("status", JStr "error")]) 500).
Proof.
  intros Hknown Hdecode Hclass.
  rewrite (multi_transcribe_outcome _ _ _ _ Hknown). cbv zeta.
  rewrite Hdecode. unfold multi_handled. by rewrite Hclass.
Qed.

(** The multi-model handler does not look at ffmpeg's exit code: the response
    is the same for every code and every stderr. *)
Lemma multi_exit_code_ignored (w : world) (req : RambleModeV2Multi.request)
    (st : process) (info : list (string * json)) (returncode : Z)
    (stderr : string) (wrote : bool) :
  assoc (RambleModeV2Multi.model req) RambleModeV2Multi.MODELS = Some info ->
  ffmpeg w (temp_path_of w (RambleModeV2Multi.file_ext req))
    (wav_path_of w (RambleModeV2Multi.file_ext req)) = (Completed returncode stderr, wrote) ->
  fst (RambleModeV2Multi.transcribe w req st)
  = fst (RambleModeV2Multi.transcribe
           (World (cuda_is_available w) (tmp_stem w)
              (fun _ _ => (Completed 0 "", wrote)) (load_model w) (model_transcribe w))
           req st).
Proof.
  intros Hknown Hdecode.
  rewrite !(multi_transcribe_outcome _ _ _ _ Hknown). cbv zeta.
  by rewrite Hdecode.
Qed.

(** C3: a decode that runs into the 30 second timeout, sent to the
    multi-model handler with a known model: the answer has status 500 and the
    exception's text, where the single-model handler answers the same decode
    with status 408. *)
Theorem multi_timeout_status_500 :
  fst (RambleModeV2Multi.transcribe slow_decode_world
         (RambleModeV2Multi.Request ".mp3" "tiny" None "transcribe") fresh)
  = Returned (JSONResponse
      (JObj [("error", JStr "Command ffmpeg timed out after 30 seconds");
             ("status", JStr "error")]) 500)
  /\ status_of (fst (RambleModeV2.transcribe slow_decode_world
                       (RambleModeV2.Request ".mp3" None "transcribe" true) fresh))
     = Some 408.
Proof. split; vm_compute; reflexivity. Qed.

(** C4: a decode that exits with code 1, sent to the multi-model handler with
    a known model: the handler goes on to load the model and to call the
    recognition, and answers with status 500 and the recognition's error
    text, where the single-model handler answers the same decode with status
    400 and ffmpeg's stderr. *)
Theorem multi_decode_failure_reaches_recognition :
  fst (RambleModeV2Multi.transcribe bad_audio_world
         (RambleModeV2Multi.Request ".mp3" "tiny" None "transcribe") fresh)
  = Returned (JSONResponse
      (JObj [("error", JStr "Failed to load audio"); ("status", JStr "error")]) 500)
  /\ loads (snd (RambleModeV2Multi.transcribe bad_audio_world
                   (RambleModeV2Multi.Request ".mp3" "tiny" None "transcribe") fresh))
     = 1%nat
  /\ fst (RambleModeV2.transcribe bad_audio_world
            (RambleModeV2.Request ".mp3" None "transcribe" true) fresh)
     = Returned (JSONResponse
         (JObj [("text", JStr ""); ("status", JStr "error");
                ("error",
                 JStr "Audio conversion failed: Invalid data found when processing input")])
         400).
Proof. repeat split; vm_compute; reflexivity. Qed.

(** ** Temporary files on a file system that can fail *)

Lemma cleanup_on_outcome (f : filesystem) (paths : list string) (st : process) :
  match cleanup_on f paths st with
  | (Returned _, st') =>
      files st' = files st ∖ list_to_set paths
      /\ models_of st' = models_of st
  | (Raised e, st') => raised_by_unlink f paths e /\ models_of st' = models_of st
  end.
Proof.
  revert st. induction paths as [|path rest IH]; intros st.
  - simpl. split; [set_solver|done].
  - cbn [cleanup_on]. unfold bind at 1. unfold gets.
    unfold bind at 1. unfold exists_ at 1.
    case_bool_decide as Hpresent.
    + unfold unlink_on, bind at 1, failing.
      destruct (unlink_error f path) as [e|] eqn:Herror.
      * split; [|done]. exists path. split; [apply list_elem_of_here|done].
      * unfold modify. specialize (IH (unlink path st)).
        destruct (cleanup_on f rest (unlink path st)) as [[[]|e] st'].
        -- destruct IH as [-> Hmodels]. split; [|done]. simpl. set_solver.
        -- destruct IH as [(p & Hp & He) Hmodels]. split; [|done].
           exists p. split; [by apply list_elem_of_further|done].
    + unfold ret. specialize (IH st).
      destruct (cleanup_on f rest st) as [[[]|e] st'].
      * destruct IH as [-> Hmodels]. split; [|done]. simpl. set_solver.
      * destruct IH as [(p & Hp & He) Hmodels]. split; [|done].
        exists p. split; [by apply list_elem_of_further|done].
Qed.

Lemma cleanup_on_removable (f : filesystem) (paths : list string) (st : process) :
  Forall (fun path => unlink_error f path = None) paths ->
  cleanup_on f paths st = (Returned tt, cleanup paths st).
Proof.
  intros Hall. revert st. induction Hall as [|path rest Hpath _ IH]; intros st.
  - done.
  - cbn [cleanup_on cleanup]. unfold bind at 1. unfold gets.
    unfold bind at 1. destruct (exists_ path st).
    + unfold unlink_on, bind at 1, failing. rewrite Hpath. unfold modify. apply IH.
    + unfold ret. apply IH.
Qed.

(** The handlers up to the [try] statement: an error while the upload is
    read or written leaves the handler, and the [try] statement is entered
    with the upload on disk. *)
Lemma v2_transcribe_on_cases (f : filesystem) (w : world)
    (req : RambleModeV2.request) (st : process) :
  let temp_path := temp_path_of w (RambleModeV2.file_ext req) in
  let wav_path := wav_path_of w (RambleModeV2.file_ext req) in
  RambleModeV2.transcribe_on f w req st =
    match read_error f, create_error f, write_error f with
    | Some e, _, _ => (Raised e, st)
    | None, Some e, _ => (Raised e, st)
    | None, None, Some e => (Raised e, create temp_path st)
    | None, None, None =>
        try_finally_raising
          (try_except
             (RambleModeV2.convert_and_transcribe w req temp_path wav_path)
             [(is_TimeoutExpired, fun _ => ret RambleModeV2.timed_out);
              (is_Exception, fun e => ret (RambleModeV2.internal_error e))])
          (cleanup_on f [temp_path; wav_path])
          (create temp_path st)
    end.
Proof.
  cbv zeta.
  unfold RambleModeV2.transcribe_on, read_upload, write_upload, failing,
    wav_path_of, temp_path_of.
  unfold bind at 1. destruct (read_error f) as [e|]; [done|].
  unfold bind at 1. unfold bind at 1. destruct (create_error f) as [e|]; [done|].
  unfold bind at 1. unfold modify at 1. unfold bind at 1.
  by destruct (write_error f) as [e|].
Qed.

Lemma multi_transcribe_on_cases (f : filesystem) (w : world)
    (req : RambleModeV2Multi.request) (st : process) (info : list (string * json)) :
  let temp_path := temp_path_of w (RambleModeV2Multi.file_ext req) in
  let wav_path := wav_path_of w (RambleModeV2Multi.file_ext req) in
  assoc (RambleModeV2Multi.model req) RambleModeV2Multi.MODELS = Some info ->
  RambleModeV2Multi.transcribe_on f w req st =
    match read_error f, create_error f, write_error f with
    | Some e, _, _ => (Raised e, st)
    | None, Some e, _ => (Raised e, st)
    | None, None, Some e => (Raised e, create temp_path st)
    | None, None, None =>
        try_finally_raising
          (try_except
             (RambleModeV2Multi.convert_and_transcribe_on f w req temp_path wav_path)
             [(is_Exception, fun e => ret (RambleModeV2Multi.internal_error e))])
          (cleanup_on f [temp_path; wav_path])
          (create temp_path st)
    end.
Proof.
  cbv zeta. intros Hknown.
  unfold RambleModeV2Multi.transcribe_on. rewrite Hknown.
  unfold read_upload, write_upload, failing, wav_path_of, temp_path_of.
  unfold bind at 1. destruct (read_error f) as [e|]; [done|].
  unfold bind at 1. unfold bind at 1. destruct (create_error f) as [e|]; [done|].
  unfold bind at 1. unfold modify at 1. unfold bind at 1.
  by destruct (write_error f) as [e|].
Qed.

(** What a [try] statement with a [finally] block that cleans up leaves: a
    result of the block, with the files removed, or an exception of
    [os.unlink]. *)
Lemma try_finally_raising_cleanup {A : Type} (f : filesystem) (body : py A)
    (paths : list string) (st : process) :
  match try_finally_raising body (cleanup_on f paths) st with
  | (Returned a, st') =>
      fst (body st) = Returned a
      /\ files st' = files (snd (body st)) ∖ list_to_set paths
  | (Raised e, st') =>
      raised_by_unlink f paths e
      \/ (fst (body st) = Raised e
          /\ files st' = files (snd (body st)) ∖ list_to_set paths)
  end.
Proof.
  unfold try_finally_raising. destruct (body st) as [r st1]. simpl.
  pose proof (cleanup_on_outcome f paths st1) as Hfinal.
  destruct (cleanup_on f paths st1) as [[[]|e] st2].
  - destruct Hfinal as [Hfiles _]. destruct r as [a|e]; [done|]. by right.
  - destruct Hfinal as [Hunlink _]. by left.
Qed.

Lemma try_except_Exception {A : Type} (body : py A)
    (clauses : list (except_clause A)) (handler : exn -> A) (st : process)
    (e : exn) :
  fst (try_except body (clauses ++ [(is_Exception, fun e => ret (handler e))]) st)
  = Raised e ->
  Forall (fun c : except_clause A => exists h, snd c = fun e => ret (h e)) clauses ->
  is_Exception e = false.
Proof.
  unfold try_except. destruct (body st) as [[a|e'] st1]; [done|].
  intros Hraised Hclauses.
  destruct (List.find _ _) as [c|] eqn:Hfind.
  - apply find_some in Hfind as [Hin Hc]. apply in_app_or in Hin as [Hin|Hin].
    + rewrite Forall_forall in Hclauses.
      destruct (Hclauses c) as [h Hh]; [by apply list_elem_of_In|].
      by rewrite Hh in Hraised.
    + destruct Hin as [<-|[]]. done.
  - simpl in Hraised. injection Hraised as <-.
    destruct (is_Exception e') eqn:Hclass; [|done].
    eapply find_none in Hfind; [|apply in_or_app; right; left; reflexivity].
    simpl in Hfind. congruence.
Qed.

(** On a file system where nothing fails and no load brings a file, the
    handlers are the handlers [transcribe] of the sections above. *)
Lemma cleanup_on_reliable (paths : list string) (st : process) :
  cleanup_on reliable paths st = (Returned tt, cleanup paths st).
Proof. apply cleanup_on_removable, Forall_forall. done. Qed.

Lemma try_finally_raising_reliable {A : Type} (body : py A)
    (paths : list string) (st : process) :
  try_finally_raising body (cleanup_on reliable paths) st
  = try_finally body (cleanup paths) st.
Proof.
  unfold try_finally_raising, try_finally. destruct (body st) as [r st1].
  by rewrite cleanup_on_reliable.
Qed.

Lemma try_except_same {A : Type} (body body' : py A)
    (clauses : list (except_clause A)) (st : process) :
  body st = body' st -> try_except body clauses st = try_except body' clauses st.
Proof. unfold try_except. by intros ->. Qed.

Lemma v2_transcribe_on_reliable (w : world) (req : RambleModeV2.request)
    (st : process) :
  RambleModeV2.transcribe_on reliable w req st = RambleModeV2.transcribe w req st.
Proof.
  rewrite v2_transcribe_on_cases. cbv zeta.
  cbn [reliable read_error create_error write_error].
  by rewrite try_finally_raising_reliable.
Qed.

Lemma get_model_on_reliable (w : world) (model_size : string) (st : process) :
  RambleModeV2Multi.get_model_on reliable w model_size st
  = RambleModeV2Multi.get_model w model_size st.
Proof.
  unfold RambleModeV2Multi.get_model_on, RambleModeV2Multi.get_model,
    whisper_load_model_on, bind, gets, modify, with_files.
  destruct (bool_decide _); [done|]. simpl.
  rewrite (left_id_L ∅ (∪) (files st)). by destruct st.
Qed.

Lemma multi_body_on_reliable (w : world) (req : RambleModeV2Multi.request)
    (temp_path wav_path : string) (st : process) :
  RambleModeV2Multi.convert_and_transcribe_on reliable w req temp_path wav_path st
  = RambleModeV2Multi.convert_and_transcribe w req temp_path wav_path st.
Proof.
  unfold RambleModeV2Multi.convert_and_transcribe_on,
    RambleModeV2Multi.convert_and_transcribe.
  unfold bind at 1. symmetry. unfold bind at 1. symmetry.
  destruct (subprocess_run w temp_path wav_path st) as [[r|e] st1]; [|done].
  unfold bind at 1. symmetry. unfold bind at 1. symmetry.
  by rewrite get_model_on_reliable.
Qed.

Lemma multi_transcribe_on_reliable (w : world) (req : RambleModeV2Multi.request)
    (st : process) :
  RambleModeV2Multi.transcribe_on reliable w req st
  = RambleModeV2Multi.transcribe w req st.
Proof.
  destruct (assoc (RambleModeV2Multi.model req) RambleModeV2Multi.MODELS)
    as [info|] eqn:Hknown.
  - rewrite (multi_transcribe_on_cases _ _ _ _ _ Hknown). cbv zeta.
    cbn [reliable read_error create_error write_error].
    rewrite try_finally_raising_reliable.
    unfold RambleModeV2Multi.transcribe. rewrite Hknown.
    unfold bind at 1. unfold NamedTemporaryFile, try_finally.
    by rewrite (try_except_same _ _ _ _ (multi_body_on_reliable _ _ _ _ _)).
  - unfold RambleModeV2Multi.transcribe_on, RambleModeV2Multi.transcribe.
    by rewrite Hknown.
Qed.

(** C5: an upload that cannot be written, as when the temporary directory
    runs out of space while [f.write(audio_bytes)] runs.  The file that
    [NamedTemporaryFile(delete=False)] created is on disk by then; the
    exception leaves the handler before the [try] statement is entered, so
    the [finally] block does not run and the file is still on disk when the
    handler is left.  This is so in both handlers. *)
Theorem failed_write_leaves_upload (f : filesystem) (w : world) (st : process)
    (e : exn) :
  read_error f = None -> create_error f = None -> write_error f = Some e ->
  (forall req : RambleModeV2.request,
     fst (RambleModeV2.transcribe_on f w req st) = Raised e
     /\ exists_ (temp_path_of w (RambleModeV2.file_ext req))
          (snd (RambleModeV2.transcribe_on f w req st)) = true)
  /\ (forall (req : RambleModeV2Multi.request) (info : list (string * json)),
        assoc (RambleModeV2Multi.model req) RambleModeV2Multi.MODELS = Some info ->
        fst (RambleModeV2Multi.transcribe_on f w req st) = Raised e
        /\ exists_ (temp_path_of w (RambleModeV2Multi.file_ext req))
             (snd (RambleModeV2Multi.transcribe_on f w req st)) = true).
Proof.
  intros Hread Hcreate Hwrite.
  assert (Hcreated : forall path, exists_ path (create path st) = true).
  { intros path. unfold exists_. apply bool_decide_eq_true_2. simpl. set_solver. }
  split.
  - intros req. rewrite v2_transcribe_on_cases. cbv zeta.
    rewrite Hread, Hcreate, Hwrite. split; [done|apply Hcreated].
  - intros req info Hknown.
    rewrite (multi_transcribe_on_cases _ _ _ _ _ Hknown). cbv zeta.
    rewrite Hread, Hcreate, Hwrite. split; [done|apply Hcreated].
Qed.

(** The upload "memo.ogg" on a full disk: both handlers raise the [OSError]
    and leave the file /tmp/tmpk3v9x2ab.ogg, which was not there before the
    request. *)
Lemma failed_write_leaves_upload_witness :
  exists_ "/tmp/tmpk3v9x2ab.ogg" fresh = false
  /\ (fst (RambleModeV2.transcribe_on full_disk silent_world
             (RambleModeV2.Request ".ogg" None "transcribe" true) fresh)
      = Raised no_space
      /\ exists_ "/tmp/tmpk3v9x2ab.ogg"
           (snd (RambleModeV2.transcribe_on full_disk silent_world
                   (RambleModeV2.Request ".ogg" None "transcribe" true) fresh))
         = true)
  /\ (fst (RambleModeV2Multi.transcribe_on full_disk silent_world
             (RambleModeV2Multi.Request ".ogg" "tiny" None "transcribe") fresh)
      = Raised no_space
      /\ exists_ "/tmp/tmpk3v9x2ab.ogg"
           (snd (RambleModeV2Multi.transcribe_on full_disk silent_world
                   (RambleModeV2Multi.Request ".ogg" "tiny" None "transcribe") fresh))
         = true).
Proof.
  split; [reflexivity|]. split.
  - apply (proj1 (failed_write_leaves_upload full_disk silent_world fresh no_space
                    eq_refl eq_refl eq_refl)
             (RambleModeV2.Request ".ogg" None "transcribe" true)).
  - apply (proj2 (failed_write_leaves_upload full_disk silent_world fresh no_space
                    eq_refl eq_refl eq_refl)
             (RambleModeV2Multi.Request ".ogg" "tiny" None "transcribe")
             (RambleModeV2Multi.model_info "tiny" "fastest" "basic" "1GB")).
    reflexivity.
Defined.

(** The same upload when there is room for it: no file is left. *)
Example written_upload_is_removed :
  fst (RambleModeV2.transcribe_on reliable silent_world
         (RambleModeV2.Request ".ogg" None "transcribe" true) fresh)
  = fst (RambleModeV2.transcribe silent_world
           (RambleModeV2.Request ".ogg" None "transcribe" true) fresh)
  /\ exists_ "/tmp/tmpk3v9x2ab.ogg"
       (snd (RambleModeV2.transcribe_on reliable silent_world
               (RambleModeV2.Request ".ogg" None "transcribe" true) fresh))
     = false
  /\ exists_ "/tmp/tmpk3v9x2ab_processed.wav"
       (snd (RambleModeV2.transcribe_on reliable silent_world
               (RambleModeV2.Request ".ogg" None "transcribe" true) fresh))
     = false.
Proof. repeat split; vm_compute; reflexivity. Qed.

Lemma not_exists_after (path : string) (paths : list string) (st st' : process) :
  path ∈ paths ->
  files st' = files st ∖ list_to_set paths ->
  exists_ path st' = false.
Proof.
  intros Hpath Hfiles. unfold exists_. apply bool_decide_eq_false_2.
  rewrite Hfiles. set_solver.
Qed.

(** X22: a handler that returns a response has removed both temporary files,
    whatever failed on the way; and when the upload was written and
    [os.unlink] raises for neither path, the files are removed also when the
    handler is left by an exception.  This holds whatever files the decode
    or a model load brought. *)
Theorem temporary_files_removed (f : filesystem) (w : world) (st : process) :
  (forall req : RambleModeV2.request,
     (exists r, fst (RambleModeV2.transcribe_on f w req st) = Returned r)
     \/ (stored f
         /\ unlink_error f (temp_path_of w (RambleModeV2.file_ext req)) = None
         /\ unlink_error f (wav_path_of w (RambleModeV2.file_ext req)) = None) ->
     exists_ (temp_path_of w (RambleModeV2.file_ext req))
       (snd (RambleModeV2.transcribe_on f w req st)) = false
     /\ exists_ (wav_path_of w (RambleModeV2.file_ext req))
          (snd (RambleModeV2.transcribe_on f w req st)) = false)
  /\ (forall (req : RambleModeV2Multi.request) (info : list (string * json)),
        assoc (RambleModeV2Multi.model req) RambleModeV2Multi.MODELS = Some info ->
        (exists r, fst (RambleModeV2Multi.transcribe_on f w req st) = Returned r)
        \/ (stored f
            /\ unlink_error f (temp_path_of w (RambleModeV2Multi.file_ext req)) = None
            /\ unlink_error f (wav_path_of w (RambleModeV2Multi.file_ext req)) = None) ->
        exists_ (temp_path_of w (RambleModeV2Multi.file_ext req))
          (snd (RambleModeV2Multi.transcribe_on f w req st)) = false
        /\ exists_ (wav_path_of w (RambleModeV2Multi.file_ext req))
             (snd (RambleModeV2Multi.transcribe_on f w req st)) = false).
Proof.
  assert (Hgone : forall (body : py response) (temp_path wav_path : string)
                         (st0 : process),
    (exists r, fst (try_finally_raising body
                      (cleanup_on f [temp_path; wav_path]) st0) = Returned r)
    \/ (unlink_error f temp_path = None /\ unlink_error f wav_path = None) ->
    exists_ temp_path
      (snd (try_finally_raising body (cleanup_on f [temp_path; wav_path]) st0)) = false
    /\ exists_ wav_path
         (snd (try_finally_raising body (cleanup_on f [temp_path; wav_path]) st0))
       = false).
  { intros body temp_path wav_path st0 Hcase.
    assert (Hfiles : files (snd (try_finally_raising body
                       (cleanup_on f [temp_path; wav_path]) st0))
              = files (snd (body st0)) ∖ list_to_set [temp_path; wav_path]).
    { destruct Hcase as [[r Hreturned]|[Htemp Hwav]].
      - pose proof (try_finally_raising_cleanup f body [temp_path; wav_path] st0)
          as Hleft.
        destruct (try_finally_raising _ _ _) as [[a|e] st1]; [|done].
        destruct Hleft as [_ Hfiles]. exact Hfiles.
      - unfold try_finally_raising. destruct (body st0) as [r st1].
        rewrite cleanup_on_removable by (by repeat constructor).
        apply cleanup_files. }
    split; eapply not_exists_after; try exact Hfiles; set_solver. }
  split.
  - intros req. rewrite v2_transcribe_on_cases. cbv zeta.
    intros [[r Hreturned]|[(Hread & Hcreate & Hwrite) Hunlink]].
    + destruct (read_error f); [done|]. destruct (create_error f); [done|].
      destruct (write_error f); [done|]. apply Hgone. left. by exists r.
    + rewrite Hread, Hcreate, Hwrite. apply Hgone. by right.
  - intros req info Hknown.
    rewrite (multi_transcribe_on_cases _ _ _ _ _ Hknown). cbv zeta.
    intros [[r Hreturned]|[(Hread & Hcreate & Hwrite) Hunlink]].
    + destruct (read_error f); [done|]. destruct (create_error f); [done|].
      destruct (write_error f); [done|]. apply Hgone. left. by exists r.
    + rewrite Hread, Hcreate, Hwrite. apply Hgone. by right.
Qed.

(** A cancelled request whose files can be removed, and a request that is
    answered while the load of the model fetches its weights. *)
Lemma temporary_files_removed_witness :
  (exists_ "/tmp/tmpv8s3e6ab.ogg"
     (snd (RambleModeV2.transcribe_on fetching_disk cancelled_world
             (RambleModeV2.Request ".ogg" None "transcribe" true) fresh)) = false
   /\ exists_ "/tmp/tmpv8s3e6ab_processed.wav"
        (snd (RambleModeV2.transcribe_on fetching_disk cancelled_world
                (RambleModeV2.Request ".ogg" None "transcribe" true) fresh)) = false)
  /\ (exists_ "/tmp/tmpk3v9x2ab.mp3"
        (snd (RambleModeV2Multi.transcribe_on fetching_disk silent_world
                (RambleModeV2Multi.Request ".mp3" "tiny" None "transcribe") fresh))
      = false
      /\ exists_ "/tmp/tmpk3v9x2ab_processed.wav"
           (snd (RambleModeV2Multi.transcribe_on fetching_disk silent_world
                   (RambleModeV2Multi.Request ".mp3" "tiny" None "transcribe") fresh))
         = false).
Proof.
  split.
  - apply (proj1 (temporary_files_removed fetching_disk cancelled_world fresh)
             (RambleModeV2.Request ".ogg" None "transcribe" true)).
    right. repeat split; reflexivity.
  - apply (proj2 (temporary_files_removed fetching_disk silent_world fresh)
             (RambleModeV2Multi.Request ".mp3" "tiny" None "transcribe")
             (RambleModeV2Multi.model_info "tiny" "fastest" "basic" "1GB"));
      [reflexivity|].
    left. eexists. vm_compute. reflexivity.
Defined.

(** The weights fetched by the load of that request are still on disk. *)
Example fetched_weights_stay :
  exists_ "/root/.cache/whisper/tiny.pt"
    (snd (RambleModeV2Multi.transcribe_on fetching_disk silent_world
            (RambleModeV2Multi.Request ".mp3" "tiny" None "transcribe") fresh))
  = true.
Proof. vm_compute. reflexivity. Qed.

(** ** A removal that fails *)

(** The body of the [try] statement and its [except] clauses remove no
    file, and leave the WAV file when ffmpeg wrote one. *)
Lemma v2_try_files (w : world) (req : RambleModeV2.request)
    (temp_path wav_path : string) (st : process) :
  files (snd (try_except
                (RambleModeV2.convert_and_transcribe w req temp_path wav_path)
                [(is_TimeoutExpired, fun _ => ret RambleModeV2.timed_out);
                 (is_Exception, fun e => ret (RambleModeV2.internal_error e))]
                st))
  = if snd (ffmpeg w temp_path wav_path) then {[wav_path]} ∪ files st
    else files st.
Proof.
  unfold RambleModeV2.convert_and_transcribe, try_except, bind, subprocess_run,
    call_transcribe, ret.
  destruct (ffmpeg w _ _) as [[returncode stderr|e] wrote]; simpl.
  - destruct (returncode =? 0); simpl.
    + destruct (model_transcribe _ _ _ _) as [result|e]; simpl.
      * by destruct wrote.
      * by destruct (is_TimeoutExpired e), (is_Exception e), wrote.
    + by destruct wrote.
  - by destruct (is_TimeoutExpired e), (is_Exception e), wrote.
Qed.

Lemma get_model_on_files (f : filesystem) (w : world) (model_size : string)
    (st : process) :
  files st ⊆ files (snd (RambleModeV2Multi.get_model_on f w model_size st)).
Proof.
  unfold RambleModeV2Multi.get_model_on, bind, gets, modify, ret,
    whisper_load_model_on, whisper_load_model, RambleModeV2Multi.subscript,
    RambleModeV2Multi.store, with_files.
  destruct (bool_decide _); simpl.
  - by destruct (loaded_models st !! model_size).
  - destruct (load_model w model_size _) as [e|]; simpl; [set_solver|].
    rewrite lookup_insert_eq. simpl. set_solver.
Qed.

Lemma multi_try_files (f : filesystem) (w : world)
    (req : RambleModeV2Multi.request) (temp_path wav_path : string)
    (st : process) :
  (if snd (ffmpeg w temp_path wav_path) then {[wav_path]} ∪ files st
   else files st)
  ⊆ files (snd (try_except
                  (RambleModeV2Multi.convert_and_transcribe_on f w req
                     temp_path wav_path)
                  [(is_Exception,
                    fun e => ret (RambleModeV2Multi.internal_error e))]
                  st)).
Proof.
  unfold RambleModeV2Multi.convert_and_transcribe_on, try_except.
  unfold bind at 1. unfold subprocess_run.
  destruct (ffmpeg w _ _) as [[returncode stderr|e] wrote]; simpl.
  - unfold bind at 1.
    match goal with
    | |- context [RambleModeV2Multi.get_model_on f w ?m ?s] =>
        pose proof (get_model_on_files f w m s) as Hfiles;
        destruct (RambleModeV2Multi.get_model_on f w m s) as [[model_obj|e] st2]
    end; simpl in Hfiles; simpl.
    + unfold bind, call_transcribe, ret.
      destruct (model_transcribe _ _ _ _) as [result|e]; simpl.
      * destruct wrote; simpl in *; set_solver.
      * destruct (is_Exception e); simpl; destruct wrote; simpl in *; set_solver.
    + destruct (is_Exception e); simpl; destruct wrote; simpl in *; set_solver.
  - destruct (is_Exception e), wrote; simpl; set_solver.
Qed.

Lemma cleanup_on_first_fails (f : filesystem) (path : string)
    (rest : list string) (st : process) (e : exn) :
  path ∈ files st ->
  unlink_error f path = Some e ->
  cleanup_on f (path :: rest) st = (Raised e, st).
Proof.
  intros Hpresent Herror. cbn [cleanup_on]. unfold bind at 1. unfold gets.
  unfold bind at 1. unfold exists_. rewrite bool_decide_eq_true_2 by done.
  unfold unlink_on, bind, failing. by rewrite Herror.
Qed.

(** X24: when [os.unlink] raises for the file of the upload, its exception
    leaves the handler in the place of whatever the [try] statement returned
    or raised; the loop of the [finally] block ends there, so the file of
    the upload stays on disk, and so does the WAV file when ffmpeg wrote
    one. *)
Theorem failed_unlink_replaces_outcome (f : filesystem) (w : world)
    (st : process) (e : exn) :
  stored f ->
  (forall req : RambleModeV2.request,
     unlink_error f (temp_path_of w (RambleModeV2.file_ext req)) = Some e ->
     fst (RambleModeV2.transcribe_on f w req st) = Raised e
     /\ exists_ (temp_path_of w (RambleModeV2.file_ext req))
          (snd (RambleModeV2.transcribe_on f w req st)) = true
     /\ exists_ (wav_path_of w (RambleModeV2.file_ext req))
          (snd (RambleModeV2.transcribe_on f w req st))
        = snd (ffmpeg w (temp_path_of w (RambleModeV2.file_ext req))
                 (wav_path_of w (RambleModeV2.file_ext req)))
          || exists_ (wav_path_of w (RambleModeV2.file_ext req))
               (create (temp_path_of w (RambleModeV2.file_ext req)) st))
  /\ (forall (req : RambleModeV2Multi.request) (info : list (string * json)),
        assoc (RambleModeV2Multi.model req) RambleModeV2Multi.MODELS = Some info ->
        unlink_error f (temp_path_of w (RambleModeV2Multi.file_ext req)) = Some e ->
        fst (RambleModeV2Multi.transcribe_on f w req st) = Raised e
        /\ exists_ (temp_path_of w (RambleModeV2Multi.file_ext req))
             (snd (RambleModeV2Multi.transcribe_on f w req st)) = true
        /\ (snd (ffmpeg w (temp_path_of w (RambleModeV2Multi.file_ext req))
                   (wav_path_of w (RambleModeV2Multi.file_ext req))) = true ->
            exists_ (wav_path_of w (RambleModeV2Multi.file_ext req))
              (snd (RambleModeV2Multi.transcribe_on f w req st)) = true)).
Proof.
  intros (Hread & Hcreate & Hwrite).
  assert (Hfinal : forall (body : py response) (temp_path wav_path : string)
                          (st0 : process),
    temp_path ∈ files (snd (body st0)) ->
    unlink_error f temp_path = Some e ->
    try_finally_raising body (cleanup_on f [temp_path; wav_path]) st0
    = (Raised e, snd (body st0))).
  { intros body temp_path wav_path st0 Hpresent Herror.
    unfold try_finally_raising. destruct (body st0) as [r st1].
    by rewrite (cleanup_on_first_fails f temp_path [wav_path] st1 e). }
  split.
  - intros req Herror. rewrite v2_transcribe_on_cases. cbv zeta.
    rewrite Hread, Hcreate, Hwrite.
    pose proof (v2_try_files w req (temp_path_of w (RambleModeV2.file_ext req))
                  (wav_path_of w (RambleModeV2.file_ext req))
                  (create (temp_path_of w (RambleModeV2.file_ext req)) st))
      as Hfiles.
    rewrite Hfinal; [| |done].
    + simpl. split; [done|]. unfold exists_. rewrite Hfiles. split.
      * apply bool_decide_eq_true_2. destruct (snd (ffmpeg w _ _)); simpl; set_solver.
      * destruct (snd (ffmpeg w _ _)); simpl; [|done].
        apply bool_decide_eq_true_2. set_solver.
    + rewrite Hfiles. destruct (snd (ffmpeg w _ _)); simpl; set_solver.
  - intros req info Hknown Herror.
    rewrite (multi_transcribe_on_cases _ _ _ _ _ Hknown). cbv zeta.
    rewrite Hread, Hcreate, Hwrite.
    pose proof (multi_try_files f w req
                  (temp_path_of w (RambleModeV2Multi.file_ext req))
                  (wav_path_of w (RambleModeV2Multi.file_ext req))
                  (create (temp_path_of w (RambleModeV2Multi.file_ext req)) st))
      as Hfiles.
    rewrite Hfinal; [| |done].
    + simpl. split; [done|]. unfold exists_. split.
      * apply bool_decide_eq_true_2. apply Hfiles.
        destruct (snd (ffmpeg w _ _)); simpl; set_solver.
      * intros Hwrote. rewrite Hwrote in Hfiles.
        apply bool_decide_eq_true_2. apply Hfiles. set_solver.
    + apply Hfiles. destruct (snd (ffmpeg w _ _)); simpl; set_solver.
Qed.

(** The answered request of [silent_world] on a disk whose files cannot be
    removed: both files stay. *)
Lemma failed_unlink_replaces_outcome_witness :
  (fst (RambleModeV2.transcribe_on locked_disk silent_world
          (RambleModeV2.Request ".ogg" None "transcribe" true) fresh)
   = Raised not_permitted
   /\ exists_ "/tmp/tmpk3v9x2ab.ogg"
        (snd (RambleModeV2.transcribe_on locked_disk silent_world
                (RambleModeV2.Request ".ogg" None "transcribe" true) fresh))
      = true
   /\ exists_ "/tmp/tmpk3v9x2ab_processed.wav"
        (snd (RambleModeV2.transcribe_on locked_disk silent_world
                (RambleModeV2.Request ".ogg" None "transcribe" true) fresh))
      = true)
  /\ (fst (RambleModeV2Multi.transcribe_on locked_disk silent_world
             (RambleModeV2Multi.Request ".ogg" "tiny" None "transcribe") fresh)
      = Raised not_permitted
      /\ exists_ "/tmp/tmpk3v9x2ab.ogg"
           (snd (RambleModeV2Multi.transcribe_on locked_disk silent_world
                   (RambleModeV2Multi.Request ".ogg" "tiny" None "transcribe") fresh))
         = true
      /\ exists_ "/tmp/tmpk3v9x2ab_processed.wav"
           (snd (RambleModeV2Multi.transcribe_on locked_disk silent_world
                   (RambleModeV2Multi.Request ".ogg" "tiny" None "transcribe") fresh))
         = true).
Proof.
  assert (Hstored : stored locked_disk) by (by repeat split).
  split.
  - apply (proj1 (failed_unlink_replaces_outcome locked_disk silent_world fresh
                    not_permitted Hstored)
             (RambleModeV2.Request ".ogg" None "transcribe" true)).
    reflexivity.
  - destruct (proj2 (failed_unlink_replaces_outcome locked_disk silent_world fresh
                       not_permitted Hstored)
                (RambleModeV2Multi.Request ".ogg" "tiny" None "transcribe")
                (RambleModeV2Multi.model_info "tiny" "fastest" "basic" "1GB")
                eq_refl eq_refl)
      as (Hraised & Hupload & Hwav).
    split; [exact Hraised|]. split; [exact Hupload|]. apply Hwav. reflexivity.
Defined.

(** ** The responses on a file system that works *)

Lemma get_model_on_outcome (f : filesystem) (w : world) (model_size : string)
    (st : process) :
  fst (RambleModeV2Multi.get_model_on f w model_size st) = handle_for w model_size st.
Proof.
  unfold RambleModeV2Multi.get_model_on, handle_for, bind, gets, modify, ret,
    whisper_load_model_on, whisper_load_model, RambleModeV2Multi.subscript,
    RambleModeV2Multi.store.
  destruct (loaded_models st !! model_size) as [handle|] eqn:Hcache.
  - rewrite bool_decide_eq_true_2 by eauto. simpl. by rewrite Hcache.
  - rewrite bool_decide_eq_false_2 by (intros [? ?]; congruence). simpl.
    destruct (load_model w model_size _) as [e|]; simpl; [done|].
    by rewrite lookup_insert_eq.
Qed.

Lemma multi_body_on_outcome (f : filesystem) (w : world)
    (req : RambleModeV2Multi.request) (temp_path wav_path : string) (st : process) :
  fst (RambleModeV2Multi.convert_and_transcribe_on f w req temp_path wav_path st)
  = fst (RambleModeV2Multi.convert_and_transcribe w req temp_path wav_path st).
Proof.
  unfold RambleModeV2Multi.convert_and_transcribe_on,
    RambleModeV2Multi.convert_and_transcribe.
  unfold bind at 1. symmetry. unfold bind at 1. symmetry.
  destruct (subprocess_run w temp_path wav_path st) as [[r|e] st1]; [|done].
  unfold bind at 1. symmetry. unfold bind at 1. symmetry.
  pose proof (get_model_on_outcome f w (RambleModeV2Multi.model req) st1) as Hon.
  pose proof (get_model_outcome w (RambleModeV2Multi.model req) st1) as Hoff.
  destruct (RambleModeV2Multi.get_model_on f w _ st1) as [r1 st2].
  destruct (RambleModeV2Multi.get_model w _ st1) as [r2 st3].
  simpl in Hon, Hoff. subst r1 r2.
  destruct (handle_for w _ st1) as [model_obj|e]; [|done].
  unfold bind, call_transcribe, ret.
  by destruct (model_transcribe _ _ _ _).
Qed.

Lemma try_except_outcome {A : Type} (body body' : py A) (test : exn -> bool)
    (handler : exn -> A) (st st' : process) :
  fst (body st) = fst (body' st') ->
  fst (try_except body [(test, fun e => ret (handler e))] st)
  = fst (try_except body' [(test, fun e => ret (handler e))] st').
Proof.
  unfold try_except.
  destruct (body st) as [[a|e] st1], (body' st') as [[a'|e'] st1'];
    simpl; intros [= <-]; [done|].
  by destruct (test e).
Qed.

Lemma try_finally_raising_outcome {A : Type} (f : filesystem) (body : py A)
    (paths : list string) (st : process) :
  Forall (fun path => unlink_error f path = None) paths ->
  fst (try_finally_raising body (cleanup_on f paths) st) = fst (body st).
Proof.
  intros Hpaths. unfold try_finally_raising. destruct (body st) as [r st1].
  by rewrite cleanup_on_removable.
Qed.

(** X23: on a file system on which the upload is read and written and the
    two temporary files can be removed, the handlers answer as they do when
    nothing can fail, whatever files a load of weights brings: what is shown
    above of the responses of [transcribe] holds for them. *)
Theorem responses_on_working_file_system (f : filesystem) (w : world)
    (st : process) :
  stored f ->
  (forall req : RambleModeV2.request,
     unlink_error f (temp_path_of w (RambleModeV2.file_ext req)) = None ->
     unlink_error f (wav_path_of w (RambleModeV2.file_ext req)) = None ->
     fst (RambleModeV2.transcribe_on f w req st)
     = fst (RambleModeV2.transcribe w req st))
  /\ (forall req : RambleModeV2Multi.request,
        unlink_error f (temp_path_of w (RambleModeV2Multi.file_ext req)) = None ->
        unlink_error f (wav_path_of w (RambleModeV2Multi.file_ext req)) = None ->
        fst (RambleModeV2Multi.transcribe_on f w req st)
        = fst (RambleModeV2Multi.transcribe w req st)).
Proof.
  intros (Hread & Hcreate & Hwrite). split.
  - intros req Htemp Hwav. rewrite v2_transcribe_on_cases. cbv zeta.
    rewrite Hread, Hcreate, Hwrite.
    rewrite try_finally_raising_outcome by (by repeat constructor).
    unfold RambleModeV2.transcribe. unfold bind at 1. unfold NamedTemporaryFile.
    by rewrite try_finally_outcome.
  - intros req Htemp Hwav.
    destruct (assoc (RambleModeV2Multi.model req) RambleModeV2Multi.MODELS)
      as [info|] eqn:Hknown.
    + rewrite (multi_transcribe_on_cases _ _ _ _ _ Hknown). cbv zeta.
      rewrite Hread, Hcreate, Hwrite.
      rewrite try_finally_raising_outcome by (by repeat constructor).
      unfold RambleModeV2Multi.transcribe. rewrite Hknown.
      unfold bind at 1. unfold NamedTemporaryFile.
      rewrite try_finally_outcome.
      apply try_except_outcome, multi_body_on_outcome.
    + unfold RambleModeV2Multi.transcribe_on, RambleModeV2Multi.transcribe.
      by rewrite Hknown.
Qed.

(** The dictation and a request for the model "small", on a file system
    where the load fetches the weights. *)
Lemma responses_on_working_file_system_witness :
  fst (RambleModeV2.transcribe_on fetching_disk dictation_world
         (RambleModeV2.Request ".ogg" None "transcribe" true) fresh)
  = fst (RambleModeV2.transcribe dictation_world
           (RambleModeV2.Request ".ogg" None "transcribe" true) fresh)
  /\ fst (RambleModeV2Multi.transcribe_on fetching_disk dictation_world
            (RambleModeV2Multi.Request ".ogg" "small" None "transcribe") fresh)
     = fst (RambleModeV2Multi.transcribe dictation_world
              (RambleModeV2Multi.Request ".ogg" "small" None "transcribe") fresh).
Proof.
  assert (Hstored : stored fetching_disk) by (by repeat split).
  split.
  - by apply (proj1 (responses_on_working_file_system fetching_disk dictation_world
                       fresh Hstored)
                (RambleModeV2.Request ".ogg" None "transcribe" true)).
  - by apply (proj2 (responses_on_working_file_system fetching_disk dictation_world
                       fresh Hstored)
                (RambleModeV2Multi.Request ".ogg" "small" None "transcribe")).
Defined.

(** ** Internal errors *)

(** The recognition raises a [RuntimeError]: the response of the single-model
    handler carries the text of the exception and its stack trace. *)
Lemma traceback_in_response :
  reply (fst (RambleModeV2.transcribe failing_recognition_world
                (RambleModeV2.Request ".wav" None "transcribe" true) fresh))
    "traceback"
  = Some (JStr "Traceback (most recent call last): RuntimeError: CUDA out of memory")
  /\ reply (fst (RambleModeV2.transcribe failing_recognition_world
                   (RambleModeV2.Request ".wav" None "transcribe" true) fresh))
       "error"
     = Some (JStr "CUDA out of memory").
Proof. split; vm_compute; reflexivity. Qed.

(** C7 (amended): when the recognition raises an exception, the single-model
    handler answers with status 500 and a body that carries the exception's
    own message under "error" and its formatted stack trace under
    "traceback"; when the model load or the recognition raises in the
    multi-model handler, the answer has status 500 and the exception's own
    message under "error". *)
Theorem internal_error_carries_diagnostics :
  (forall (w : world) (req : RambleModeV2.request) (st : process)
          (stderr : string) (wrote : bool) (e : exn),
     ffmpeg w (temp_path_of w (RambleModeV2.file_ext req))
       (wav_path_of w (RambleModeV2.file_ext req)) = (Completed 0 stderr, wrote) ->
     model_transcribe w (RambleModeV2.model w)
       (wav_path_of w (RambleModeV2.file_ext req))
       (options w (RambleModeV2.task req) (RambleModeV2.language req)) = Raised e ->
     class_of e = OtherException ->
     fst (RambleModeV2.transcribe w req st)
     = Returned (JSONResponse
         (JObj [("text", JStr ""); ("status", JStr "error");
                ("error", JStr (str e)); ("traceback", JStr (format_exc e))]) 500))
  /\ (forall (w : world) (req : RambleModeV2Multi.request) (st : process)
             (info : list (string * json)) (returncode : Z) (stderr : string)
             (wrote : bool) (e : exn),
        assoc (RambleModeV2Multi.model req) RambleModeV2Multi.MODELS = Some info ->
        ffmpeg w (temp_path_of w (RambleModeV2Multi.file_ext req))
          (wav_path_of w (RambleModeV2Multi.file_ext req))
        = (Completed returncode stderr, wrote) ->
        handle_for w (RambleModeV2Multi.model req)
          (after_decode w (RambleModeV2Multi.file_ext req) wrote st) = Raised e
        \/ (exists model_obj,
              handle_for w (RambleModeV2Multi.model req)
                (after_decode w (RambleModeV2Multi.file_ext req) wrote st)
              = Returned model_obj
              /\ model_transcribe w model_obj
                   (wav_path_of w (RambleModeV2Multi.file_ext req))
                   (options w (RambleModeV2Multi.task req)
                      (RambleModeV2Multi.language req)) = Raised e) ->
        is_Exception e = true ->
        fst (RambleModeV2Multi.transcribe w req st)
        = Returned (JSONResponse
            (JObj [("error", JStr (str e)); ("status", JStr "error")]) 500)).
Proof.
  split.
  - intros w req st stderr wrote e Hdecode Hraised Hclass.
    rewrite v2_transcribe_outcome. cbv zeta. rewrite Hdecode. simpl.
    rewrite Hraised. unfold v2_handled, is_TimeoutExpired, is_Exception.
    by rewrite Hclass.
  - intros w req st info returncode stderr wrote e Hknown Hdecode Hraised Hclass.
    rewrite (multi_transcribe_outcome _ _ _ _ Hknown). cbv zeta.
    rewrite Hdecode. unfold after_decode in Hraised.
    destruct Hraised as [-> | (model_obj & -> & ->)];
      unfold multi_handled; by rewrite Hclass.
Qed.

(** The recognition that runs out of memory, and the load that fails. *)
Lemma internal_error_carries_diagnostics_witness :
  fst (RambleModeV2.transcribe failing_recognition_world
         (RambleModeV2.Request ".wav" None "transcribe" true) fresh)
  = Returned (JSONResponse
      (JObj [("text", JStr ""); ("status", JStr "error");
             ("error", JStr "CUDA out of memory");
             ("traceback",
              JStr "Traceback (most recent call last): RuntimeError: CUDA out of memory")])
      500)
  /\ fst (RambleModeV2Multi.transcribe failing_load_world
            (RambleModeV2Multi.Request ".wav" "small" None "transcribe") fresh)
     = Returned (JSONResponse
         (JObj [("error", JStr "checkpoint does not match");
                ("status", JStr "error")]) 500).
Proof.
  split.
  - apply (proj1 internal_error_carries_diagnostics failing_recognition_world
             (RambleModeV2.Request ".wav" None "transcribe" true) fresh "" true
             (Exn OtherException "CUDA out of memory"
                "Traceback (most recent call last): RuntimeError: CUDA out of memory"));
      reflexivity.
  - apply (proj2 internal_error_carries_diagnostics failing_load_world
             (RambleModeV2Multi.Request ".wav" "small" None "transcribe") fresh
             (RambleModeV2Multi.model_info "small" "medium" "better" "2GB") 0 "" true
             (Exn OtherException "checkpoint does not match"
                "Traceback (most recent call last): RuntimeError"));
      [reflexivity | reflexivity | left; vm_compute; reflexivity | reflexivity].
Defined.

(** ** The built-ins on sample values *)

Example round2_ties_to_even :
  Py.round2 0.125 = 0x1.eb851eb851eb8p-4%float
  /\ Py.round2 0.375 = 0x1.851eb851eb852p-2%float.
Proof. split; vm_compute; reflexivity. Qed.

Example round2_exact_value_decides :
  Py.round2 0x1.5666666666666p+1 = 0x1.55c28f5c28f5cp+1%float.
Proof. vm_compute; reflexivity. Qed.

Example round2_keeps_sign_and_specials :
  Py.round2 (-0x1p-10) = (-0)%float /\ Py.round2 infinity = infinity
  /\ Py.round2 6.5 = 6.5%float.
Proof. repeat split; vm_compute; reflexivity. Qed.

Example strip_both_ends :
  Py.strip "  So, the plan is  " = "So, the plan is".
Proof. reflexivity. Qed.

(** Code points of one to four bytes: SPACE, NO-BREAK SPACE, IDEOGRAPHIC
    SPACE and U+1F600. *)
Example utf8_bytes :
  Py.utf8 32 = " "
  /\ Py.utf8 160 = String "194" (String "160" "")
  /\ Py.utf8 12288 = String "227" (String "128" (String "128" ""))
  /\ Py.utf8 128512
     = String "240" (String "159" (String "152" (String "128" ""))).
Proof. repeat split; vm_compute; reflexivity. Qed.

(** Whitespace of two and three bytes: IDEOGRAPHIC SPACE, NO-BREAK SPACE, EM
    SPACE, LINE SEPARATOR, OGHAM SPACE MARK, MEDIUM MATHEMATICAL SPACE, NEL. *)
Example strip_unicode_whitespace :
  Py.strip (" " +:+ Py.utf8 12288 +:+ "Good morning." +:+ Py.utf8 160)
  = "Good morning."
  /\ Py.strip (Py.utf8 8195 +:+ "Zo" +:+ Py.utf8 235 +:+ Py.utf8 8232)
     = "Zo" +:+ Py.utf8 235
  /\ Py.strip (Py.utf8 5760 +:+ Py.utf8 8287 +:+ Py.utf8 133) = "".
Proof. repeat split; vm_compute; reflexivity. Qed.

(** What is not whitespace stays: a letter whose last byte is that of a
    NO-BREAK SPACE, a ZERO WIDTH SPACE, and whitespace inside the text. *)
Example strip_keeps_the_rest :
  Py.strip (Py.utf8 224) = Py.utf8 224
  /\ Py.strip (Py.utf8 8203 +:+ "x ") = Py.utf8 8203 +:+ "x"
  /\ Py.strip (" a" +:+ Py.utf8 160 +:+ "b ") = "a" +:+ Py.utf8 160 +:+ "b".
Proof. repeat split; vm_compute; reflexivity. Qed.

(** The body of the answer to the dictation of [dictation_world]. *)
Example dictation_segments :
  reply (fst (RambleModeV2.transcribe dictation_world
                (RambleModeV2.Request ".ogg" None "transcribe" true) fresh))
    "segments"
  = Some (JList
      [JObj [("speaker", JStr "Speaker 1"); ("text", JStr "Good morning.");
             ("start", JFloat 0); ("end", JFloat 0x1.30a3d70a3d70ap+1)];
       JObj [("speaker", JStr "Speaker 1");
             ("text", JStr ("See you at ten, Zo" +:+ Py.utf8 235 +:+ "."));
             ("start", JFloat 0x1.30a3d70a3d70ap+1);
             ("end", JFloat 0x1.03d70a3d70a3dp+2)]]).
Proof. vm_compute. reflexivity. Qed.

Example wav_path_example :
  Py.replace "/tmp/tmpk3v9x2ab.ogg" ".ogg" "_processed.wav"
  = "/tmp/tmpk3v9x2ab_processed.wav".
Proof. reflexivity. Qed.

(** * Further properties of the handlers *)

(** ** What leaves a handler *)

(** X5: an exception of class [Exception] leaves a handler only from outside
    the body of its [try] statement: it was raised before the statement was
    entered, while the upload was read or written, or by [os.unlink] in the
    [finally] block.  Whatever ffmpeg, the model load or the recognition
    raise inside the [try] statement and is an [Exception] becomes a
    response. *)
Theorem Exception_leaves_from_outside_try :
  (forall (f : filesystem) (w : world) (req : RambleModeV2.request)
          (st : process) (e : exn),
     fst (RambleModeV2.transcribe_on f w req st) = Raised e ->
     is_Exception e = true ->
     raised_before_try f e
     \/ raised_by_unlink f
          [temp_path_of w (RambleModeV2.file_ext req);
           wav_path_of w (RambleModeV2.file_ext req)] e)
  /\ (forall (f : filesystem) (w : world) (req : RambleModeV2Multi.request)
             (st : process) (e : exn),
        fst (RambleModeV2Multi.transcribe_on f w req st) = Raised e ->
        is_Exception e = true ->
        raised_before_try f e
        \/ raised_by_unlink f
             [temp_path_of w (RambleModeV2Multi.file_ext req);
              wav_path_of w (RambleModeV2Multi.file_ext req)] e).
Proof.
  assert (Hfinally : forall (f : filesystem) (body : py response)
                            (paths : list string) (st : process) (e : exn),
    (forall e', fst (body st) = Raised e' -> is_Exception e' = false) ->
    fst (try_finally_raising body (cleanup_on f paths) st) = Raised e ->
    is_Exception e = true ->
    raised_by_unlink f paths e).
  { intros f body paths st e Hbody Hraised Hclass.
    pose proof (try_finally_raising_cleanup f body paths st) as Hleft.
    destruct (try_finally_raising _ _ _) as [[r|e'] st1]; [done|].
    injection Hraised as ->.
    destruct Hleft as [Hunlink|[Hinside _]]; [done|].
    apply Hbody in Hinside. congruence. }
  unfold raised_before_try. split.
  - intros f w req st e. rewrite v2_transcribe_on_cases. cbv zeta.
    destruct (read_error f) as [e0|]; [intros [= <-] _; by left; left|].
    destruct (create_error f) as [e0|]; [intros [= <-] _; by left; right; left|].
    destruct (write_error f) as [e0|]; [intros [= <-] _; by left; right; right|].
    intros Hraised Hclass. right.
    apply (Hfinally _ _ _ _ _) in Hraised; [done| |done].
    intros e' Hinside.
    by apply (try_except_Exception _
                [(is_TimeoutExpired, fun _ => ret RambleModeV2.timed_out)]
                RambleModeV2.internal_error _ _ Hinside);
      repeat constructor; by exists (fun _ => RambleModeV2.timed_out).
  - intros f w req st e.
    destruct (assoc (RambleModeV2Multi.model req) RambleModeV2Multi.MODELS)
      as [info|] eqn:Hknown.
    + rewrite (multi_transcribe_on_cases _ _ _ _ _ Hknown). cbv zeta.
      destruct (read_error f) as [e0|]; [intros [= <-] _; by left; left|].
      destruct (create_error f) as [e0|]; [intros [= <-] _; by left; right; left|].
      destruct (write_error f) as [e0|]; [intros [= <-] _; by left; right; right|].
      intros Hraised Hclass. right.
      apply (Hfinally _ _ _ _ _) in Hraised; [done| |done].
      intros e' Hinside.
      by apply (try_except_Exception _ [] RambleModeV2Multi.internal_error _ _
                  Hinside).
    + unfold RambleModeV2Multi.transcribe_on. by rewrite Hknown.
Qed.

(** The [PermissionError] of [os.unlink] leaves the single-model handler,
    and the [OSError] of the write leaves the multi-model handler. *)
Lemma Exception_leaves_from_outside_try_witness :
  (raised_before_try locked_disk not_permitted
   \/ raised_by_unlink locked_disk
        [temp_path_of silent_world ".ogg"; wav_path_of silent_world ".ogg"]
        not_permitted)
  /\ (raised_before_try full_disk no_space
      \/ raised_by_unlink full_disk
           [temp_path_of silent_world ".ogg"; wav_path_of silent_world ".ogg"]
           no_space).
Proof.
  split.
  - apply (proj1 Exception_leaves_from_outside_try locked_disk silent_world
             (RambleModeV2.Request ".ogg" None "transcribe" true) fresh
             not_permitted);
      vm_compute; reflexivity.
  - apply (proj2 Exception_leaves_from_outside_try full_disk silent_world
             (RambleModeV2Multi.Request ".ogg" "tiny" None "transcribe") fresh
             no_space);
      vm_compute; reflexivity.
Defined.

(** ** The shape of the responses *)

(** X6: a response of the single-model handler has status 200 and
    "status": "success", or status 400, 408 or 500 with "status": "error", an
    empty "text" and a message under "error". *)
Theorem v2_response_shapes (w : world) (req : RambleModeV2.request) (st : process)
    (r : response) :
  fst (RambleModeV2.transcribe w req st) = Returned r ->
  (status_code r = 200
   /\ field "status" (content r) = Some (JStr "success")
   /\ exists t, field "text" (content r) = Some (JStr t))
  \/ ((status_code r = 400 \/ status_code r = 408 \/ status_code r = 500)
      /\ field "status" (content r) = Some (JStr "error")
      /\ field "text" (content r) = Some (JStr "")
      /\ exists message, field "error" (content r) = Some (JStr message)).
Proof.
  rewrite v2_transcribe_outcome. cbv zeta.
  assert (Hhandled : forall e, v2_handled e = Returned r ->
    (status_code r = 400 \/ status_code r = 408 \/ status_code r = 500)
    /\ field "status" (content r) = Some (JStr "error")
    /\ field "text" (content r) = Some (JStr "")
    /\ exists message, field "error" (content r) = Some (JStr message)).
  { intros e. unfold v2_handled.
    destruct (is_TimeoutExpired e).
    - intros [= <-]. repeat split; eauto.
    - destruct (is_Exception e); [|done].
      intros [= <-]. repeat split; eauto. }
  destruct (fst (ffmpeg w _ _)) as [returncode stderr|e]; [|right; eauto].
  destruct (returncode =? 0).
  - destruct (model_transcribe _ _ _ _) as [result|e]; [|right; eauto].
    intros [= <-]. left. repeat split; eauto.
  - intros [= <-]. right. repeat split; eauto.
Qed.

(** The answer to the upload that ffmpeg rejects. *)
Lemma v2_response_shapes_witness :
  (status_code (RambleModeV2.conversion_failed "Invalid data found when processing input")
   = 200
   /\ field "status"
        (content (RambleModeV2.conversion_failed "Invalid data found when processing input"))
      = Some (JStr "success")
   /\ exists t,
        field "text"
          (content (RambleModeV2.conversion_failed "Invalid data found when processing input"))
        = Some (JStr t))
  \/ ((status_code (RambleModeV2.conversion_failed "Invalid data found when processing input")
       = 400
       \/ status_code (RambleModeV2.conversion_failed "Invalid data found when processing input")
          = 408
       \/ status_code (RambleModeV2.conversion_failed "Invalid data found when processing input")
          = 500)
      /\ field "status"
           (content (RambleModeV2.conversion_failed "Invalid data found when processing input"))
         = Some (JStr "error")
      /\ field "text"
           (content (RambleModeV2.conversion_failed "Invalid data found when processing input"))
         = Some (JStr "")
      /\ exists message,
           field "error"
             (content (RambleModeV2.conversion_failed "Invalid data found when processing input"))
           = Some (JStr message)).
Proof.
  apply (v2_response_shapes bad_audio_world
           (RambleModeV2.Request ".mp3" None "transcribe" true) fresh).
  vm_compute. reflexivity.
Defined.

(** ** Validation of the model name *)

Lemma assoc_None {A : Type} (key : string) (d : list (string * A)) :
  assoc key d = None <-> key ∉ (fst <$> d).
Proof.
  induction d as [|[k v] d IH]; simpl.
  - split; [intros _; apply not_elem_of_nil|done].
  - rewrite not_elem_of_cons. destruct (String.eqb_spec k key) as [->|Hne].
    + split; [done|]. by intros [? _].
    + rewrite IH. split; [by intros ?; split|by intros [_ ?]].
Qed.

(** X7: the multi-model handler accepts exactly the five names that [/]
    lists.  For any other name it answers 400 with the list of names and
    touches nothing (no file, no load); no other request is answered 400;
    the default name is one of the five. *)
Theorem unknown_model_400 :
  field "models" (JObj RambleModeV2Multi.root)
  = Some (JList (JStr <$> ["tiny"; "base"; "small"; "medium"; "large"]))
  /\ (forall (w : world) (req : RambleModeV2Multi.request) (st : process),
        RambleModeV2Multi.model req ∉ ["tiny"; "base"; "small"; "medium"; "large"] ->
        RambleModeV2Multi.transcribe w req st
        = (Returned (JSONResponse
             (JObj [("error",
                     JStr "Invalid model. Choose from: ['tiny', 'base', 'small', 'medium', 'large']")])
             400), st))
  /\ (forall (w : world) (req : RambleModeV2Multi.request) (st : process)
             (r : response),
        fst (RambleModeV2Multi.transcribe w req st) = Returned r ->
        status_code r = 400 ->
        RambleModeV2Multi.model req ∉ ["tiny"; "base"; "small"; "medium"; "large"])
  /\ RambleModeV2Multi.DEFAULT_MODEL ∈ ["tiny"; "base"; "small"; "medium"; "large"].
Proof.
  split; [reflexivity|]. split; [|split].
  - intros w req st Hunknown.
    apply (assoc_None (RambleModeV2Multi.model req) RambleModeV2Multi.MODELS) in Hunknown.
    unfold RambleModeV2Multi.transcribe. by rewrite Hunknown.
  - intros w req st r Hr Hstatus.
    apply (assoc_None (RambleModeV2Multi.model req) RambleModeV2Multi.MODELS).
    destruct (assoc (RambleModeV2Multi.model req) RambleModeV2Multi.MODELS)
      as [info|] eqn:Hknown; [|done].
    exfalso. rewrite (multi_transcribe_outcome _ _ _ _ Hknown) in Hr. cbv zeta in Hr.
    assert (Hhandled : forall e, multi_handled e = Returned r -> False).
    { intros e. unfold multi_handled. destruct (is_Exception e); [|done].
      intros [= <-]. done. }
    destruct (ffmpeg w _ _) as [[returncode stderr|e] wrote]; [|by eapply Hhandled].
    destruct (handle_for _ _ _) as [model_obj|e]; [|by eapply Hhandled].
    destruct (model_transcribe _ _ _ _) as [result|e]; [|by eapply Hhandled].
    injection Hr as <-. done.
  - set_solver.
Qed.

(** The name "giant". *)
Lemma unknown_model_400_witness :
  RambleModeV2Multi.transcribe silent_world
    (RambleModeV2Multi.Request ".ogg" "giant" None "transcribe") fresh
  = (Returned (JSONResponse
       (JObj [("error",
               JStr "Invalid model. Choose from: ['tiny', 'base', 'small', 'medium', 'large']")])
       400), fresh).
Proof.
  apply (proj1 (proj2 unknown_model_400) silent_world
           (RambleModeV2Multi.Request ".ogg" "giant" None "transcribe") fresh).
  simpl. set_solver.
Defined.

(** ** [/translate] *)



(** ** The model cache over a request *)

Lemma get_model_state (w : world) (model_size : string) (st : process) :
  snd (RambleModeV2Multi.get_model w model_size st)
  = match loaded_models st !! model_size with
    | Some _ => st
    | None =>
        match handle_for w model_size st with
        | Returned handle =>
            Process (files st) (<[model_size := handle]> (loaded_models st))
              (S (loads st))
        | Raised _ => Process (files st) (loaded_models st) (S (loads st))
        end
    end.
Proof.
  destruct (loaded_models st !! model_size) as [cached|] eqn:Hcache.
  - by rewrite (get_model_cached _ _ _ _ Hcache).
  - destruct (handle_for w model_size st) as [handle|e] eqn:Hload.
    + by rewrite (get_model_first_call _ _ _ _ Hcache Hload).
    + unfold handle_for in Hload. rewrite Hcache in Hload.
      unfold RambleModeV2Multi.get_model, bind, gets, modify, ret,
        whisper_load_model, RambleModeV2Multi.subscript, RambleModeV2Multi.store.
      rewrite bool_decide_eq_false_2 by (intros [? ?]; congruence). simpl.
      by destruct (load_model w model_size _).
Qed.

(** The cache and the load counter after a request for a known model are
    those of the state before, or those [get_model] leaves. *)
Lemma multi_transcribe_models (w : world) (req : RambleModeV2Multi.request)
    (st : process) (info : list (string * json)) :
  assoc (RambleModeV2Multi.model req) RambleModeV2Multi.MODELS = Some info ->
  models_of (snd (RambleModeV2Multi.transcribe w req st)) = models_of st
  \/ exists wrote : bool,
       models_of (snd (RambleModeV2Multi.transcribe w req st))
       = models_of (snd (RambleModeV2Multi.get_model w (RambleModeV2Multi.model req)
                           (after_decode w (RambleModeV2Multi.file_ext req) wrote st))).
Proof.
  intros Hknown.
  set (temp_path := temp_path_of w (RambleModeV2Multi.file_ext req)).
  set (wav_path := wav_path_of w (RambleModeV2Multi.file_ext req)).
  assert (Hstate : snd (RambleModeV2Multi.transcribe w req st)
    = cleanup [temp_path; wav_path]
        (snd (try_except
                (RambleModeV2Multi.convert_and_transcribe w req temp_path wav_path)
                [(is_Exception, fun e => ret (RambleModeV2Multi.internal_error e))]
                (create temp_path st)))).
  { unfold RambleModeV2Multi.transcribe. rewrite Hknown.
    unfold bind at 1. unfold NamedTemporaryFile. by rewrite try_finally_state. }
  rewrite Hstate. clear Hstate.
  assert (Hclean : forall paths s, models_of (cleanup paths s) = models_of s).
  { intros paths s. unfold models_of. by destruct (cleanup_models paths s) as [-> ->]. }
  rewrite Hclean.
  unfold RambleModeV2Multi.convert_and_transcribe, try_except.
  unfold bind at 1. unfold subprocess_run, after_decode.
  fold temp_path. fold wav_path.
  destruct (ffmpeg w temp_path wav_path) as [[returncode stderr|e] wrote]; simpl.
  - right. exists wrote. unfold bind, call_transcribe, ret.
    destruct (RambleModeV2Multi.get_model w _ _) as [[model_obj|e] st2]; simpl.
    + destruct (model_transcribe _ _ _ _) as [result|e]; simpl; [done|].
      by destruct (is_Exception e).
    + by destruct (is_Exception e).
  - left. by destruct (is_Exception e), wrote.
Qed.

(** X9: over a request to the multi-model handler the cache only grows: a
    handle that is cached stays as it is, only the requested name can be
    added, at most one load runs, and none runs when the requested model is
    cached already. *)
Theorem cache_only_grows (w : world) (req : RambleModeV2Multi.request)
    (st : process) :
  (forall (k : string) (h : model_handle),
     loaded_models st !! k = Some h ->
     loaded_models (snd (RambleModeV2Multi.transcribe w req st)) !! k = Some h)
  /\ (forall k : string,
        k <> RambleModeV2Multi.model req ->
        loaded_models (snd (RambleModeV2Multi.transcribe w req st)) !! k
        = loaded_models st !! k)
  /\ (loads st <= loads (snd (RambleModeV2Multi.transcribe w req st)) <= S (loads st))%nat
  /\ (is_Some (loaded_models st !! RambleModeV2Multi.model req) ->
      loaded_models (snd (RambleModeV2Multi.transcribe w req st)) = loaded_models st
      /\ loads (snd (RambleModeV2Multi.transcribe w req st)) = loads st).
Proof.
  assert (Hsplit : forall s s' : process, models_of s' = models_of s ->
            loaded_models s' = loaded_models s /\ loads s' = loads s)
    by (intros s s'; unfold models_of; by intros [= -> ->]).
  assert (Hdecoded : forall wrote,
            models_of (after_decode w (RambleModeV2Multi.file_ext req) wrote st)
            = models_of st)
    by (intros wrote; unfold after_decode; by destruct wrote).
  destruct (assoc (RambleModeV2Multi.model req) RambleModeV2Multi.MODELS)
    as [info|] eqn:Hknown.
  - destruct (multi_transcribe_models w req st info Hknown) as [Hsame | [wrote Hloaded]].
    + destruct (Hsplit _ _ Hsame) as [-> ->]. repeat split; try done; lia.
    + destruct (Hsplit _ _ Hloaded) as [-> ->]. rewrite get_model_state.
      destruct (Hsplit _ _ (Hdecoded wrote)) as [Hcache Hloads]. rewrite Hcache.
      destruct (loaded_models st !! RambleModeV2Multi.model req) as [cached|] eqn:Hcached.
      * rewrite ?Hcache, ?Hloads. repeat split; try done; lia.
      * destruct (handle_for _ _ _) as [handle|e]; simpl; rewrite ?Hcache, ?Hloads;
          repeat split; try done; try lia; try (by intros [? ?]).
        -- intros k h Hk. rewrite lookup_insert_ne; [done|congruence].
        -- intros k Hk. by rewrite lookup_insert_ne.
  - unfold RambleModeV2Multi.transcribe. rewrite Hknown. simpl.
    repeat split; try done; lia.
Qed.

Lemma handle_for_loaded (w : world) (model_size : string) (st : process)
    (handle : model_handle) :
  loaded_models st !! model_size = None ->
  handle_for w model_size st = Returned handle ->
  model_name handle = model_size /\ on_device handle = device w.
Proof.
  intros Hcache. unfold handle_for. rewrite Hcache.
  destruct (load_model w model_size _); [done|]. by intros [= <-].
Qed.

Lemma get_model_consistent (w : world) (model_size : string) (st : process) :
  cache_consistent w st ->
  cache_consistent w (snd (RambleModeV2Multi.get_model w model_size st)).
Proof.
  intros Hst. rewrite get_model_state.
  destruct (loaded_models st !! model_size) as [cached|] eqn:Hcache; [done|].
  destruct (handle_for w model_size st) as [handle|e] eqn:Hload; [|done].
  intros k h. simpl. destruct (decide (model_size = k)) as [<-|Hne].
  - rewrite lookup_insert_eq. intros [= <-]. by eapply handle_for_loaded.
  - rewrite lookup_insert_ne by done. apply Hst.
Qed.

(** X10: the cache never holds a handle under a wrong name.  If every
    cached handle is the model of the size it is stored under, on the device
    of the process (as in a process that has loaded nothing), then [get_model]
    returns a model of the requested size on that device, and the cache is
    still so after [get_model] and after a whole request. *)
Theorem cache_stays_consistent (w : world) :
  cache_consistent w fresh
  /\ (forall (model_size : string) (st st' : process) (handle : model_handle),
        cache_consistent w st ->
        RambleModeV2Multi.get_model w model_size st = (Returned handle, st') ->
        model_name handle = model_size
        /\ on_device handle = device w
        /\ cache_consistent w st')
  /\ (forall (req : RambleModeV2Multi.request) (st : process),
        cache_consistent w st ->
        cache_consistent w (snd (RambleModeV2Multi.transcribe w req st))).
Proof.
  split; [|split].
  - intros k h. unfold fresh. simpl. by rewrite lookup_empty.
  - intros model_size st st' handle Hst Hcall.
    pose proof (get_model_outcome w model_size st) as Hout.
    pose proof (get_model_consistent w model_size st Hst) as Hst'.
    rewrite Hcall in Hout, Hst'. simpl in Hout, Hst'.
    assert (Hhandle : model_name handle = model_size /\ on_device handle = device w).
    { destruct (loaded_models st !! model_size) as [cached|] eqn:Hcache.
      - unfold handle_for in Hout. rewrite Hcache in Hout.
        injection Hout as Hsame. subst cached. by apply Hst.
      - by apply (handle_for_loaded w model_size st handle Hcache). }
    destruct Hhandle as [Hname Hdevice]. exact (conj Hname (conj Hdevice Hst')).
  - intros req st Hst.
    assert (Hsame : forall s s' : process, models_of s' = models_of s ->
              cache_consistent w s -> cache_consistent w s').
    { intros s s'. unfold models_of, cache_consistent. by intros [= -> _]. }
    destruct (assoc (RambleModeV2Multi.model req) RambleModeV2Multi.MODELS)
      as [info|] eqn:Hknown.
    + destruct (multi_transcribe_models w req st info Hknown) as [Hst' | [wrote Hst']].
      * by apply (Hsame st).
      * eapply Hsame; [exact Hst'|]. apply get_model_consistent.
        apply (Hsame st); [|done]. unfold after_decode. by destruct wrote.
    + unfold RambleModeV2Multi.transcribe. by rewrite Hknown.
Qed.

(** The first request of a process, for the model "small". *)
Lemma cache_stays_consistent_witness :
  model_name (Model "small" None "cpu") = "small"
  /\ on_device (Model "small" None "cpu") = device silent_world
  /\ cache_consistent silent_world
       (Process ∅ {["small" := Model "small" None "cpu"]} 1).
Proof.
  apply (proj1 (proj2 (cache_stays_consistent silent_world)) "small" fresh).
  - apply (proj1 (cache_stays_consistent silent_world)).
  - vm_compute. reflexivity.
Defined.

(** ** Labels and pauses *)

Lemma parity_label (i : nat) :
  "Speaker " +:+ Py.str_of_nat (i mod 2 + 1)
  = if Nat.even i then "Speaker 1" else "Speaker 2".
Proof.
  destruct (Nat.even i) eqn:Hparity.
  - apply Nat.even_spec in Hparity as [k ->].
    by rewrite Nat.mul_comm, Nat.Div0.mod_mul.
  - assert (Hodd : Nat.odd i = true) by (by rewrite <- Nat.negb_even, Hparity).
    apply Nat.odd_spec in Hodd as [k ->].
    replace (2 * k + 1)%nat with (1 + k * 2)%nat by lia.
    by rewrite Nat.Div0.mod_add.
Qed.

Lemma label_at_step (segments : list raw_segment) (i : nat) :
  label_at segments i
  = if gap_at segments i
    then if Nat.even i then "Speaker 1" else "Speaker 2"
    else match i with
         | O => "Speaker 1"
         | S j => label_at segments j
         end.
Proof.
  unfold label_at. destruct i as [|j]; simpl; by destruct (gap_at segments _).
Qed.

Lemma format_from_cons (speaker_detection : bool) (i : nat)
    (current_speaker : string) (last_end : float) (seg : raw_segment)
    (rest : list raw_segment) :
  RambleModeV2.format_from speaker_detection i current_speaker last_end (seg :: rest)
  = RambleModeV2.Segment
      (if PrimFloat.ltb 2 (PrimFloat.sub (raw_start seg) last_end) && speaker_detection
       then "Speaker " +:+ Py.str_of_nat (i mod 2 + 1)
       else current_speaker)
      (Py.strip (raw_text seg)) (Py.round2 (raw_start seg)) (Py.round2 (raw_end seg))
    :: RambleModeV2.format_from speaker_detection (S i)
         (if PrimFloat.ltb 2 (PrimFloat.sub (raw_start seg) last_end) && speaker_detection
          then "Speaker " +:+ Py.str_of_nat (i mod 2 + 1)
          else current_speaker)
         (raw_end seg) rest.
Proof. reflexivity. Qed.

(** The loop from index [length done_] on, entered with the values that the
    segments before leave in [current_speaker] and [last_end]. *)
Lemma format_from_label_at (todo : list raw_segment) :
  forall (done_ : list raw_segment) (current_speaker : string) (last_end : float),
    last_end = end_before (done_ ++ todo) (length done_) ->
    current_speaker = match length done_ with
                      | O => "Speaker 1"
                      | S j => label_at (done_ ++ todo) j
                      end ->
    RambleModeV2.speaker <$>
      RambleModeV2.format_from true (length done_) current_speaker last_end todo
    = label_at (done_ ++ todo) <$> seq (length done_) (length todo).
Proof.
  induction todo as [|seg rest IH]; intros done_ current last_end Hend Hcur; [done|].
  change (seq (length done_) (length (seg :: rest)))
    with (length done_ :: seq (S (length done_)) (length rest)).
  rewrite format_from_cons, !fmap_cons. cbn [RambleModeV2.speaker].
  rewrite andb_true_r.
  assert (Hseg : (done_ ++ seg :: rest) !! length done_ = Some seg)
    by apply list_lookup_middle, eq_refl.
  assert (Hgap : gap_at (done_ ++ seg :: rest) (length done_)
                 = PrimFloat.ltb 2 (PrimFloat.sub (raw_start seg) last_end))
    by (unfold gap_at; by rewrite Hseg, Hend).
  assert (Hlabel :
    (if PrimFloat.ltb 2 (PrimFloat.sub (raw_start seg) last_end)
     then "Speaker " +:+ Py.str_of_nat (length done_ mod 2 + 1)
     else current)
    = label_at (done_ ++ seg :: rest) (length done_)).
  { rewrite label_at_step, Hgap, parity_label.
    destruct (PrimFloat.ltb _ _); [done|]. exact Hcur. }
  rewrite Hlabel. f_equal.
  specialize (IH (done_ ++ [seg])).
  rewrite <- app_assoc, length_app, Nat.add_1_r in IH. simpl in IH.
  apply IH; [|done].
  simpl. by rewrite Hseg.
Qed.

(** X11: with speaker detection on, the label of a segment is decided by the
    last pause of more than two seconds up to it: "Speaker 1" when there is
    none or when the segment after that pause has an even index, "Speaker 2"
    when it has an odd index. *)
Theorem label_is_parity_of_last_gap (segments : list raw_segment) :
  RambleModeV2.speaker <$> RambleModeV2.formatted_segments true segments
  = label_at segments <$> seq 0 (length segments).
Proof. by apply (format_from_label_at segments []). Qed.

Lemma no_gap_label_at (segments : list raw_segment) (i : nat) :
  (forall j, gap_at segments j = false) -> label_at segments i = "Speaker 1".
Proof.
  intros Hnone. induction i as [|j IH]; rewrite label_at_step, Hnone; done.
Qed.

Lemma single_label_size (label : string) (labels : list string) :
  labels <> [] -> Forall (fun l => l = label) labels ->
  size (list_to_set labels : gset string) = 1%nat.
Proof.
  intros Hne Hall.
  replace (list_to_set labels : gset string) with ({[label]} : gset string);
    [apply size_singleton|].
  apply set_eq. intros l. rewrite elem_of_singleton, elem_of_list_to_set.
  rewrite Forall_forall in Hall. split.
  - intros ->. destruct labels as [|l0 rest]; [done|].
    rewrite (Hall l0) by apply list_elem_of_here. apply list_elem_of_here.
  - apply Hall.
Qed.

(** X12: with speaker detection on, segments that never start more than two
    seconds after the one before ended (the first one: after 0) all get the
    label "Speaker 1"; the response then reports one speaker, and none when
    there is no segment. *)
Theorem no_gap_one_speaker (segments : list raw_segment) :
  (forall i, gap_at segments i = false) ->
  Forall (fun s => RambleModeV2.speaker s = "Speaker 1")
    (RambleModeV2.formatted_segments true segments)
  /\ RambleModeV2.speakers_detected true (RambleModeV2.formatted_segments true segments)
     = match segments with
       | [] => 0
       | _ :: _ => 1
       end.
Proof.
  intros Hnone.
  assert (Hlabels :
    RambleModeV2.speaker <$> RambleModeV2.formatted_segments true segments
    = label_at segments <$> seq 0 (length segments))
    by (by apply (format_from_label_at segments [])).
  assert (Hall : Forall (fun l => l = "Speaker 1")
            (RambleModeV2.speaker <$> RambleModeV2.formatted_segments true segments)).
  { rewrite Hlabels. apply Forall_fmap, Forall_forall. intros i _.
    by apply no_gap_label_at. }
  split; [by apply Forall_fmap in Hall|].
  unfold RambleModeV2.speakers_detected.
  destruct segments as [|seg rest]; [done|].
  rewrite (single_label_size "Speaker 1"); [done| |done].
  by destruct (RambleModeV2.formatted_segments true (seg :: rest)) eqn:Hf.
Qed.

(** Three segments, the longest pause 1.5 seconds. *)
Lemma no_gap_one_speaker_witness :
  Forall (fun s => RambleModeV2.speaker s = "Speaker 1")
    (RambleModeV2.formatted_segments true close_example)
  /\ RambleModeV2.speakers_detected true
       (RambleModeV2.formatted_segments true close_example) = 1.
Proof.
  apply (no_gap_one_speaker close_example).
  intros [|[|[|i]]]; reflexivity.
Defined.

(** ** The path of the converted file *)

Lemma prefix_first (c d : ascii) (s t : string) :
  String.prefix (String c s) (String d t) = true -> c = d.
Proof. cbn [String.prefix]. by destruct (ascii_dec c d). Qed.

(** Replacing a text that occurs changes the string, when the replacement
    starts with another character than the text replaced. *)
Lemma replace_from_changes (a b : ascii) (old new : string) (s : string) :
  a <> b ->
  (exists pre post, s = pre +:+ String a old +:+ post) ->
  Py.replace_from (String a old) (String b new) 0 s <> s.
Proof.
  intros Hab. induction s as [|c rest IH]; intros (pre & post & Hs).
  - by destruct pre.
  - cbn [Py.replace_from].
    destruct (String.prefix (String a old) (String c rest)) eqn:Hprefix.
    + apply prefix_first in Hprefix as <-. rewrite append_cons. congruence.
    + intros [= Hrest]. revert Hrest. apply IH.
      destruct pre as [|c' pre].
      * change (String c rest = String a old +:+ post) in Hs.
        rewrite Hs, prefix_append in Hprefix. done.
      * rewrite append_cons in Hs. injection Hs as _ ->. by exists pre, post.
Qed.

(** X13: for an extension as [os.path.splitext] gives it (empty, or starting
    with a period), the path of the converted file is never the path of the
    upload: ffmpeg does not write over its input. *)
Theorem wav_path_differs (w : world) (ext : string) :
  ext = "" \/ first_char ext = Some "."%char ->
  String.eqb (wav_path_of w ext) (temp_path_of w ext) = false.
Proof.
  intros Hext. apply String.eqb_neq.
  assert (Hsuffix : exists rest, suffix_of ext = String "."%char rest).
  { destruct Hext as [-> | Hdot]; [by exists "ogg"|].
    destruct ext as [|c rest]; [done|]. injection Hdot as ->. by exists rest. }
  destruct Hsuffix as [rest Hsuffix].
  unfold wav_path_of, temp_path_of. rewrite Hsuffix.
  apply replace_from_changes; [done|].
  exists (tmp_stem w), "". by rewrite append_empty.
Qed.

(** An upload named with the extension ".mp3". *)
Lemma wav_path_differs_witness :
  String.eqb (wav_path_of silent_world ".mp3") (temp_path_of silent_world ".mp3") = false.
Proof. apply (wav_path_differs silent_world ".mp3"). by right. Defined.

(** * The client *)

Lemma v2_returned_cases (w : world) (req : RambleModeV2.request) (st : process)
    (r : response) :
  fst (RambleModeV2.transcribe w req st) = Returned r ->
  (exists result, r = returned_dict (RambleModeV2.success req result))
  \/ RambleCli.is_http_error (status_code r) = true.
Proof.
  rewrite v2_transcribe_outcome. cbv zeta.
  assert (Hhandled : forall e, v2_handled e = Returned r ->
            RambleCli.is_http_error (status_code r) = true).
  { intros e. unfold v2_handled. destruct (is_TimeoutExpired e).
    - by intros [= <-].
    - destruct (is_Exception e); [|done]. by intros [= <-]. }
  destruct (fst (ffmpeg w _ _)) as [returncode stderr|e]; [|right; eauto].
  destruct (returncode =? 0).
  - destruct (model_transcribe _ _ _ _) as [result|e]; [|right; eauto].
    intros [= <-]. left. by exists result.
  - intros [= <-]. by right.
Qed.

Lemma multi_returned_cases (w : world) (req : RambleModeV2Multi.request)
    (st : process) (r : response) :
  fst (RambleModeV2Multi.transcribe w req st) = Returned r ->
  (exists result, r = returned_dict (RambleModeV2Multi.success req result))
  \/ RambleCli.is_http_error (status_code r) = true.
Proof.
  destruct (assoc (RambleModeV2Multi.model req) RambleModeV2Multi.MODELS)
    as [info|] eqn:Hknown.
  - rewrite (multi_transcribe_outcome _ _ _ _ Hknown). cbv zeta.
    assert (Hhandled : forall e, multi_handled e = Returned r ->
              RambleCli.is_http_error (status_code r) = true).
    { intros e. unfold multi_handled. destruct (is_Exception e); [|done].
      by intros [= <-]. }
    destruct (ffmpeg w _ _) as [[returncode stderr|e] wrote]; [|right; eauto].
    destruct (handle_for _ _ _) as [model_obj|e]; [|right; eauto].
    destruct (model_transcribe _ _ _ _) as [result|e]; [|right; eauto].
    intros [= <-]. left. by exists result.
  - unfold RambleModeV2Multi.transcribe. rewrite Hknown. intros [= <-]. by right.
Qed.

Lemma print_segments_v2 (formatted : list RambleModeV2.segment) :
  RambleCli.print_segments (RambleModeV2.segment_json <$> formatted) = RambleCli.Done tt.
Proof. induction formatted as [|s rest IH]; [done|]. simpl. exact IH. Qed.

(** The client prints every successful answer of the single-model service,
    with or without its segments. *)
Lemma print_v2_success (req : RambleModeV2.request) (result : whisper_result)
    (show_segments : bool) :
  RambleCli.print_transcription (JObj (RambleModeV2.success req result)) show_segments
  = RambleCli.Done tt.
Proof.
  destruct show_segments; [|reflexivity].
  unfold RambleCli.print_transcription, RambleModeV2.success. simpl.
  case_bool_decide; [done|]. simpl.
  destruct (RambleModeV2.formatted_segments _ _) as [|s rest] eqn:Hformatted; [done|].
  simpl. apply print_segments_v2.
Qed.

Lemma print_multi_success (req : RambleModeV2Multi.request) (result : whisper_result)
    (show_segments : bool) :
  RambleCli.print_transcription (JObj (RambleModeV2Multi.success req result)) show_segments
  = RambleCli.Done tt.
Proof. by destruct show_segments. Qed.

Lemma main_on_answer (e : RambleCli.env) (a : RambleCli.args) (audio : string)
    (status : Z) (result : json) :
  RambleCli.disk e !! RambleCli.audio_file a = Some audio ->
  RambleCli.post e
    (RambleCli.endpoint_of e (RambleCli.endpoint a) +:+ "/transcribe")
    (RambleCli.basename (RambleCli.audio_file a)) audio
    (RambleCli.form_data (RambleCli.language a))
  = RambleCli.Answered status (inl result) ->
  RambleCli.transcribe_file e (RambleCli.audio_file a) (RambleCli.endpoint a)
    (RambleCli.language a)
  = if RambleCli.is_http_error status then RambleCli.Done None
    else RambleCli.Done (Some result).
Proof.
  intros Hdisk Hpost. unfold RambleCli.transcribe_file.
  by rewrite Hdisk, Hpost.
Qed.

(** The rest of [main] once a transcript of status "success" has been
    printed. *)
Lemma main_saves_text (e : RambleCli.env) (a : RambleCli.args) (result : json)
    (t : string) :
  RambleCli.transcribe_file e (RambleCli.audio_file a) (RambleCli.endpoint a)
    (RambleCli.language a) = RambleCli.Done (Some result) ->
  RambleCli.truthy result = true ->
  RambleCli.print_transcription result (RambleCli.segments a) = RambleCli.Done tt ->
  RambleCli.getitem result "text" = RambleCli.Done (JStr t) ->
  RambleCli.main e a
  = (RambleCli.Exit 0, written (RambleCli.output a) t (RambleCli.disk e)).
Proof.
  intros Hfile Htruthy Hprint Htext. unfold RambleCli.main, written.
  rewrite Hfile, Htruthy, Hprint, Htext.
  by destruct (RambleCli.output a) as [[|c s]|].
Qed.

Lemma main_on_http_error (e : RambleCli.env) (a : RambleCli.args) (audio : string)
    (status : Z) (json_body : json + RambleCli.raised) :
  RambleCli.disk e !! RambleCli.audio_file a = Some audio ->
  RambleCli.post e
    (RambleCli.endpoint_of e (RambleCli.endpoint a) +:+ "/transcribe")
    (RambleCli.basename (RambleCli.audio_file a)) audio
    (RambleCli.form_data (RambleCli.language a))
  = RambleCli.Answered status json_body ->
  RambleCli.is_http_error status = true ->
  RambleCli.main e a = (RambleCli.Exit 1, RambleCli.disk e).
Proof.
  intros Hdisk Hpost Herror. unfold RambleCli.main, RambleCli.transcribe_file.
  by rewrite Hdisk, Hpost, Herror.
Qed.

(** X14: the client against the single-model service.  When the answer to
    its request is a response of the [/transcribe] handler, the client either
    ends with code 0, having printed the transcript (with [--segments]: every
    segment) and saved the stripped text of the recognition where [--output]
    says, or, for every error response (400, 408, 500), ends with code 1 and
    leaves its files as they were. *)
Theorem client_against_v2 (w : world) (req : RambleModeV2.request) (st : process)
    (r : response) (e : RambleCli.env) (a : RambleCli.args) (audio : string) :
  fst (RambleModeV2.transcribe w req st) = Returned r ->
  RambleCli.disk e !! RambleCli.audio_file a = Some audio ->
  RambleCli.post e
    (RambleCli.endpoint_of e (RambleCli.endpoint a) +:+ "/transcribe")
    (RambleCli.basename (RambleCli.audio_file a)) audio
    (RambleCli.form_data (RambleCli.language a))
  = RambleCli.Answered (status_code r) (inl (content r)) ->
  (exists result : whisper_result,
     r = returned_dict (RambleModeV2.success req result)
     /\ RambleCli.main e a
        = (RambleCli.Exit 0,
           written (RambleCli.output a) (Py.strip (default "" (res_text result)))
             (RambleCli.disk e)))
  \/ (RambleCli.is_http_error (status_code r) = true
      /\ RambleCli.main e a = (RambleCli.Exit 1, RambleCli.disk e)).
Proof.
  intros Hserved Hdisk Hpost.
  destruct (v2_returned_cases w req st r Hserved) as [[result ->] | Herror].
  - left. exists result. split; [done|].
    apply (main_saves_text e a (JObj (RambleModeV2.success req result))).
    + by rewrite (main_on_answer e a audio _ _ Hdisk Hpost).
    + done.
    + apply print_v2_success.
    + done.
  - right. split; [done|]. by eapply main_on_http_error.
Qed.

(** The short recording, saved to notes.txt. *)
Lemma client_against_v2_witness :
  (exists result : whisper_result,
     returned_dict (RambleModeV2.success
                      (RambleModeV2.Request ".ogg" None "transcribe" true) memo_result)
     = returned_dict (RambleModeV2.success
                        (RambleModeV2.Request ".ogg" None "transcribe" true) result)
     /\ RambleCli.main
          (client (RambleCli.Answered 200
             (inl (JObj (RambleModeV2.success
                           (RambleModeV2.Request ".ogg" None "transcribe" true)
                           memo_result)))))
          (memo_args (Some "notes.txt"))
        = (RambleCli.Exit 0,
           written (Some "notes.txt") (Py.strip (default "" (res_text result)))
             {["memo.ogg" := "OggS"]}))
  \/ (RambleCli.is_http_error 200 = true
      /\ RambleCli.main
           (client (RambleCli.Answered 200
              (inl (JObj (RambleModeV2.success
                            (RambleModeV2.Request ".ogg" None "transcribe" true)
                            memo_result)))))
           (memo_args (Some "notes.txt"))
         = (RambleCli.Exit 1, {["memo.ogg" := "OggS"]})).
Proof.
  apply (client_against_v2
           (World false "/tmp/tmpm3m0x1ab" (fun _ _ => (Completed 0 "", true))
              (fun _ _ => None) (fun _ _ _ => Returned memo_result))
           (RambleModeV2.Request ".ogg" None "transcribe" true) fresh
           (returned_dict (RambleModeV2.success
                             (RambleModeV2.Request ".ogg" None "transcribe" true)
                             memo_result))
           (client (RambleCli.Answered 200
              (inl (JObj (RambleModeV2.success
                            (RambleModeV2.Request ".ogg" None "transcribe" true)
                            memo_result)))))
           (memo_args (Some "notes.txt")) "OggS").
  - vm_compute. reflexivity.
  - reflexivity.
  - reflexivity.
Defined.

(** X15: the client against the multi-model service.  A successful response
    has no "segments", which the client takes as nothing to list: it ends
    with code 0 and saves the stripped text where [--output] says; for every
    error response (400 for an unknown model, 500) it ends with code 1 and
    leaves its files as they were. *)
Theorem client_against_multi (w : world) (req : RambleModeV2Multi.request)
    (st : process) (r : response) (e : RambleCli.env) (a : RambleCli.args)
    (audio : string) :
  fst (RambleModeV2Multi.transcribe w req st) = Returned r ->
  RambleCli.disk e !! RambleCli.audio_file a = Some audio ->
  RambleCli.post e
    (RambleCli.endpoint_of e (RambleCli.endpoint a) +:+ "/transcribe")
    (RambleCli.basename (RambleCli.audio_file a)) audio
    (RambleCli.form_data (RambleCli.language a))
  = RambleCli.Answered (status_code r) (inl (content r)) ->
  (exists result : whisper_result,
     r = returned_dict (RambleModeV2Multi.success req result)
     /\ RambleCli.main e a
        = (RambleCli.Exit 0,
           written (RambleCli.output a) (Py.strip (default "" (res_text result)))
             (RambleCli.disk e)))
  \/ (RambleCli.is_http_error (status_code r) = true
      /\ RambleCli.main e a = (RambleCli.Exit 1, RambleCli.disk e)).
Proof.
  intros Hserved Hdisk Hpost.
  destruct (multi_returned_cases w req st r Hserved) as [[result ->] | Herror].
  - left. exists result. split; [done|].
    apply (main_saves_text e a (JObj (RambleModeV2Multi.success req result))).
    + by rewrite (main_on_answer e a audio _ _ Hdisk Hpost).
    + done.
    + apply print_multi_success.
    + done.
  - right. split; [done|]. by eapply main_on_http_error.
Qed.

(** A request for the model "giant". *)
Lemma client_against_multi_witness :
  (exists result : whisper_result,
     RambleModeV2Multi.invalid_model
     = returned_dict (RambleModeV2Multi.success
                        (RambleModeV2Multi.Request ".ogg" "giant" None "transcribe") result)
     /\ RambleCli.main
          (client (RambleCli.Answered 400
                     (inl (content RambleModeV2Multi.invalid_model))))
          (memo_args (Some "notes.txt"))
        = (RambleCli.Exit 0,
           written (Some "notes.txt") (Py.strip (default "" (res_text result)))
             {["memo.ogg" := "OggS"]}))
  \/ (RambleCli.is_http_error 400 = true
      /\ RambleCli.main
           (client (RambleCli.Answered 400
                      (inl (content RambleModeV2Multi.invalid_model))))
           (memo_args (Some "notes.txt"))
         = (RambleCli.Exit 1, {["memo.ogg" := "OggS"]})).
Proof.
  apply (client_against_multi silent_world
           (RambleModeV2Multi.Request ".ogg" "giant" None "transcribe") fresh
           RambleModeV2Multi.invalid_model
           (client (RambleCli.Answered 400
                      (inl (content RambleModeV2Multi.invalid_model))))
           (memo_args (Some "notes.txt")) "OggS");
    reflexivity.
Defined.

(** X16: the client ends with code 0 only after a request that was answered
    with a status outside 400..599 and a JSON object that has a "text"; the
    only file it has then changed is the one [--output] names, which holds
    that text.  With code 1 from [sys.exit] its files are as they were. *)
Theorem client_exit_codes (e : RambleCli.env) (a : RambleCli.args)
    (d : gmap string string) :
  (RambleCli.main e a = (RambleCli.Exit 0, d) ->
   exists (audio : string) (status : Z) (result t : json),
     RambleCli.disk e !! RambleCli.audio_file a = Some audio
     /\ RambleCli.post e
          (RambleCli.endpoint_of e (RambleCli.endpoint a) +:+ "/transcribe")
          (RambleCli.basename (RambleCli.audio_file a)) audio
          (RambleCli.form_data (RambleCli.language a))
        = RambleCli.Answered status (inl result)
     /\ RambleCli.is_http_error status = false
     /\ RambleCli.getitem result "text" = RambleCli.Done t
     /\ d = match t with
            | JStr text => written (RambleCli.output a) text (RambleCli.disk e)
            | _ => RambleCli.disk e
            end)
  /\ (RambleCli.main e a = (RambleCli.Exit 1, d) -> d = RambleCli.disk e).
Proof.
  unfold RambleCli.main, RambleCli.transcribe_file.
  destruct (RambleCli.disk e !! RambleCli.audio_file a) as [audio|] eqn:Hdisk;
    [|split; [done|by intros [= <-]]].
  destruct (RambleCli.post e _ _ _ _) as [status [result|[message|c]]|[message|c]]
    eqn:Hpost;
    try (destruct (RambleCli.is_http_error status) eqn:Herror);
    try (split; [done|by intros [= <-]]).
  destruct (RambleCli.truthy result); [|split; [done|by intros [= <-]]].
  destruct (RambleCli.print_transcription result _); [|by split].
  destruct (RambleCli.output a) as [[|c s]|] eqn:Houtput;
    destruct (RambleCli.getitem result "text") as [t|x] eqn:Htext;
    try (by split).
  - split; [|done]. intros [= <-]. exists audio, status, result, t.
    repeat split; try done. by destruct t.
  - destruct t; try (by split).
    split; [|done]. intros [= <-]. by exists audio, status, result, (JStr s0).
  - split; [|done]. intros [= <-]. exists audio, status, result, t.
    repeat split; try done. by destruct t.
Qed.

(** The short recording, answered by the single-model service and saved. *)
Lemma client_exit_codes_witness :
  exists (audio : string) (status : Z) (result t : json),
    ({["memo.ogg" := "OggS"]} : gmap string string) !! "memo.ogg" = Some audio
    /\ RambleCli.Answered 200
         (inl (JObj (RambleModeV2.success
                       (RambleModeV2.Request ".ogg" None "transcribe" true) memo_result)))
       = RambleCli.Answered status (inl result)
    /\ RambleCli.is_http_error status = false
    /\ RambleCli.getitem result "text" = RambleCli.Done t
    /\ ({["notes.txt" := "Buy milk."; "memo.ogg" := "OggS"]} : gmap string string)
       = match t with
         | JStr text => written (Some "notes.txt") text {["memo.ogg" := "OggS"]}
         | _ => {["memo.ogg" := "OggS"]}
         end.
Proof.
  apply (proj1 (client_exit_codes
    (client (RambleCli.Answered 200
       (inl (JObj (RambleModeV2.success
                     (RambleModeV2.Request ".ogg" None "transcribe" true) memo_result)))))
    (memo_args (Some "notes.txt"))
    {["notes.txt" := "Buy milk."; "memo.ogg" := "OggS"]})).
  vm_compute. reflexivity.
Defined.

(** * [download_models] *)

Lemma download_each_cached (w : world) (kept : string -> gset string)
    (names : list string) (st : process) :
  (forall name, name ∈ names -> model_path name ∈ files st) ->
  RambleModeV2Multi.download_each w kept names st = (Returned tt, st).
Proof.
  induction names as [|name rest IH]; intros Hcached; [done|].
  cbn [RambleModeV2Multi.download_each]. unfold bind, gets, exists_.
  rewrite bool_decide_eq_true_2 by apply Hcached, list_elem_of_here.
  cbn [ret]. apply IH. intros other Hother. by apply Hcached, list_elem_of_further.
Qed.

(** A run in which no load fails, when every download leaves the file that
    the loop looks for. *)
Lemma download_each_completes (w : world) (kept : string -> gset string)
    (names : list string) :
  (forall name, load_model w name (Some "/models") = None) ->
  (forall name, model_path name ∈ kept name) ->
  forall st : process,
    exists st' : process,
      RambleModeV2Multi.download_each w kept names st = (Returned tt, st')
      /\ files st ⊆ files st'
      /\ (forall name, name ∈ names -> model_path name ∈ files st')
      /\ loaded_models st' = loaded_models st
      /\ (loads st <= loads st' <= loads st + length names)%nat.
Proof.
  intros Hloads Hkept. induction names as [|name rest IH]; intros st.
  - exists st. repeat split; try done; [|simpl; lia].
    intros name Hname. by apply not_elem_of_nil in Hname.
  - cbn [RambleModeV2Multi.download_each]. unfold bind at 1 2. unfold gets, exists_.
    fold (model_path name).
    destruct (bool_decide (model_path name ∈ files st)) eqn:Hcached.
    + apply bool_decide_eq_true_1 in Hcached. cbn [ret].
      destruct (IH st) as (st' & -> & Hfiles & Hall & Hmodels & Hcount).
      exists st'. repeat split; try done; [|lia|simpl; lia].
      intros other [->|Hother]%elem_of_cons; [by apply Hfiles|by apply Hall].
    + unfold RambleModeV2Multi.download. rewrite Hloads.
      destruct (IH (Process (kept name ∪ files st) (loaded_models st) (S (loads st))))
        as (st' & -> & Hfiles & Hall & Hmodels & Hcount).
      simpl in Hfiles, Hmodels, Hcount.
      exists st'. repeat split; try done; [set_solver| |lia|simpl; lia].
      intros other [->|Hother]%elem_of_cons; [|by apply Hall].
      apply Hfiles. specialize (Hkept name). set_solver.
Qed.

(** X18: when the volume holds the file of each of the five models,
    [download_models] returns "Done" without loading anything: the state of
    the process is as before. *)
Theorem download_models_all_cached (w : world) (kept : string -> gset string)
    (st : process) :
  (forall name, name ∈ ["tiny"; "base"; "small"; "medium"; "large"] ->
                model_path name ∈ files st) ->
  RambleModeV2Multi.download_models w kept st = (Returned "Done", st).
Proof.
  intros Hcached. unfold RambleModeV2Multi.download_models, bind.
  by rewrite (download_each_cached w kept (fst <$> RambleModeV2Multi.MODELS) st Hcached).
Qed.

(** A volume that holds the five files. *)
Lemma download_models_all_cached_witness :
  RambleModeV2Multi.download_models silent_world (fun _ => ∅)
    (Process (list_to_set (model_path <$> ["tiny"; "base"; "small"; "medium"; "large"]))
       ∅ 0)
  = (Returned "Done",
     Process (list_to_set (model_path <$> ["tiny"; "base"; "small"; "medium"; "large"]))
       ∅ 0).
Proof.
  apply (download_models_all_cached silent_world (fun _ => ∅)).
  intros name Hname. simpl. set_solver.
Defined.

(** X19: if no load fails and the download of a model leaves the file
    [/models/whisper-<name>.pt], then [download_models] returns "Done" after
    at most five loads, keeps every file that was there, leaves the five files
    on the volume and does not touch the cache of loaded models; a second run
    right after it loads nothing and changes nothing. *)
Theorem download_models_twice (w : world) (kept : string -> gset string)
    (st : process) :
  (forall name, load_model w name (Some "/models") = None) ->
  (forall name, model_path name ∈ kept name) ->
  exists st' : process,
    RambleModeV2Multi.download_models w kept st = (Returned "Done", st')
    /\ files st ⊆ files st'
    /\ (forall name, name ∈ ["tiny"; "base"; "small"; "medium"; "large"] ->
                     model_path name ∈ files st')
    /\ loaded_models st' = loaded_models st
    /\ (loads st <= loads st' <= loads st + 5)%nat
    /\ RambleModeV2Multi.download_models w kept st' = (Returned "Done", st').
Proof.
  intros Hloads Hkept.
  destruct (download_each_completes w kept
              (fst <$> RambleModeV2Multi.MODELS) Hloads Hkept st)
    as (st' & Hrun & Hfiles & Hall & Hmodels & Hcount).
  exists st'. unfold RambleModeV2Multi.download_models, bind.
  rewrite Hrun. repeat split; try done; try (simpl in Hcount; lia).
  by rewrite (download_each_cached w kept (fst <$> RambleModeV2Multi.MODELS) st' Hall).
Qed.

(** An empty volume, every download leaving its file. *)
Lemma download_models_twice_witness :
  exists st' : process,
    RambleModeV2Multi.download_models silent_world (fun name => {[model_path name]}) fresh
    = (Returned "Done", st')
    /\ files fresh ⊆ files st'
    /\ (forall name, name ∈ ["tiny"; "base"; "small"; "medium"; "large"] ->
                     model_path name ∈ files st')
    /\ loaded_models st' = loaded_models fresh
    /\ (loads fresh <= loads st' <= loads fresh + 5)%nat
    /\ RambleModeV2Multi.download_models silent_world
         (fun name => {[model_path name]}) st'
       = (Returned "Done", st').
Proof.
  apply (download_models_twice silent_world (fun name => {[model_path name]}) fresh).
  - done.
  - intros name. set_solver.
Defined.

Lemma download_each_skips (w : world) (kept : string -> gset string)
    (before rest : list string) (st : process) :
  (forall name, name ∈ before -> model_path name ∈ files st) ->
  RambleModeV2Multi.download_each w kept (before ++ rest) st
  = RambleModeV2Multi.download_each w kept rest st.
Proof.
  induction before as [|name before IH]; intros Hcached; [done|].
  rewrite <- app_comm_cons.
  cbn [RambleModeV2Multi.download_each]. unfold bind at 1 2. unfold gets, exists_.
  fold (model_path name).
  rewrite bool_decide_eq_true_2 by apply Hcached, list_elem_of_here.
  cbn [ret]. apply IH. intros other Hother. by apply Hcached, list_elem_of_further.
Qed.

(** X20: a download that fails ends [download_models].  When the first model
    (in the order tiny, base, small, medium, large) whose file is missing
    cannot be loaded, the exception of that load leaves [download_models]
    after this one attempt; the models after it are not tried. *)
Theorem download_models_stops_at_failure (w : world) (kept : string -> gset string)
    (st : process) (before after : list string) (name : string) (e : exn) :
  ["tiny"; "base"; "small"; "medium"; "large"] = before ++ name :: after ->
  (forall cached, cached ∈ before -> model_path cached ∈ files st) ->
  model_path name ∉ files st ->
  load_model w name (Some "/models") = Some e ->
  RambleModeV2Multi.download_models w kept st
  = (Raised e, Process (files st) (loaded_models st) (S (loads st))).
Proof.
  intros Hnames Hcached Hmissing Hload.
  unfold RambleModeV2Multi.download_models. unfold bind at 1.
  change (fst <$> RambleModeV2Multi.MODELS)
    with ["tiny"; "base"; "small"; "medium"; "large"].
  rewrite Hnames, (download_each_skips w kept before _ st Hcached).
  cbn [RambleModeV2Multi.download_each]. unfold bind at 1 2. unfold gets, exists_.
  fold (model_path name).
  rewrite bool_decide_eq_false_2 by done.
  unfold RambleModeV2Multi.download. by rewrite Hload.
Qed.

(** An empty volume and a checkpoint that cannot be read: "tiny" fails. *)
Lemma download_models_stops_at_failure_witness :
  RambleModeV2Multi.download_models failing_load_world (fun _ => ∅) fresh
  = (Raised (Exn OtherException "checkpoint does not match"
               "Traceback (most recent call last): RuntimeError"),
     Process ∅ ∅ 1).
Proof.
  apply (download_models_stops_at_failure failing_load_world (fun _ => ∅) fresh
           [] ["base"; "small"; "medium"; "large"] "tiny").
  - reflexivity.
  - intros cached Hcached. by apply not_elem_of_nil in Hcached.
  - apply not_elem_of_empty.
  - reflexivity.
Defined.

(** * The client when no transcript arrives *)

(** X17: the client gives up with code 1, its files as they were, when the
    audio file does not exist (whatever the service would answer), when the
    request raises a [RequestException], when the answer has a status from
    400 to 599 (whatever its body says), or when reading the body raises a
    [RequestException]. *)
Theorem client_gives_up (e : RambleCli.env) (a : RambleCli.args) :
  RambleCli.disk e !! RambleCli.audio_file a = None
  \/ (exists (audio : string),
        RambleCli.disk e !! RambleCli.audio_file a = Some audio
        /\ ((exists message,
               RambleCli.post e
                 (RambleCli.endpoint_of e (RambleCli.endpoint a) +:+ "/transcribe")
                 (RambleCli.basename (RambleCli.audio_file a)) audio
                 (RambleCli.form_data (RambleCli.language a))
               = RambleCli.NotAnswered (RambleCli.RequestException message))
            \/ (exists status json_body,
                  RambleCli.post e
                    (RambleCli.endpoint_of e (RambleCli.endpoint a) +:+ "/transcribe")
                    (RambleCli.basename (RambleCli.audio_file a)) audio
                    (RambleCli.form_data (RambleCli.language a))
                  = RambleCli.Answered status json_body
                  /\ (RambleCli.is_http_error status = true
                      \/ exists message,
                           json_body = inr (RambleCli.RequestException message))))) ->
  RambleCli.main e a = (RambleCli.Exit 1, RambleCli.disk e).
Proof.
  unfold RambleCli.main, RambleCli.transcribe_file.
  intros [-> | (audio & -> & [[message ->] | (status & json_body & -> & Hwhy)])];
    try done.
  destruct (RambleCli.is_http_error status); [done|].
  by destruct Hwhy as [? | [message ->]].
Qed.

(** A file name that is not on disk. *)
Lemma client_gives_up_witness :
  RambleCli.main (client (RambleCli.Answered 200 (inl (JObj []))))
    (RambleCli.Args "nothing.ogg" None None false (Some "notes.txt"))
  = (RambleCli.Exit 1, {["memo.ogg" := "OggS"]}).
Proof.
  apply (client_gives_up (client (RambleCli.Answered 200 (inl (JObj []))))
           (RambleCli.Args "nothing.ogg" None None false (Some "notes.txt"))).
  left. reflexivity.
Defined.

(** * [print_transcription] on what the services send *)

Lemma v2_returned_bodies (w : world) (req : RambleModeV2.request) (st : process)
    (r : response) :
  fst (RambleModeV2.transcribe w req st) = Returned r ->
  (exists result, r = returned_dict (RambleModeV2.success req result))
  \/ (exists stderr, r = RambleModeV2.conversion_failed stderr)
  \/ r = RambleModeV2.timed_out
  \/ (exists e, r = RambleModeV2.internal_error e).
Proof.
  rewrite v2_transcribe_outcome. cbv zeta.
  assert (Hhandled : forall e, v2_handled e = Returned r ->
            r = RambleModeV2.timed_out \/ exists e', r = RambleModeV2.internal_error e').
  { intros e. unfold v2_handled. destruct (is_TimeoutExpired e).
    - intros [= <-]. by left.
    - destruct (is_Exception e); [|done]. intros [= <-]. right. by exists e. }
  destruct (fst (ffmpeg w _ _)) as [returncode stderr|e];
    [|intros Hr; right; right; by apply (Hhandled e)].
  destruct (returncode =? 0).
  - destruct (model_transcribe _ _ _ _) as [result|e];
      [|intros Hr; right; right; by apply (Hhandled e)].
    intros [= <-]. left. by exists result.
  - intros [= <-]. right. left. by exists stderr.
Qed.

Lemma multi_returned_bodies (w : world) (req : RambleModeV2Multi.request)
    (st : process) (r : response) :
  fst (RambleModeV2Multi.transcribe w req st) = Returned r ->
  (exists result, r = returned_dict (RambleModeV2Multi.success req result))
  \/ r = RambleModeV2Multi.invalid_model
  \/ (exists e, r = RambleModeV2Multi.internal_error e).
Proof.
  destruct (assoc (RambleModeV2Multi.model req) RambleModeV2Multi.MODELS)
    as [info|] eqn:Hknown.
  - rewrite (multi_transcribe_outcome _ _ _ _ Hknown). cbv zeta.
    assert (Hhandled : forall e, multi_handled e = Returned r ->
              exists e', r = RambleModeV2Multi.internal_error e').
    { intros e. unfold multi_handled. destruct (is_Exception e); [|done].
      intros [= <-]. by exists e. }
    destruct (ffmpeg w _ _) as [[returncode stderr|e] wrote];
      [|intros Hr; right; right; by apply (Hhandled e)].
    destruct (handle_for _ _ _) as [model_obj|e];
      [|intros Hr; right; right; by apply (Hhandled e)].
    destruct (model_transcribe _ _ _ _) as [result|e];
      [|intros Hr; right; right; by apply (Hhandled e)].
    intros [= <-]. left. by exists result.
  - unfold RambleModeV2Multi.transcribe. rewrite Hknown. intros [= <-].
    right. by left.
Qed.

(** X21: [print_transcription] raises on no body that either service
    sends, with or without the segments: the keys it reads of a body of status
    "success" are there and the times of the segments are numbers, and for
    every other body (an error of either service, with or without a "status")
    it stops after the failure message. *)
Theorem print_transcription_on_served_bodies (w : world) (st : process)
    (show_segments : bool) :
  (forall (req : RambleModeV2.request) (r : response),
     fst (RambleModeV2.transcribe w req st) = Returned r ->
     RambleCli.print_transcription (content r) show_segments = RambleCli.Done tt)
  /\ (forall (req : RambleModeV2Multi.request) (r : response),
        fst (RambleModeV2Multi.transcribe w req st) = Returned r ->
        RambleCli.print_transcription (content r) show_segments = RambleCli.Done tt).
Proof.
  split; intros req r Hserved.
  - destruct (v2_returned_bodies w req st r Hserved)
      as [[result ->] | [[stderr ->] | [-> | [e ->]]]];
      [apply print_v2_success|done..].
  - destruct (multi_returned_bodies w req st r Hserved)
      as [[result ->] | [-> | [e ->]]];
      [apply print_multi_success|done..].
Qed.

(** The answers to the short recording and to an unknown model. *)
Lemma print_transcription_on_served_bodies_witness :
  RambleCli.print_transcription
    (content (returned_dict
       (RambleModeV2.success (RambleModeV2.Request ".ogg" None "transcribe" true)
          memo_result))) true
  = RambleCli.Done tt
  /\ RambleCli.print_transcription (content RambleModeV2Multi.invalid_model) true
     = RambleCli.Done tt.
Proof.
  split.
  - apply (proj1 (print_transcription_on_served_bodies
             (World false "/tmp/tmpm3m0x1ab" (fun _ _ => (Completed 0 "", true))
                (fun _ _ => None) (fun _ _ _ => Returned memo_result))
             fresh true)
             (RambleModeV2.Request ".ogg" None "transcribe" true)).
    vm_compute. reflexivity.
  - apply (proj2 (print_transcription_on_served_bodies silent_world fresh true)
             (RambleModeV2Multi.Request ".ogg" "giant" None "transcribe")).
    reflexivity.
Defined.
